(** * ChatApp: session lifecycle and conversation synchronisation

    A shallow embedding of the chat client's session handling
    ([AuthService], [initializeAuth]), of its remote store client
    ([ApiService]) and of the two [App] components (polling, sign-out and
    the send pipeline), with the properties of the specification stated
    and settled against it.

    Asynchronous functions are embedded as programs of a small free monad:
    every [await] and every call that leaves the function (storage, clock,
    network, React state setters, console) is a [Call] node whose
    continuation receives what the environment answered, either a resolved
    value or a rejection.  [try]/[catch]/[finally] are functions on such
    programs.  A program is run against a world that holds the browser
    storage, the React state, the remote store and the oracles that decide
    what the network answers. *)

From Stdlib Require Import ZArith List String Bool Arith Lia.
Import ListNotations.
Local Open Scope string_scope.
Local Open Scope list_scope.
Local Open Scope Z_scope.

Set Warnings "-register-all".

(* ================================================================== *)
(** ** JavaScript values *)
(* ================================================================== *)

(** Values that cross the untyped boundaries of the program: what
    [JSON.parse] yields for the persisted session, the bodies of the auth,
    GraphQL and webhook responses.  Numbers that occur are integer
    millisecond time stamps and second counts; [JNaN] is the one
    non-integer the code can produce. *)
Inductive jsval : Type :=
| JUndefined
| JNull
| JBool (b : bool)
| JNum (n : Z)
| JNaN
| JStr (s : string)
| JArr (items : list jsval)
| JObj (fields : list (string * jsval)).

(** An awaited promise, or a call that may throw. *)
Inductive outcome (A : Type) : Type :=
| Resolved (a : A)
| Rejected (e : string).
Arguments Resolved {A} a.
Arguments Rejected {A} e.

(** Own-property lookup in a parsed object; the first binding wins. *)
Fixpoint lookup_field (k : string) (fields : list (string * jsval)) : jsval :=
  match fields with
  | [] => JUndefined
  | (k', v) :: rest => if String.eqb k k' then v else lookup_field k rest
  end.

(** [v.k]: a [TypeError] on [undefined] and [null], the own property of an
    object, [undefined] on every other value (none of the names the
    program reads is a built-in property of a string, number or array). *)
Definition get_prop (v : jsval) (k : string) : outcome jsval :=
  match v with
  | JUndefined | JNull => Rejected "TypeError"
  | JObj fields => Resolved (lookup_field k fields)
  | _ => Resolved JUndefined
  end.

(** [v?.k] *)
Definition get_prop_opt (v : jsval) (k : string) : jsval :=
  match v with
  | JObj fields => lookup_field k fields
  | _ => JUndefined
  end.

(** JavaScript truthiness, as used by [!x], [x || y], [x && y], [if (x)]. *)
Definition truthy (v : jsval) : bool :=
  match v with
  | JUndefined | JNull | JNaN => false
  | JBool b => b
  | JNum n => negb (n =? 0)
  | JStr s => negb (String.eqb s EmptyString)
  | JArr _ | JObj _ => true
  end.

(** [a || b] *)
Definition js_or (a b : jsval) : jsval := if truthy a then a else b.

(** The built-ins of the JavaScript engine the program relies on and whose
    algorithms are not part of it. *)
Class JSEngine : Type := {
  JSON_parse : string -> option jsval;      (* [None]: a [SyntaxError] *)
  JSON_stringify : jsval -> string;
  StringToNumber : string -> option Z;      (* [None]: [NaN] *)
  ArrayToString : list jsval -> string      (* [Array.prototype.toString] *)
}.

Section Coercions.
Context {engine : JSEngine}.

(** [ToNumber]; [None] is [NaN].  A plain object converts through
    ["[object Object]"], an array through its [toString]. *)
Definition ToNumber (v : jsval) : option Z :=
  match v with
  | JUndefined | JNaN => None
  | JNull => Some 0
  | JBool b => Some (if b then 1 else 0)
  | JNum n => Some n
  | JStr s => StringToNumber s
  | JArr items => StringToNumber (ArrayToString items)
  | JObj _ => StringToNumber "[object Object]"
  end.

Definition of_number (n : option Z) : jsval :=
  match n with Some z => JNum z | None => JNaN end.

(** [a <= b] and [a < b] where [b] is a number: both compare after
    [ToNumber] and are [false] as soon as one side is [NaN]. *)
Definition js_le (a b : jsval) : bool :=
  match ToNumber a, ToNumber b with
  | Some x, Some y => x <=? y
  | _, _ => false
  end.

Definition js_lt (a b : jsval) : bool :=
  match ToNumber a, ToNumber b with
  | Some x, Some y => x <? y
  | _, _ => false
  end.

(** [a - b], [a * b], and [a + b] for a number [a]. *)
Definition js_sub (a b : jsval) : jsval :=
  match ToNumber a, ToNumber b with
  | Some x, Some y => JNum (x - y)
  | _, _ => JNaN
  end.

Definition js_mul (a b : jsval) : jsval :=
  match ToNumber a, ToNumber b with
  | Some x, Some y => JNum (x * y)
  | _, _ => JNaN
  end.

Definition js_add_num (a : Z) (b : jsval) : jsval :=
  match ToNumber b with
  | Some y => JNum (a + y)
  | None => JNaN
  end.
End Coercions.

(* ================================================================== *)
(** ** Asynchronous programs *)
(* ================================================================== *)

Section Programs.
Variable action : Type.
Variable result : action -> Type.

Inductive Prog (R : Type) : Type :=
| Return (r : R)
| Throw (e : string)
| Call (a : action) (k : outcome (result a) -> Prog R).
Arguments Return {R} r.
Arguments Throw {R} e.
Arguments Call {R} a k.

(** Perform [a]; a rejection is thrown at the call site. *)
Definition call (a : action) : Prog (result a) :=
  Call a (fun o => match o with
                   | Resolved v => Return v
                   | Rejected e => Throw e
                   end).

Fixpoint bind {A B} (p : Prog A) (f : A -> Prog B) : Prog B :=
  match p with
  | Return r => f r
  | Throw e => Throw e
  | Call a k => Call a (fun o => bind (k o) f)
  end.

(** [try { p } catch (e) { h e }] *)
Fixpoint try_catch {A} (p : Prog A) (h : string -> Prog A) : Prog A :=
  match p with
  | Return r => Return r
  | Throw e => h e
  | Call a k => Call a (fun o => try_catch (k o) h)
  end.

(** [try { p } finally { q }] *)
Fixpoint try_finally {A} (p : Prog A) (q : Prog unit) : Prog A :=
  match p with
  | Return r => bind q (fun _ => Return r)
  | Throw e => bind q (fun _ => Throw e)
  | Call a k => Call a (fun o => try_finally (k o) q)
  end.

(** Lift the outcome of a pure step that may throw. *)
Definition lift {A} (o : outcome A) : Prog A :=
  match o with
  | Resolved v => Return v
  | Rejected e => Throw e
  end.

(** Running a program: the handler answers each call and moves the
    world. *)
Section Run.
Variable World : Type.
Variable handle : forall a : action, World -> outcome (result a) * World.

Fixpoint run {R} (p : Prog R) (w : World) : outcome R * World :=
  match p with
  | Return r => (Resolved r, w)
  | Throw e => (Rejected e, w)
  | Call a k => let (o, w') := handle a w in run (k o) w'
  end.
End Run.
End Programs.

Arguments Return {action result R} r.
Arguments Throw {action result R} e.
Arguments Call {action result R} a k.
Arguments call {action result} a.
Arguments bind {action result A B} p f.
Arguments try_catch {action result A} p h.
Arguments try_finally {action result A} p q.
Arguments lift {action result A} o.
Arguments run {action result World} handle {R} p w.

Declare Scope prog_scope.
Delimit Scope prog_scope with prog.
Notation "x <- p ;; q" := (bind p (fun x => q))
  (at level 61, p at next level, right associativity) : prog_scope.
Notation "p ;; q" := (bind p (fun _ => q))
  (at level 61, right associativity) : prog_scope.

Local Open Scope prog_scope.

(* ================================================================== *)
(** ** Data shared by both clients *)
(* ================================================================== *)

(** [sender_type: 'user' | 'bot'] *)
Inductive SenderType : Type := user_sender | bot_sender.

Definition SenderType_eqb (a b : SenderType) : bool :=
  match a, b with
  | user_sender, user_sender | bot_sender, bot_sender => true
  | _, _ => false
  end.

(** [interface Message]; [chat_id] is the chat the row belongs to in the
    remote store (a column the first [App] does not select). *)
Record Message : Type := {
  msg_id : string;
  chat_id : string;
  content : string;
  sender_type : SenderType;
  user_id : string;
  created_at : string
}.

(** [interface Chat] *)
Record Chat : Type := {
  id : string;
  title : string;
  chat_created_at : string;
  updated_at : string
}.

(** What [fetch] resolves to: the status line and what [json()] and
    [text()] will give when the body is read. *)
Record Response : Type := {
  status : Z;
  json : outcome jsval;
  text : outcome string
}.

(** [response.ok] *)
Definition ok (r : Response) : bool := (200 <=? status r) && (status r <=? 299).

(** The body of the reply webhook request. *)
Record WebhookPayload : Type := {
  action_name : string;
  input_chat_id : jsval;
  input_message : string;
  hasura_role : string;
  hasura_user_id : jsval
}.

(** How the remote store answers an [insert_messages_one] mutation: the
    row is created with the identity the server gives it, or the
    mutation resolves without a row, or it fails; a mutation that fails
    or resolves without a row leaves no row in the store. *)
Inductive CreateAnswer : Type :=
| Created (new_id new_created_at new_user_id : string)
| NoRow
| CreateFailed (e : string).

(** How it answers a [messages] query. *)
Inductive QueryAnswer : Type :=
| Served
| NoData
| QueryFailed (e : string).

(** The rows of one chat, in the order of the store ([created_at]
    ascending: rows are appended as they are created). *)
Definition messages_of (chatId : string) (rows : list Message) : list Message :=
  filter (fun m => String.eqb (chat_id m) chatId) rows.

Definition count_sender (s : SenderType) (rows : list Message) : nat :=
  List.length (filter (fun m => SenderType_eqb (sender_type m) s) rows).

(** [s] when it is a non-empty string: the truthiness test of
    [string | null]. *)
Definition nonempty (s : option string) : option string :=
  match s with
  | Some x => if String.eqb x EmptyString then None else Some x
  | None => None
  end.

Definition shift {A} (f : nat -> A) : nat -> A := fun n => f (S n).

(** The answers [f], preceded by [x]. *)
Definition first_then {A} (x : A) (f : nat -> A) : nat -> A :=
  fun n => match n with O => x | S k => f k end.

(* ================================================================== *)
(** ** The Apollo client: [AuthService] and the first [App] *)
(* ================================================================== *)

Module ApolloApp.

(** The React state of [App]. [user] and [session] are [JNull] when
    absent; the Apollo client is represented by the access token it was
    created with. *)
Record AppState : Type := {
  user : jsval;
  session : jsval;
  apolloClient : option jsval;
  chats : list Chat;
  selectedChatId : option string;
  messages : list Message;
  loading : bool;
  sidebarOpen : bool;
  initializing : bool
}.

Definition initial_state : AppState :=
  {| user := JNull; session := JNull; apolloClient := None; chats := [];
     selectedChatId := None; messages := []; loading := false;
     sidebarOpen := false; initializing := true |}.

Definition set_user (v : jsval) (s : AppState) : AppState :=
  {| user := v; session := session s; apolloClient := apolloClient s;
     chats := chats s; selectedChatId := selectedChatId s;
     messages := messages s; loading := loading s;
     sidebarOpen := sidebarOpen s; initializing := initializing s |}.

Definition set_session (v : jsval) (s : AppState) : AppState :=
  {| user := user s; session := v; apolloClient := apolloClient s;
     chats := chats s; selectedChatId := selectedChatId s;
     messages := messages s; loading := loading s;
     sidebarOpen := sidebarOpen s; initializing := initializing s |}.

Definition set_apolloClient (v : option jsval) (s : AppState) : AppState :=
  {| user := user s; session := session s; apolloClient := v;
     chats := chats s; selectedChatId := selectedChatId s;
     messages := messages s; loading := loading s;
     sidebarOpen := sidebarOpen s; initializing := initializing s |}.

Definition set_chats (v : list Chat) (s : AppState) : AppState :=
  {| user := user s; session := session s; apolloClient := apolloClient s;
     chats := v; selectedChatId := selectedChatId s;
     messages := messages s; loading := loading s;
     sidebarOpen := sidebarOpen s; initializing := initializing s |}.

Definition set_selectedChatId (v : option string) (s : AppState) : AppState :=
  {| user := user s; session := session s; apolloClient := apolloClient s;
     chats := chats s; selectedChatId := v;
     messages := messages s; loading := loading s;
     sidebarOpen := sidebarOpen s; initializing := initializing s |}.

Definition set_messages (v : list Message) (s : AppState) : AppState :=
  {| user := user s; session := session s; apolloClient := apolloClient s;
     chats := chats s; selectedChatId := selectedChatId s;
     messages := v; loading := loading s;
     sidebarOpen := sidebarOpen s; initializing := initializing s |}.

Definition set_loading (v : bool) (s : AppState) : AppState :=
  {| user := user s; session := session s; apolloClient := apolloClient s;
     chats := chats s; selectedChatId := selectedChatId s;
     messages := messages s; loading := v;
     sidebarOpen := sidebarOpen s; initializing := initializing s |}.

Definition set_initializing (v : bool) (s : AppState) : AppState :=
  {| user := user s; session := session s; apolloClient := apolloClient s;
     chats := chats s; selectedChatId := selectedChatId s;
     messages := messages s; loading := loading s;
     sidebarOpen := sidebarOpen s; initializing := v |}.

(** What leaves a function of this client. *)
Inductive action : Type :=
| GetItem                                (* localStorage.getItem('nhost_session') *)
| SetItem (value : string)               (* localStorage.setItem('nhost_session', value) *)
| RemoveItem                             (* localStorage.removeItem('nhost_session') *)
| DateNow                                (* Date.now() *)
| FetchToken (body : string)             (* POST authUrl/token *)
| MutateCreateMessage (chatId : string) (content : jsval) (senderType : SenderType)
| QueryMessages (chatId : string)        (* GET_MESSAGES, network-only *)
| FetchWebhook (payload : WebhookPayload)
| SetUser (v : jsval)
| SetSession (v : jsval)
| SetChats (v : list Chat)
| SetSelectedChatId (v : option string)
| SetMessages (v : list Message)         (* setMessages(v) *)
| AppendMessage (m : Message)            (* setMessages(prev => [...prev, m]) *)
| SetLoading (v : bool)
| SetInitializing (v : bool)
| ConsoleLog (label : string)
| ConsoleError (label : string).

(** What each call gives back.  A mutation gives
    [data?.insert_messages_one], a query [data?.messages]. *)
Definition result (a : action) : Type :=
  match a with
  | GetItem => option string
  | DateNow => Z
  | FetchToken _ | FetchWebhook _ => Response
  | MutateCreateMessage _ _ _ => option Message
  | QueryMessages _ => option (list Message)
  | _ => unit
  end.

(** The calls on which the caller is suspended until the network
    answers. *)
Definition is_network (a : action) : bool :=
  match a with
  | FetchToken _ | MutateCreateMessage _ _ _ | QueryMessages _
  | FetchWebhook _ => true
  | _ => false
  end.

Inductive Request : Type :=
| ReqToken (body : string)
| ReqCreateMessage (chatId : string) (content : jsval) (senderType : SenderType)
| ReqMessages (chatId : string)
| ReqWebhook (payload : WebhookPayload).

(** The world a program runs in: the browser storage under the session
    key, the React state, the rows of the remote store, the console,
    the requests sent so far, and what the clock and the three services
    will answer from now on (index 0 is the next answer). *)
Record World : Type := {
  storage : option string;
  ui : AppState;
  remote : list Message;
  console : list string;
  requests : list Request;
  clock : nat -> Z;
  token_endpoint : nat -> outcome Response;
  store_create : nat -> CreateAnswer;
  store_query : nat -> QueryAnswer;
  webhook : nat -> outcome Response
}.

Definition with_storage (v : option string) (w : World) : World :=
  {| storage := v; ui := ui w; remote := remote w; console := console w;
     requests := requests w; clock := clock w;
     token_endpoint := token_endpoint w; store_create := store_create w;
     store_query := store_query w; webhook := webhook w |}.

Definition with_ui (f : AppState -> AppState) (w : World) : World :=
  {| storage := storage w; ui := f (ui w); remote := remote w;
     console := console w; requests := requests w; clock := clock w;
     token_endpoint := token_endpoint w; store_create := store_create w;
     store_query := store_query w; webhook := webhook w |}.

Definition with_remote (v : list Message) (w : World) : World :=
  {| storage := storage w; ui := ui w; remote := v; console := console w;
     requests := requests w; clock := clock w;
     token_endpoint := token_endpoint w; store_create := store_create w;
     store_query := store_query w; webhook := webhook w |}.

Definition with_console (v : list string) (w : World) : World :=
  {| storage := storage w; ui := ui w; remote := remote w; console := v;
     requests := requests w; clock := clock w;
     token_endpoint := token_endpoint w; store_create := store_create w;
     store_query := store_query w; webhook := webhook w |}.

Definition sent (r : Request) (w : World) : World :=
  {| storage := storage w; ui := ui w; remote := remote w;
     console := console w; requests := requests w ++ [r]; clock := clock w;
     token_endpoint := token_endpoint w; store_create := store_create w;
     store_query := store_query w; webhook := webhook w |}.

Definition next_clock (w : World) : World :=
  {| storage := storage w; ui := ui w; remote := remote w;
     console := console w; requests := requests w; clock := shift (clock w);
     token_endpoint := token_endpoint w; store_create := store_create w;
     store_query := store_query w; webhook := webhook w |}.

Definition next_token (w : World) : World :=
  {| storage := storage w; ui := ui w; remote := remote w;
     console := console w; requests := requests w; clock := clock w;
     token_endpoint := shift (token_endpoint w);
     store_create := store_create w;
     store_query := store_query w; webhook := webhook w |}.

Definition next_create (w : World) : World :=
  {| storage := storage w; ui := ui w; remote := remote w;
     console := console w; requests := requests w; clock := clock w;
     token_endpoint := token_endpoint w;
     store_create := shift (store_create w);
     store_query := store_query w; webhook := webhook w |}.

Definition next_query (w : World) : World :=
  {| storage := storage w; ui := ui w; remote := remote w;
     console := console w; requests := requests w; clock := clock w;
     token_endpoint := token_endpoint w; store_create := store_create w;
     store_query := shift (store_query w); webhook := webhook w |}.

Definition next_webhook (w : World) : World :=
  {| storage := storage w; ui := ui w; remote := remote w;
     console := console w; requests := requests w; clock := clock w;
     token_endpoint := token_endpoint w; store_create := store_create w;
     store_query := store_query w; webhook := shift (webhook w) |}.

Definition request_of (a : action) : option Request :=
  match a with
  | FetchToken body => Some (ReqToken body)
  | MutateCreateMessage chatId c st => Some (ReqCreateMessage chatId c st)
  | QueryMessages chatId => Some (ReqMessages chatId)
  | FetchWebhook p => Some (ReqWebhook p)
  | _ => None
  end.

(** Sending the request of a network call. *)
Definition issue (a : action) (w : World) : World :=
  match request_of a with
  | Some r => sent r w
  | None => w
  end.

(** The answer to a call and its effect on the world.  The mutation
    declares [$content: String!]: the store refuses any other content.
    A created row carries the chat, content and role that were sent.  A
    served query gives the rows of the chat as they are at that
    moment. *)
Definition respond (a : action) (w : World) : outcome (result a) * World :=
  match a return outcome (result a) * World with
  | GetItem => (Resolved (storage w), w)
  | SetItem v => (Resolved tt, with_storage (Some v) w)
  | RemoveItem => (Resolved tt, with_storage None w)
  | DateNow => (Resolved (clock w 0%nat), next_clock w)
  | FetchToken _ => (token_endpoint w 0%nat, next_token w)
  | MutateCreateMessage chatId c st =>
      match store_create w 0%nat, c with
      | Created i t u, JStr s =>
          let m := {| msg_id := i; chat_id := chatId; content := s;
                      sender_type := st; user_id := u; created_at := t |} in
          (Resolved (Some m), with_remote (remote w ++ [m]) (next_create w))
      | Created _ _ _, _ =>
          (Rejected "GraphQL: content is not a String", next_create w)
      | NoRow, _ => (Resolved None, next_create w)
      | CreateFailed e, _ => (Rejected e, next_create w)
      end
  | QueryMessages chatId =>
      match store_query w 0%nat with
      | Served =>
          (Resolved (Some (messages_of chatId (remote w))), next_query w)
      | NoData => (Resolved None, next_query w)
      | QueryFailed e => (Rejected e, next_query w)
      end
  | FetchWebhook _ => (webhook w 0%nat, next_webhook w)
  | SetUser v => (Resolved tt, with_ui (set_user v) w)
  | SetSession v => (Resolved tt, with_ui (set_session v) w)
  | SetChats v => (Resolved tt, with_ui (set_chats v) w)
  | SetSelectedChatId v => (Resolved tt, with_ui (set_selectedChatId v) w)
  | SetMessages v => (Resolved tt, with_ui (set_messages v) w)
  | AppendMessage m =>
      (Resolved tt, with_ui (fun s => set_messages (messages s ++ [m]) s) w)
  | SetLoading v => (Resolved tt, with_ui (set_loading v) w)
  | SetInitializing v => (Resolved tt, with_ui (set_initializing v) w)
  | ConsoleLog l => (Resolved tt, with_console (console w ++ [l]) w)
  | ConsoleError l => (Resolved tt, with_console (console w ++ [l]) w)
  end.

(** A call made and answered without anything in between. *)
Definition handle (a : action) (w : World) : outcome (result a) * World :=
  respond a (issue a w).

Definition P (R : Type) : Type := Prog action result R.

Definition perform (a : action) : P (result a) := call a.

Definition exec {R} (p : P R) (w : World) : outcome R * World :=
  run handle p w.

(** A function that has been called: finished, or suspended on a
    network call whose request is out. *)
Inductive Task (R : Type) : Type :=
| Done (o : outcome R)
| Waiting (a : action) (k : outcome (result a) -> P R).
Arguments Done {R} o.
Arguments Waiting {R} a k.

(** Run a program up to its next suspension: storage, clock, state
    setters and console are served at once, a network call sends its
    request and suspends. *)
Fixpoint advance {R} (p : P R) (w : World) : Task R * World :=
  match p with
  | Return r => (Done (Resolved r), w)
  | Throw e => (Done (Rejected e), w)
  | Call a k =>
      if is_network a then (Waiting a k, issue a w)
      else let (o, w') := respond a w in advance (k o) w'
  end.

(** The answer to the call a task waits on arrives; the task runs on
    to its next suspension. *)
Definition settle {R} (t : Task R) (w : World) : Task R * World :=
  match t with
  | Done o => (Done o, w)
  | Waiting a k => let (o, w') := respond a w in advance (k o) w'
  end.

(** The call a task is suspended on. *)
Definition pending {R} (t : Task R) : option action :=
  match t with
  | Waiting a _ => Some a
  | Done _ => None
  end.

Section WithEngine.
Context {engine : JSEngine}.

(** *** [AuthService] *)

Definition session_object (accessToken refreshToken uid email displayName
                           expiresAt : jsval) : jsval :=
  JObj [("accessToken", accessToken);
        ("refreshToken", refreshToken);
        ("user", JObj [("id", uid); ("email", email);
                       ("displayName", displayName)]);
        ("expiresAt", expiresAt)].

Definition refreshSession (refreshToken : jsval) : P jsval :=
  try_catch
    (response <- perform (FetchToken
                  (JSON_stringify (JObj [("refreshToken", refreshToken)])));;
     data <- lift (json response);;
     if ok response then
       dsession <- lift (get_prop data "session");;
       if truthy dsession then
         accessToken <- lift (get_prop dsession "accessToken");;
         refreshToken' <- lift (get_prop dsession "refreshToken");;
         duser <- lift (get_prop dsession "user");;
         uid <- lift (get_prop duser "id");;
         email <- lift (get_prop duser "email");;
         displayName <- lift (get_prop duser "displayName");;
         now <- perform DateNow;;
         expiresIn <- lift (get_prop dsession "accessTokenExpiresIn");;
         let session :=
           session_object accessToken refreshToken' uid email displayName
             (js_add_num now (js_mul expiresIn (JNum 1000))) in
         perform (SetItem (JSON_stringify session));;
         Return session
       else Return JNull
     else Return JNull)
    (fun _ => Return JNull).

Definition getStoredSession : P jsval :=
  try_catch
    (stored <- perform GetItem;;
     match nonempty stored with
     | None => Return JNull
     | Some s =>
         session <- lift (match JSON_parse s with
                          | Some v => Resolved v
                          | None => Rejected "SyntaxError"
                          end);;
         expiresAt <- lift (get_prop session "expiresAt");;
         now <- perform DateNow;;
         (* Check if token is expired *)
         if js_le expiresAt (JNum now) then Return JNull
         else Return session
     end)
    (fun _ => Return JNull).

Definition signOut : P unit := perform RemoveItem.

(** *** [App] *)

Definition initializeAuth : P unit :=
  storedSession <- getStoredSession;;
  (if truthy storedSession then
     (* Check if token needs refresh *)
     expiresAt <- lift (get_prop storedSession "expiresAt");;
     now <- perform DateNow;;
     let timeUntilExpiry := js_sub expiresAt (JNum now) in
     let needsRefresh := js_lt timeUntilExpiry (JNum 300000) in
     if needsRefresh then
       refreshToken <- lift (get_prop storedSession "refreshToken");;
       refreshedSession <- refreshSession refreshToken;;
       if truthy refreshedSession then
         perform (SetSession refreshedSession);;
         u <- lift (get_prop refreshedSession "user");;
         perform (SetUser u)
       else signOut
     else
       perform (SetSession storedSession);;
       u <- lift (get_prop storedSession "user");;
       perform (SetUser u)
   else Return tt);;
  perform (SetInitializing false).
End WithEngine.

(** [loadMessages], with the Apollo client its closure captured. *)
Definition loadMessages (client : option jsval) (chatId : string) : P unit :=
  match client with
  | None => Return tt
  | Some _ =>
      try_catch
        (data <- perform (QueryMessages chatId);;
         match data with
         | Some l => perform (SetMessages l)
         | None => Return tt
         end)
        (fun _ => perform (ConsoleError "Error loading messages:"))
  end.

Definition handleSignOut : P unit :=
  signOut;;
  perform (SetUser JNull);;
  perform (SetSession JNull);;
  perform (SetChats []);;
  perform (SetMessages []);;
  perform (SetSelectedChatId None).

Definition could_not_process : string :=
  "Sorry, I could not process your message.".
Definition service_unavailable : string :=
  "Sorry, the chatbot service is currently unavailable. Please try again later.".
Definition encountered_error : string :=
  "Sorry, I encountered an error. Please try again.".

Definition append_if_row (data : option Message) : P unit :=
  match data with
  | Some m => perform (AppendMessage m)
  | None => Return tt
  end.

(** The three blocks of [handleSendMessage]: what follows the webhook
    answer, the body of the [try], and the [catch]. *)
Definition save_reply (chatId : string) (webhookResponse : Response) : P unit :=
  if ok webhookResponse then
    botResponseData <- lift (json webhookResponse);;
    perform (ConsoleLog "Bot response data:");;
    response <- lift (get_prop botResponseData "response");;
    let botMessage := js_or response (JStr could_not_process) in
    (* Save bot message *)
    botMessageData <-
      perform (MutateCreateMessage chatId botMessage bot_sender);;
    perform (ConsoleLog "Bot message saved:");;
    append_if_row botMessageData
  else
    perform (ConsoleError "N8N webhook failed with status:");;
    errorText <- lift (text webhookResponse);;
    perform (ConsoleError "N8N webhook error response:");;
    (* Add fallback bot message *)
    errorMessageData <-
      perform (MutateCreateMessage chatId
                 (JStr service_unavailable) bot_sender);;
    append_if_row errorMessageData.

Definition send_and_reply (st : AppState) (chatId content : string) : P unit :=
  perform (ConsoleLog "Sending message:");;
  (* Save user message *)
  userMessageData <-
    perform (MutateCreateMessage chatId (JStr content) user_sender);;
  perform (ConsoleLog "User message saved:");;
  append_if_row userMessageData;;
  (* Call N8N webhook for bot response *)
  uid <- lift (get_prop (user st) "id");;
  let webhookPayload :=
    {| action_name := "sendMessage"; input_chat_id := JStr chatId;
       input_message := content; hasura_role := "user";
       hasura_user_id := uid |} in
  perform (ConsoleLog "Calling N8N webhook with payload:");;
  webhookResponse <- perform (FetchWebhook webhookPayload);;
  perform (ConsoleLog "N8N webhook response status:");;
  save_reply chatId webhookResponse.

Definition save_error_message (chatId : string) : P unit :=
  perform (ConsoleError "Error sending message:");;
  (* Add error message *)
  try_catch
    (errorMessageData <-
       perform (MutateCreateMessage chatId
                  (JStr encountered_error) bot_sender);;
     append_if_row errorMessageData)
    (fun _ => perform (ConsoleError "Error saving error message:")).

(** [handleSendMessage], with the state its closure captured at the
    render it was created in. *)
Definition handleSendMessage (st : AppState) (content : string) : P unit :=
  match nonempty (selectedChatId st), apolloClient st,
        truthy (session st), truthy (user st) with
  | Some chatId, Some _, true, true =>
      perform (SetLoading true);;
      try_finally
        (try_catch
           (send_and_reply st chatId content)
           (fun _ => save_error_message chatId))
        (perform (SetLoading false))
  | _, _, _, _ => Return tt
  end.

(** *** The polling effects

    The two effects that depend on [[selectedChatId, apolloClient]], as
    functions of the state of the render they run in. *)

(** "Load messages when chat is selected" *)
Definition load_effect (st : AppState) : P unit :=
  match nonempty (selectedChatId st), apolloClient st with
  | Some chatId, Some _ => loadMessages (apolloClient st) chatId
  | _, _ => perform (SetMessages [])
  end.

(** "Polling for real-time updates": the closure the interval calls
    every 2000 ms, when one is set. *)
Definition polling_effect (st : AppState) : option (option jsval * string) :=
  match nonempty (selectedChatId st), apolloClient st with
  | Some chatId, Some c => Some (Some c, chatId)
  | _, _ => None
  end.

(** The component between two events: the world, the interval that is
    set (if any) with what its callback captured, and the calls of
    [loadMessages] made so far. *)
Record Sched : Type := {
  world : World;
  timer : option (option jsval * string);
  polls : list (Task unit)
}.

Inductive Event : Type :=
| SelectChat (c : option string)   (* setSelectedChatId(c) and the re-render *)
| Tick                             (* the interval fires *)
| Arrive (i : nat).                (* the answer to call [i] arrives *)

Definition start (p : P unit) (s : Sched) : Sched :=
  let (t, w) := advance p (world s) in
  {| world := w; timer := timer s; polls := polls s ++ [t] |}.

Fixpoint replace_nth {A} (i : nat) (x : A) (l : list A) : list A :=
  match l, i with
  | [], _ => []
  | _ :: r, O => x :: r
  | y :: r, S j => y :: replace_nth j x r
  end.

Definition option_string_eqb (a b : option string) : bool :=
  match a, b with
  | Some x, Some y => String.eqb x y
  | None, None => true
  | _, _ => false
  end.

Definition step (e : Event) (s : Sched) : Sched :=
  match e with
  | SelectChat c =>
      if option_string_eqb c (selectedChatId (ui (world s))) then s
      else
        let w1 := with_ui (set_selectedChatId c) (world s) in
        (* the cleanup clears the old interval, the effects run again *)
        start (load_effect (ui w1))
          {| world := w1; timer := polling_effect (ui w1); polls := polls s |}
  | Tick =>
      match timer s with
      | Some (client, chatId) => start (loadMessages client chatId) s
      | None => s
      end
  | Arrive i =>
      match nth_error (polls s) i with
      | Some t =>
          let (t', w') := settle t (world s) in
          {| world := w'; timer := timer s;
             polls := replace_nth i t' (polls s) |}
      | None => s
      end
  end.

Definition steps (es : list Event) (s : Sched) : Sched :=
  fold_left (fun acc e => step e acc) es s.

(** *** Derived descriptions

    What the runs below are proved to amount to. *)

(** The request [refreshSession] sends. *)
Definition token_request (engine : JSEngine) (refreshToken : jsval) : Request :=
  ReqToken (JSON_stringify (JObj [("refreshToken", refreshToken)])).

(** The row a created message becomes. *)
Definition row (i t u chatId s : string) (st : SenderType) : Message :=
  {| msg_id := i; chat_id := chatId; content := s; sender_type := st;
     user_id := u; created_at := t |}.

(** The rows the [catch] of [handleSendMessage] adds, by the answer of
    the store to its mutation. *)
Definition error_rows (chatId : string) (a : CreateAnswer) : list Message :=
  match a with
  | Created i t u => [row i t u chatId encountered_error bot_sender]
  | _ => []
  end.

(** How [save_reply] ends, by the webhook response and the answer of
    the store to its mutation: with the rows it added, or thrown before
    or by the mutation. *)
Inductive ReplyPlan : Type :=
| Saved (rows : list Message)
| ThrownBeforeStore
| ThrownByStore.

Definition reply_plan (chatId : string) (r : Response) (a : CreateAnswer)
  : ReplyPlan :=
  if ok r then
    match json r with
    | Rejected _ => ThrownBeforeStore
    | Resolved body =>
        match get_prop body "response" with
        | Rejected _ => ThrownBeforeStore
        | Resolved v =>
            match a, js_or v (JStr could_not_process) with
            | Created i t u, JStr s => Saved [row i t u chatId s bot_sender]
            | Created _ _ _, _ => ThrownByStore
            | NoRow, _ => Saved []
            | CreateFailed _, _ => ThrownByStore
            end
        end
    end
  else
    match text r with
    | Rejected _ => ThrownBeforeStore
    | Resolved _ =>
        match a with
        | Created i t u =>
            Saved [row i t u chatId service_unavailable bot_sender]
        | NoRow => Saved []
        | CreateFailed _ => ThrownByStore
        end
    end.

(** The bot rows one send adds, in a world whose next store answer is
    the one to the user's message. *)
Definition bot_rows (chatId : string) (w : World) : list Message :=
  match webhook w 0%nat with
  | Rejected _ => error_rows chatId (store_create w 1%nat)
  | Resolved r =>
      match reply_plan chatId r (store_create w 1%nat) with
      | Saved rows => rows
      | ThrownBeforeStore => error_rows chatId (store_create w 1%nat)
      | ThrownByStore => error_rows chatId (store_create w 2%nat)
      end
  end.

(** The reply an ok webhook response carries when it is usable: a
    non-empty string under [response]. *)
Definition usable_reply (r : Response) : option string :=
  match json r with
  | Resolved body =>
      match get_prop body "response" with
      | Resolved (JStr s) => if String.eqb s EmptyString then None else Some s
      | _ => None
      end
  | Rejected _ => None
  end.

(** The text that stands in for a reply that is not usable. *)
Definition substitute_text (r : Response) : string :=
  match json r with
  | Resolved body =>
      match get_prop body "response" with
      | Resolved v => if truthy v then encountered_error else could_not_process
      | Rejected _ => encountered_error
      end
  | Rejected _ => encountered_error
  end.

(** [w'] is [w] with [rows] added to the store and to the message list,
    and [k] store answers consumed. *)
Definition grown (w w' : World) (rows : list Message) (k : nat) : Prop :=
  remote w' = remote w ++ rows
  /\ messages (ui w') = messages (ui w) ++ rows
  /\ (forall n, store_create w' n = store_create w (k + n)%nat).

Definition is_created (a : CreateAnswer) : bool :=
  match a with
  | Created _ _ _ => true
  | _ => false
  end.

(** The text of the bot message of a send whose mutations the store
    accepts, by the answer of the webhook: the reply when it is usable,
    a fixed text otherwise. *)
Definition bot_text (w : World) : string :=
  match webhook w 0%nat with
  | Rejected _ => encountered_error
  | Resolved r =>
      if ok r then
        match usable_reply r with
        | Some s => s
        | None => substitute_text r
        end
      else
        match text r with
        | Resolved _ => service_unavailable
        | Rejected _ => encountered_error
        end
  end.

Definition is_token_request (r : Request) : bool :=
  match r with
  | ReqToken _ => true
  | _ => false
  end.

(** The requests to the token endpoint among those sent so far. *)
Definition token_requests (w : World) : list Request :=
  filter is_token_request (requests w).

(** A program that calls the token endpoint on no path. *)
Fixpoint no_refresh {R} (p : P R) : Prop :=
  match p with
  | Return _ | Throw _ => True
  | Call a k =>
      match a with
      | FetchToken _ => False
      | _ => True
      end
      /\ forall o, no_refresh (k o)
  end.

End ApolloApp.

(* ================================================================== *)
(** ** The Nhost client: [ApiService] and the second [App] *)
(* ================================================================== *)

Module NhostApp.

(** The React state of [App].  What the store returns is kept as it
    arrives. *)
Record AppState : Type := {
  user : jsval;
  isAuthenticated : bool;
  isLoading : bool;
  chats : jsval;
  currentChat : jsval;
  messages : jsval;
  isSidebarOpen : bool;
  isSendingMessage : bool
}.

Definition initial_state : AppState :=
  {| user := JNull; isAuthenticated := false; isLoading := true;
     chats := JArr []; currentChat := JNull; messages := JArr [];
     isSidebarOpen := false; isSendingMessage := false |}.

Definition set_user (v : jsval) (s : AppState) : AppState :=
  {| user := v; isAuthenticated := isAuthenticated s;
     isLoading := isLoading s; chats := chats s;
     currentChat := currentChat s; messages := messages s;
     isSidebarOpen := isSidebarOpen s;
     isSendingMessage := isSendingMessage s |}.

Definition set_isAuthenticated (v : bool) (s : AppState) : AppState :=
  {| user := user s; isAuthenticated := v;
     isLoading := isLoading s; chats := chats s;
     currentChat := currentChat s; messages := messages s;
     isSidebarOpen := isSidebarOpen s;
     isSendingMessage := isSendingMessage s |}.

Definition set_chats (v : jsval) (s : AppState) : AppState :=
  {| user := user s; isAuthenticated := isAuthenticated s;
     isLoading := isLoading s; chats := v;
     currentChat := currentChat s; messages := messages s;
     isSidebarOpen := isSidebarOpen s;
     isSendingMessage := isSendingMessage s |}.

Definition set_currentChat (v : jsval) (s : AppState) : AppState :=
  {| user := user s; isAuthenticated := isAuthenticated s;
     isLoading := isLoading s; chats := chats s;
     currentChat := v; messages := messages s;
     isSidebarOpen := isSidebarOpen s;
     isSendingMessage := isSendingMessage s |}.

Definition set_messages (v : jsval) (s : AppState) : AppState :=
  {| user := user s; isAuthenticated := isAuthenticated s;
     isLoading := isLoading s; chats := chats s;
     currentChat := currentChat s; messages := v;
     isSidebarOpen := isSidebarOpen s;
     isSendingMessage := isSendingMessage s |}.

Definition set_isSidebarOpen (v : bool) (s : AppState) : AppState :=
  {| user := user s; isAuthenticated := isAuthenticated s;
     isLoading := isLoading s; chats := chats s;
     currentChat := currentChat s; messages := messages s;
     isSidebarOpen := v;
     isSendingMessage := isSendingMessage s |}.

Definition set_isSendingMessage (v : bool) (s : AppState) : AppState :=
  {| user := user s; isAuthenticated := isAuthenticated s;
     isLoading := isLoading s; chats := chats s;
     currentChat := currentChat s; messages := messages s;
     isSidebarOpen := isSidebarOpen s;
     isSendingMessage := v |}.

(** The five operations of [ApiService], with their variables.  The
    role of a created message is part of the mutation text. *)
Inductive Operation : Type :=
| GetChats
| CreateChat (title : string)
| GetMessages (chatId : jsval)
| InsertMessage (chatId : jsval) (content : string) (senderType : SenderType)
| UpdateChat (chatId : jsval).

(** Modelled from the spec: the [nhost] client of [./services/nhost] is
    not among the sources.  Its three [auth] calls are actions answered
    by the world: the current access token, the current user, and a
    sign-out that goes to the auth service and drops the client's
    session. *)
Inductive action : Type :=
| GetAccessToken                      (* nhost.auth.getAccessToken() *)
| GetUser                             (* nhost.auth.getUser() *)
| AuthSignOut                         (* nhost.auth.signOut() *)
| FetchGraphql (op : Operation) (authorization : string)
| FetchWebhook (payload : WebhookPayload)
| SetUser (v : jsval)
| SetIsAuthenticated (v : bool)
| SetChats (v : jsval)
| SetCurrentChat (v : jsval)
| SetMessages (v : jsval)             (* setMessages(v) *)
| AppendMessage (m : jsval)           (* setMessages(prev => [...prev, m]) *)
| SetIsSidebarOpen (v : bool)
| SetIsSendingMessage (v : bool)
| ConsoleError (label : string).

Definition result (a : action) : Type :=
  match a with
  | GetAccessToken => option string
  | GetUser => jsval
  | FetchGraphql _ _ | FetchWebhook _ => Response
  | _ => unit
  end.

Inductive Request : Type :=
| ReqGraphql (op : Operation) (authorization : string)
| ReqWebhook (payload : WebhookPayload)
| ReqSignOut.

(** The Nhost session ([access_token], [auth_user]), the React state,
    the console, the requests sent so far, and what the services will
    answer from now on. *)
Record World : Type := {
  access_token : option string;
  auth_user : jsval;
  ui : AppState;
  console : list string;
  requests : list Request;
  graphql : nat -> outcome Response;
  webhook : nat -> outcome Response;
  auth_signout : nat -> outcome unit
}.

Definition with_auth (t : option string) (u : jsval) (w : World) : World :=
  {| access_token := t; auth_user := u; ui := ui w; console := console w;
     requests := requests w; graphql := graphql w; webhook := webhook w;
     auth_signout := auth_signout w |}.

Definition with_ui (f : AppState -> AppState) (w : World) : World :=
  {| access_token := access_token w; auth_user := auth_user w;
     ui := f (ui w); console := console w;
     requests := requests w; graphql := graphql w; webhook := webhook w;
     auth_signout := auth_signout w |}.

Definition with_console (v : list string) (w : World) : World :=
  {| access_token := access_token w; auth_user := auth_user w;
     ui := ui w; console := v;
     requests := requests w; graphql := graphql w; webhook := webhook w;
     auth_signout := auth_signout w |}.

Definition sent (r : Request) (w : World) : World :=
  {| access_token := access_token w; auth_user := auth_user w;
     ui := ui w; console := console w;
     requests := requests w ++ [r]; graphql := graphql w;
     webhook := webhook w; auth_signout := auth_signout w |}.

Definition next_graphql (w : World) : World :=
  {| access_token := access_token w; auth_user := auth_user w;
     ui := ui w; console := console w;
     requests := requests w; graphql := shift (graphql w);
     webhook := webhook w; auth_signout := auth_signout w |}.

Definition next_webhook (w : World) : World :=
  {| access_token := access_token w; auth_user := auth_user w;
     ui := ui w; console := console w;
     requests := requests w; graphql := graphql w;
     webhook := shift (webhook w); auth_signout := auth_signout w |}.

Definition next_signout (w : World) : World :=
  {| access_token := access_token w; auth_user := auth_user w;
     ui := ui w; console := console w;
     requests := requests w; graphql := graphql w;
     webhook := webhook w; auth_signout := shift (auth_signout w) |}.

Fixpoint chars (s : string) : list jsval :=
  match s with
  | EmptyString => []
  | String c r => JStr (String c EmptyString) :: chars r
  end.

(** [[...v]]: the elements of an array, the characters of a string; no
    other value of this model is iterable. *)
Definition spread (v : jsval) : option (list jsval) :=
  match v with
  | JArr l => Some l
  | JStr s => Some (chars s)
  | _ => None
  end.

(** The updater [prev => [...prev, m]]; it throws when React applies it
    to a state that is not iterable, and the state keeps its value. *)
Definition append_message (m : jsval) (s : AppState) : AppState :=
  match spread (messages s) with
  | Some l => set_messages (JArr (l ++ [m])) s
  | None => s
  end.

Definition handle (a : action) (w : World) : outcome (result a) * World :=
  match a return outcome (result a) * World with
  | GetAccessToken => (Resolved (access_token w), w)
  | GetUser => (Resolved (auth_user w), w)
  | AuthSignOut =>
      (auth_signout w 0%nat,
       with_auth None JNull (next_signout (sent ReqSignOut w)))
  | FetchGraphql op auth =>
      (graphql w 0%nat, next_graphql (sent (ReqGraphql op auth) w))
  | FetchWebhook p =>
      (webhook w 0%nat, next_webhook (sent (ReqWebhook p) w))
  | SetUser v => (Resolved tt, with_ui (set_user v) w)
  | SetIsAuthenticated v => (Resolved tt, with_ui (set_isAuthenticated v) w)
  | SetChats v => (Resolved tt, with_ui (set_chats v) w)
  | SetCurrentChat v => (Resolved tt, with_ui (set_currentChat v) w)
  | SetMessages v => (Resolved tt, with_ui (set_messages v) w)
  | AppendMessage m => (Resolved tt, with_ui (append_message m) w)
  | SetIsSidebarOpen v => (Resolved tt, with_ui (set_isSidebarOpen v) w)
  | SetIsSendingMessage v =>
      (Resolved tt, with_ui (set_isSendingMessage v) w)
  | ConsoleError l => (Resolved tt, with_console (console w ++ [l]) w)
  end.

Definition P (R : Type) : Type := Prog action result R.

Definition perform (a : action) : P (result a) := call a.

Definition exec {R} (p : P R) (w : World) : outcome R * World :=
  run handle p w.

(** *** [ApiService] *)

(** [v[0]] *)
Definition index0 (v : jsval) : jsval :=
  match v with
  | JArr (x :: _) => x
  | JStr (String c _) => JStr (String c EmptyString)
  | JObj fields => lookup_field "0" fields
  | _ => JUndefined
  end.

(** The message of [new Error(m)], which is only ever logged. *)
Definition error_text (m : jsval) : string :=
  match m with
  | JStr s => s
  | _ => "Error"
  end.

Definition bearer (token : option string) : string :=
  match nonempty token with
  | Some t => ("Bearer " ++ t)%string
  | None => EmptyString
  end.

Definition graphqlRequest (op : Operation) : P jsval :=
  token <- perform GetAccessToken;;
  response <- perform (FetchGraphql op (bearer token));;
  result <- lift (json response);;
  errors <- lift (get_prop result "errors");;
  if truthy errors then
    m <- lift (get_prop (index0 errors) "message");;
    Throw (error_text m)
  else lift (get_prop result "data").

Definition getChats : P jsval :=
  data <- graphqlRequest GetChats;;
  lift (get_prop data "chats").

Definition createChat (title : string) : P jsval :=
  data <- graphqlRequest (CreateChat title);;
  lift (get_prop data "insert_chats_one").

Definition getMessages (chatId : jsval) : P jsval :=
  data <- graphqlRequest (GetMessages chatId);;
  lift (get_prop data "messages").

Definition sendMessage (chatId : jsval) (content : string) : P jsval :=
  data <- graphqlRequest (InsertMessage chatId content user_sender);;
  lift (get_prop data "insert_messages_one").

Definition sendToChatbot (chatId : jsval) (message : string) : P unit :=
  u <- perform GetUser;;
  let payload :=
    {| action_name := "sendMessage"; input_chat_id := chatId;
       input_message := message; hasura_role := "user";
       hasura_user_id := js_or (get_prop_opt u "id") (JStr EmptyString) |} in
  _ <- perform (FetchWebhook payload);;
  Return tt.

Definition updateChatTimestamp (chatId : jsval) : P unit :=
  _ <- graphqlRequest (UpdateChat chatId);;
  Return tt.

(** *** [App] *)

Definition loadChats : P unit :=
  try_catch
    (userChats <- getChats;;
     perform (SetChats userChats))
    (fun _ => perform (ConsoleError "Failed to load chats:")).

Definition handleSignOut : P unit :=
  perform AuthSignOut;;
  perform (SetUser JNull);;
  perform (SetIsAuthenticated false);;
  perform (SetChats (JArr []));;
  perform (SetCurrentChat JNull);;
  perform (SetMessages (JArr []));;
  perform (SetIsSidebarOpen false).

(** [handleSendMessage], with the state its closure captured. *)
Definition handleSendMessage (st : AppState) (content : string) : P unit :=
  if negb (truthy (currentChat st)) || isSendingMessage st then Return tt
  else
    perform (SetIsSendingMessage true);;
    try_finally
      (try_catch
         ((* Send user message *)
          chatId <- lift (get_prop (currentChat st) "id");;
          userMessage <- sendMessage chatId content;;
          perform (AppendMessage userMessage);;
          (* Update chat timestamp *)
          chatId1 <- lift (get_prop (currentChat st) "id");;
          updateChatTimestamp chatId1;;
          (* Send to chatbot *)
          chatId2 <- lift (get_prop (currentChat st) "id");;
          sendToChatbot chatId2 content;;
          (* Refresh chats to update order *)
          loadChats)
         (fun _ => perform (ConsoleError "Failed to send message:")))
      (perform (SetIsSendingMessage false)).

(** What [graphqlRequest] makes of the answer to its request. *)
Definition graphql_outcome (o : outcome Response) : outcome jsval :=
  match o with
  | Rejected e => Rejected e
  | Resolved response =>
      match json response with
      | Rejected e => Rejected e
      | Resolved result =>
          match get_prop result "errors" with
          | Rejected e => Rejected e
          | Resolved errors =>
              if truthy errors then
                match get_prop (index0 errors) "message" with
                | Rejected e => Rejected e
                | Resolved m => Rejected (error_text m)
                end
              else get_prop result "data"
          end
      end
  end.

Definition is_webhook (r : Request) : bool :=
  match r with
  | ReqWebhook _ => true
  | _ => false
  end.

Definition creates_message_as (s : SenderType) (r : Request) : bool :=
  match r with
  | ReqGraphql (InsertMessage _ _ s') _ => SenderType_eqb s s'
  | _ => false
  end.

(** *** Derived descriptions

    What the runs below are proved to amount to. *)

Definition with_webhook (h : nat -> outcome Response) (w : World) : World :=
  {| access_token := access_token w; auth_user := auth_user w;
     ui := ui w; console := console w;
     requests := requests w; graphql := graphql w;
     webhook := h; auth_signout := auth_signout w |}.

(** The world after one GraphQL request. *)
Definition after_graphql (op : Operation) (w : World) : World :=
  next_graphql (sent (ReqGraphql op (bearer (access_token w))) w).

(** What a method of [ApiService] returns: [field] of the data. *)
Definition api_outcome (w : World) (field : string) : outcome jsval :=
  match graphql_outcome (graphql w 0%nat) with
  | Resolved data => get_prop data field
  | Rejected e => Rejected e
  end.

Definition chatbot_payload (chatId : jsval) (message : string) (w : World)
  : WebhookPayload :=
  {| action_name := "sendMessage"; input_chat_id := chatId;
     input_message := message; hasura_role := "user";
     hasura_user_id := js_or (get_prop_opt (auth_user w) "id") (JStr EmptyString) |}.

(** The end of a send that failed: the [catch], then the [finally]. *)
Definition failed_to_send (w : World) : World :=
  with_ui (set_isSendingMessage false)
    (with_console (console w ++ ["Failed to send message:"]) w).

(** The world [handleSendMessage] leaves when it goes past its
    guard. *)
Definition send_result (st : AppState) (content : string) (w : World) : World :=
  let chatId := get_prop_opt (currentChat st) "id" in
  let w0 := with_ui (set_isSendingMessage true) w in
  let w1 := after_graphql (InsertMessage chatId content user_sender) w0 in
  match api_outcome w0 "insert_messages_one" with
  | Rejected _ => failed_to_send w1
  | Resolved m =>
      let w2 := with_ui (append_message m) w1 in
      let w3 := after_graphql (UpdateChat chatId) w2 in
      match graphql_outcome (graphql w2 0%nat) with
      | Rejected _ => failed_to_send w3
      | Resolved _ =>
          let w4 := next_webhook
                      (sent (ReqWebhook (chatbot_payload chatId content w3))
                         w3) in
          match webhook w3 0%nat with
          | Rejected _ => failed_to_send w4
          | Resolved _ =>
              let w5 := after_graphql GetChats w4 in
              with_ui (set_isSendingMessage false)
                match api_outcome w4 "chats" with
                | Resolved v => with_ui (set_chats v) w5
                | Rejected _ =>
                    with_console (console w5 ++ ["Failed to load chats:"]) w5
                end
          end
      end
  end.

(** A method of [ApiService] that runs [op] fails with [msg] after one
    request, with the access token as it was. *)
Definition fails_without_retry {X} (p : P X) (op : Operation) (w : World)
           (msg : string) : Prop :=
  fst (exec p w) = Rejected msg
  /\ requests (snd (exec p w))
     = requests w ++ [ReqGraphql op (bearer (access_token w))]
  /\ access_token (snd (exec p w)) = access_token w.

End NhostApp.

(* ================================================================== *)
(** ** The Nhost client: the other handlers of [App] *)
(* ================================================================== *)

Module NhostScreens.
Import NhostApp.

(** [[x, ...l]]: a [TypeError] when [l] is not iterable. *)
Definition prepend (x l : jsval) : outcome jsval :=
  match spread l with
  | Some items => Resolved (JArr (x :: items))
  | None => Rejected "TypeError"
  end.

(** [handleNewChat], with the state its closure captured; [today] is what
    [new Date().toLocaleDateString()] gives. *)
Definition handleNewChat (st : AppState) (today : string) : P unit :=
  try_catch
    (let title := ("Chat " ++ today)%string in
     newChat <- createChat title;;
     chats' <- lift (prepend newChat (chats st));;
     perform (SetChats chats');;
     perform (SetCurrentChat newChat);;
     perform (SetMessages (JArr []));;
     perform (SetIsSidebarOpen false))
    (fun _ => perform (ConsoleError "Failed to create chat:")).

Definition handleChatSelect (chat : jsval) : P unit :=
  perform (SetCurrentChat chat);;
  try_catch
    (chatId <- lift (get_prop chat "id");;
     chatMessages <- getMessages chatId;;
     perform (SetMessages chatMessages))
    (fun _ =>
       perform (ConsoleError "Failed to load messages:");;
       perform (SetMessages (JArr []))).

(** The [User] that [handleAuthSuccess] and [checkAuth] make of the
    Nhost user. *)
Definition app_user (uid email displayName avatarUrl : jsval) : jsval :=
  JObj [("id", uid);
        ("email", js_or email (JStr EmptyString));
        ("displayName", js_or displayName JUndefined);
        ("avatarUrl", js_or avatarUrl JUndefined)].

Definition handleAuthSuccess : P unit :=
  nhostUser <- perform GetUser;;
  if truthy nhostUser then
    uid <- lift (get_prop nhostUser "id");;
    email <- lift (get_prop nhostUser "email");;
    displayName <- lift (get_prop nhostUser "displayName");;
    avatarUrl <- lift (get_prop nhostUser "avatarUrl");;
    perform (SetUser (app_user uid email displayName avatarUrl));;
    perform (SetIsAuthenticated true);;
    loadChats
  else Return tt.

(** "Poll for new messages every 2 seconds": the callback of the
    interval, when the effect sets one, with the state it captured. *)
Definition poll_messages (st : AppState) : option (P unit) :=
  if negb (truthy (currentChat st)) || negb (isAuthenticated st) then None
  else
    Some (try_catch
            (chatId <- lift (get_prop (currentChat st) "id");;
             latestMessages <- getMessages chatId;;
             perform (SetMessages latestMessages))
            (fun _ => perform (ConsoleError "Failed to fetch messages:"))).

End NhostScreens.

(* ================================================================== *)
(** ** The Apollo client: sign-up, sign-in and chat creation *)
(* ================================================================== *)

Module ApolloScreens.

Inductive AuthEndpoint : Type :=
| signup_email_password                 (* authUrl/signup/email-password *)
| signin_email_password.                (* authUrl/signin/email-password *)

(** The state of [AuthForm] that [handleSubmit] reads. *)
Record FormState : Type := {
  isSignUp : bool;
  email : string;
  password : string;
  confirmPassword : string
}.

(** What leaves the functions of this part: the calls of the first
    part, on the same browser storage, clock and React state, and the
    calls these functions add. *)
Inductive action : Type :=
| App (a : ApolloApp.action)
| FetchAuth (endpoint : AuthEndpoint) (body : string)
| MutateCreateChat (title : string)     (* CREATE_CHAT *)
| DateToLocaleString                    (* new Date().toLocaleString() *)
| PrependChat (c : Chat)                (* setChats(prev => [c, ...prev]) *)
| Alert (text : string)
| SetError (v : jsval)                  (* AuthForm: setError(v) *)
| SetFormLoading (v : bool).            (* AuthForm: setLoading(v) *)

(** A mutation gives [data?.insert_chats_one]. *)
Definition result (a : action) : Type :=
  match a with
  | App b => ApolloApp.result b
  | FetchAuth _ _ => Response
  | MutateCreateChat _ => option Chat
  | DateToLocaleString => string
  | _ => unit
  end.

Inductive Request : Type :=
| ReqAuth (endpoint : AuthEndpoint) (body : string)
| ReqCreateChat (title : string).

(** The world of the first part, the state of the form, the alerts
    shown, the requests these functions sent, and what the auth service,
    the store and the clock will answer from now on. *)
Record World : Type := {
  app : ApolloApp.World;
  form_error : jsval;
  form_loading : bool;
  alerts : list string;
  sent : list Request;
  auth_endpoint : nat -> outcome Response;
  chat_create : nat -> outcome (option Chat);
  locale_clock : nat -> string
}.

Definition with_app (b : ApolloApp.World) (w : World) : World :=
  {| app := b; form_error := form_error w; form_loading := form_loading w;
     alerts := alerts w; sent := sent w; auth_endpoint := auth_endpoint w;
     chat_create := chat_create w; locale_clock := locale_clock w |}.

Definition with_form_error (v : jsval) (w : World) : World :=
  {| app := app w; form_error := v; form_loading := form_loading w;
     alerts := alerts w; sent := sent w; auth_endpoint := auth_endpoint w;
     chat_create := chat_create w; locale_clock := locale_clock w |}.

Definition with_form_loading (v : bool) (w : World) : World :=
  {| app := app w; form_error := form_error w; form_loading := v;
     alerts := alerts w; sent := sent w; auth_endpoint := auth_endpoint w;
     chat_create := chat_create w; locale_clock := locale_clock w |}.

Definition with_alerts (v : list string) (w : World) : World :=
  {| app := app w; form_error := form_error w; form_loading := form_loading w;
     alerts := v; sent := sent w; auth_endpoint := auth_endpoint w;
     chat_create := chat_create w; locale_clock := locale_clock w |}.

Definition with_sent (v : list Request) (w : World) : World :=
  {| app := app w; form_error := form_error w; form_loading := form_loading w;
     alerts := alerts w; sent := v; auth_endpoint := auth_endpoint w;
     chat_create := chat_create w; locale_clock := locale_clock w |}.

Definition next_auth (w : World) : World :=
  {| app := app w; form_error := form_error w; form_loading := form_loading w;
     alerts := alerts w; sent := sent w;
     auth_endpoint := shift (auth_endpoint w);
     chat_create := chat_create w; locale_clock := locale_clock w |}.

Definition next_chat_create (w : World) : World :=
  {| app := app w; form_error := form_error w; form_loading := form_loading w;
     alerts := alerts w; sent := sent w; auth_endpoint := auth_endpoint w;
     chat_create := shift (chat_create w); locale_clock := locale_clock w |}.

Definition next_locale_clock (w : World) : World :=
  {| app := app w; form_error := form_error w; form_loading := form_loading w;
     alerts := alerts w; sent := sent w; auth_endpoint := auth_endpoint w;
     chat_create := chat_create w; locale_clock := shift (locale_clock w) |}.

Definition handle (a : action) (w : World) : outcome (result a) * World :=
  match a return outcome (result a) * World with
  | App b =>
      (fst (ApolloApp.handle b (app w)),
       with_app (snd (ApolloApp.handle b (app w))) w)
  | FetchAuth endpoint body =>
      (auth_endpoint w 0%nat,
       next_auth (with_sent (sent w ++ [ReqAuth endpoint body]) w))
  | MutateCreateChat t =>
      (chat_create w 0%nat,
       next_chat_create (with_sent (sent w ++ [ReqCreateChat t]) w))
  | DateToLocaleString => (Resolved (locale_clock w 0%nat), next_locale_clock w)
  | PrependChat c =>
      (Resolved tt,
       with_app (ApolloApp.with_ui
                   (fun s => ApolloApp.set_chats (c :: ApolloApp.chats s) s)
                   (app w)) w)
  | Alert t => (Resolved tt, with_alerts (alerts w ++ [t]) w)
  | SetError v => (Resolved tt, with_form_error v w)
  | SetFormLoading v => (Resolved tt, with_form_loading v w)
  end.

Definition P (R : Type) : Type := Prog action result R.

Definition perform (a : action) : P (result a) := call a.

Definition exec {R} (p : P R) (w : World) : outcome R * World :=
  run handle p w.

(** [['error' in v]]; [in] throws on a value that is not an object. *)
Definition error_in (v : jsval) : outcome bool :=
  match v with
  | JObj fields =>
      Resolved (existsb (fun kv => String.eqb (fst kv) "error") fields)
  | JArr _ => Resolved false
  | _ => Rejected "TypeError"
  end.

Section WithEngine.
Context {engine : JSEngine}.

(** *** [AuthService] *)

(** [signUp] and [signIn] are the same function up to the endpoint and
    two texts: the error reported when the service refuses without a
    message, and the one reported when anything throws. *)
Definition email_password (endpoint : AuthEndpoint)
           (failed network_error : string) (email password : string)
  : P jsval :=
  try_catch
    (response <- perform (FetchAuth endpoint
                   (JSON_stringify (JObj [("email", JStr email);
                                          ("password", JStr password)])));;
     data <- lift (json response);;
     if negb (ok response) then
       m <- lift (get_prop data "message");;
       Return (JObj [("error", js_or m (JStr failed))])
     else
       dsession <- lift (get_prop data "session");;
       if truthy dsession then
         accessToken <- lift (get_prop dsession "accessToken");;
         refreshToken <- lift (get_prop dsession "refreshToken");;
         duser <- lift (get_prop dsession "user");;
         uid <- lift (get_prop duser "id");;
         uemail <- lift (get_prop duser "email");;
         displayName <- lift (get_prop duser "displayName");;
         now <- perform (App ApolloApp.DateNow);;
         expiresIn <- lift (get_prop dsession "accessTokenExpiresIn");;
         let session :=
           ApolloApp.session_object accessToken refreshToken uid uemail
             displayName (js_add_num now (js_mul expiresIn (JNum 1000))) in
         perform (App (ApolloApp.SetItem (JSON_stringify session)));;
         Return (JObj [("user", get_prop_opt session "user");
                       ("session", session)])
       else Return (JObj [("error", JStr "No session returned")]))
    (fun _ => Return (JObj [("error", JStr network_error)])).

Definition signUp (email password : string) : P jsval :=
  email_password signup_email_password
    "Sign up failed" "Network error during sign up" email password.

Definition signIn (email password : string) : P jsval :=
  email_password signin_email_password
    "Sign in failed" "Network error during sign in" email password.

(** *** [App] and [AuthForm] *)

Definition handleAuth (newUser newSession : jsval) : P unit :=
  perform (App (ApolloApp.SetUser newUser));;
  perform (App (ApolloApp.SetSession newSession)).

(** [handleSubmit] of [AuthForm], with the form state its closure
    captured; [onAuth] is [handleAuth]. *)
Definition handleSubmit (f : FormState) : P unit :=
  perform (SetError (JStr EmptyString));;
  perform (SetFormLoading true);;
  if isSignUp f && negb (String.eqb (password f) (confirmPassword f)) then
    perform (SetError (JStr "Passwords do not match"));;
    perform (SetFormLoading false)
  else if (String.length (password f) <? 6)%nat then
    perform (SetError (JStr "Password must be at least 6 characters"));;
    perform (SetFormLoading false)
  else
    try_finally
      (try_catch
         (result <- (if isSignUp f
                     then signUp (email f) (password f)
                     else signIn (email f) (password f));;
          has_error <- lift (error_in result);;
          if (has_error : bool) then
            e <- lift (get_prop result "error");;
            perform (SetError e)
          else
            u <- lift (get_prop result "user");;
            s <- lift (get_prop result "session");;
            handleAuth u s)
         (fun _ => perform (SetError (JStr "An unexpected error occurred"))))
      (perform (SetFormLoading false)).
End WithEngine.

(** [handleCreateChat], with the Apollo client its closure captured. *)
Definition handleCreateChat (client : option jsval) : P unit :=
  match client with
  | None => Return tt
  | Some _ =>
      try_catch
        (now <- perform DateToLocaleString;;
         let title := ("New Chat - " ++ now)%string in
         perform (App (ApolloApp.ConsoleLog "Creating new chat with title:"));;
         data <- perform (MutateCreateChat title);;
         perform (App (ApolloApp.ConsoleLog "Chat creation response:"));;
         match data with
         | Some newChat =>
             perform (PrependChat newChat);;
             perform (App (ApolloApp.SetSelectedChatId (Some (id newChat))));;
             perform (App (ApolloApp.ConsoleLog
                             "New chat created successfully:"))
         | None =>
             perform (App (ApolloApp.ConsoleError
                             "No chat data returned from mutation"))
         end)
        (fun _ =>
           perform (App (ApolloApp.ConsoleError "Error creating chat:"));;
           perform (Alert "Failed to create new chat. Please try again."))
  end.

(** *** Derived descriptions *)

(** The request of a sign-up or sign-in. *)
Definition auth_request (engine : JSEngine) (endpoint : AuthEndpoint)
           (email password : string) : Request :=
  ReqAuth endpoint
    (JSON_stringify (JObj [("email", JStr email);
                           ("password", JStr password)])).

(** A call of [signUp] or [signIn] returns an error and leaves the
    storage alone, or returns a session with its user and has stored
    the text of that session. *)
Definition returns_error_or_stored_session {engine : JSEngine}
           (p : P jsval) (w : World) : Prop :=
  exists v : jsval,
    fst (exec p w) = Resolved v
    /\ ((error_in v = Resolved true
         /\ ApolloApp.storage (app (snd (exec p w)))
            = ApolloApp.storage (app w))
        \/ (exists s : jsval,
              v = JObj [("user", get_prop_opt s "user"); ("session", s)]
              /\ ApolloApp.storage (app (snd (exec p w)))
                 = Some (JSON_stringify s))).

End ApolloScreens.

(* ================================================================== *)
(** ** Sample environments *)
(* ================================================================== *)

(** A session record as [AuthService] persists it, and the text it is
    stored as. *)
Definition sample_session (expiresAt : Z) : jsval :=
  ApolloApp.session_object (JStr "access-1") (JStr "refresh-1")
    (JStr "u1") (JStr "ada@example.org") (JStr "Ada") (JNum expiresAt).

Definition sample_session_text : string := "{session expiring at 1000000}".

(** An engine that knows the few texts the examples use. *)
Definition sample_engine : JSEngine :=
  {| JSON_parse := fun s =>
       if String.eqb s "{}" then Some (JObj [])
       else if String.eqb s sample_session_text
            then Some (sample_session 1000000)
            else None;
     JSON_stringify := fun v =>
       match v with
       | JObj [] => "{}"
       | JObj (("refreshToken", _) :: _) => "{refreshToken}"
       | _ => sample_session_text
       end;
     StringToNumber := fun _ => None;
     ArrayToString := fun _ => EmptyString |}.

Definition no_response : outcome Response := Rejected "TypeError: Failed to fetch".

Definition json_response (st : Z) (body : jsval) : Response :=
  {| status := st; json := Resolved body; text := Resolved EmptyString |}.

Definition text_response (st : Z) (body : string) : Response :=
  {| status := st; json := Rejected "SyntaxError"; text := Resolved body |}.

(** A world of the Apollo client with the given storage and clock, an
    empty store, and services that are down unless said otherwise. *)
Definition apollo_world (stored : option string) (now : Z) : ApolloApp.World :=
  {| ApolloApp.storage := stored;
     ApolloApp.ui := ApolloApp.initial_state;
     ApolloApp.remote := [];
     ApolloApp.console := [];
     ApolloApp.requests := [];
     ApolloApp.clock := fun _ => now;
     ApolloApp.token_endpoint := fun _ => no_response;
     ApolloApp.store_create := fun _ => CreateFailed "Network error";
     ApolloApp.store_query := fun _ => QueryFailed "Network error";
     ApolloApp.webhook := fun _ => no_response |}.

(** A signed-in state of the Apollo client with chat ["chat-a"] selected. *)
Definition signed_in : ApolloApp.AppState :=
  {| ApolloApp.user := JObj [("id", JStr "u1");
                             ("email", JStr "ada@example.org");
                             ("displayName", JStr "Ada")];
     ApolloApp.session := sample_session 1000000;
     ApolloApp.apolloClient := Some (JStr "access-1");
     ApolloApp.chats := [];
     ApolloApp.selectedChatId := Some "chat-a";
     ApolloApp.messages := [];
     ApolloApp.loading := false;
     ApolloApp.sidebarOpen := false;
     ApolloApp.initializing := false |}.

(** Answers given in order, then [d] for ever. *)
Definition answers {A} (l : list A) (d : A) : nat -> A := fun n => nth n l d.

(** A world in which the store answers the mutations as listed (and
    fails afterwards) and the webhook answers [hook]. *)
Definition send_world (creates : list CreateAnswer) (hook : outcome Response)
  : ApolloApp.World :=
  {| ApolloApp.storage := Some sample_session_text;
     ApolloApp.ui := signed_in;
     ApolloApp.remote := [];
     ApolloApp.console := [];
     ApolloApp.requests := [];
     ApolloApp.clock := fun _ => 0;
     ApolloApp.token_endpoint := fun _ => no_response;
     ApolloApp.store_create := answers creates (CreateFailed "Network error");
     ApolloApp.store_query := fun _ => Served;
     ApolloApp.webhook := fun _ => hook |}.

(** A world whose store holds one row in each of two chats and serves
    every query, and the component before any chat is selected. *)
Definition two_chats : list Message :=
  [ApolloApp.row "a1" "t1" "u1" "chat-a" "hello from A" user_sender;
   ApolloApp.row "b1" "t2" "u1" "chat-b" "hello from B" user_sender].

Definition polling_start : ApolloApp.Sched :=
  {| ApolloApp.world :=
       {| ApolloApp.storage := Some sample_session_text;
          ApolloApp.ui := ApolloApp.set_selectedChatId None signed_in;
          ApolloApp.remote := two_chats;
          ApolloApp.console := [];
          ApolloApp.requests := [];
          ApolloApp.clock := fun _ => 0;
          ApolloApp.token_endpoint := fun _ => no_response;
          ApolloApp.store_create := fun _ => CreateFailed "Network error";
          ApolloApp.store_query := fun _ => Served;
          ApolloApp.webhook := fun _ => no_response |};
     ApolloApp.timer := None;
     ApolloApp.polls := [] |}.

(** The Nhost client with a chat open, and worlds in which the store
    answers the GraphQL requests as listed (and is unreachable
    afterwards) and the webhook answers [hook]. *)
Definition sample_chat : jsval :=
  JObj [("id", JStr "chat-a"); ("title", JStr "Chat A");
        ("user_id", JStr "u1"); ("created_at", JStr "t0");
        ("updated_at", JStr "t0")].

Definition sample_row : jsval :=
  JObj [("id", JStr "m1"); ("chat_id", JStr "chat-a");
        ("content", JStr "hello"); ("sender_type", JStr "user");
        ("user_id", JStr "u1"); ("created_at", JStr "t1")].

Definition chatting : NhostApp.AppState :=
  {| NhostApp.user := JObj [("id", JStr "u1");
                            ("email", JStr "ada@example.org")];
     NhostApp.isAuthenticated := true;
     NhostApp.isLoading := false;
     NhostApp.chats := JArr [sample_chat];
     NhostApp.currentChat := sample_chat;
     NhostApp.messages := JArr [];
     NhostApp.isSidebarOpen := false;
     NhostApp.isSendingMessage := false |}.

Definition graphql_data (fields : list (string * jsval)) : outcome Response :=
  Resolved (json_response 200 (JObj [("data", JObj fields)])).

Definition graphql_error (msg : string) : outcome Response :=
  Resolved (json_response 200
              (JObj [("errors", JArr [JObj [("message", JStr msg)]])])).

Definition nhost_world (gql : list (outcome Response)) (hook : outcome Response)
  : NhostApp.World :=
  {| NhostApp.access_token := Some "token-1";
     NhostApp.auth_user := JObj [("id", JStr "u1")];
     NhostApp.ui := chatting;
     NhostApp.console := [];
     NhostApp.requests := [];
     NhostApp.graphql := answers gql no_response;
     NhostApp.webhook := fun _ => hook;
     NhostApp.auth_signout := fun _ => Resolved tt |}.

(** What the auth service answers to a sign-up, sign-in or token
    request it accepts: a session for Ada that lasts 900 seconds. *)
Definition session_answer : jsval :=
  JObj [("session",
         JObj [("accessToken", JStr "access-1");
               ("refreshToken", JStr "refresh-1");
               ("user", JObj [("id", JStr "u1");
                              ("email", JStr "ada@example.org");
                              ("displayName", JStr "Ada")]);
               ("accessTokenExpiresIn", JNum 900)])].

(** A world of the Apollo client whose token endpoint accepts every
    refresh. *)
Definition refreshing_world (stored : option string) (now : Z)
  : ApolloApp.World :=
  {| ApolloApp.storage := stored;
     ApolloApp.ui := ApolloApp.initial_state;
     ApolloApp.remote := [];
     ApolloApp.console := [];
     ApolloApp.requests := [];
     ApolloApp.clock := fun _ => now;
     ApolloApp.token_endpoint :=
       fun _ => Resolved (json_response 200 session_answer);
     ApolloApp.store_create := fun _ => CreateFailed "Network error";
     ApolloApp.store_query := fun _ => QueryFailed "Network error";
     ApolloApp.webhook := fun _ => no_response |}.

(** A world of the sign-in screen at time [now]: nothing is stored, the
    form is idle, the auth service gives [answer] to every request and
    the store creates no chat. *)
Definition auth_world (answer : outcome Response) (now : Z)
  : ApolloScreens.World :=
  {| ApolloScreens.app := apollo_world None now;
     ApolloScreens.form_error := JStr EmptyString;
     ApolloScreens.form_loading := false;
     ApolloScreens.alerts := [];
     ApolloScreens.sent := [];
     ApolloScreens.auth_endpoint := fun _ => answer;
     ApolloScreens.chat_create := fun _ => Rejected "Network error";
     ApolloScreens.locale_clock := fun _ => "11/2/2026, 10:00:00 AM" |}.

Definition sample_form (sign_up : bool) (pw confirm : string)
  : ApolloScreens.FormState :=
  {| ApolloScreens.isSignUp := sign_up;
     ApolloScreens.email := "ada@example.org";
     ApolloScreens.password := pw;
     ApolloScreens.confirmPassword := confirm |}.

(** A world of the Apollo client that loads at time 600000 with a
    stored session expiring at 1000000, and in which every later reading
    of the clock gives 900000; the token endpoint would accept a
    refresh, the store and the webhook answer. *)
Definition aging_world : ApolloApp.World :=
  {| ApolloApp.storage := Some sample_session_text;
     ApolloApp.ui := ApolloApp.initial_state;
     ApolloApp.remote := [];
     ApolloApp.console := [];
     ApolloApp.requests := [];
     ApolloApp.clock := answers [600000; 600000] 900000;
     ApolloApp.token_endpoint :=
       fun _ => Resolved (json_response 200 session_answer);
     ApolloApp.store_create :=
       answers [Created "m1" "t1" "u1"; Created "m2" "t2" "u1"]
         (CreateFailed "Network error");
     ApolloApp.store_query := fun _ => Served;
     ApolloApp.webhook :=
       fun _ => Resolved (json_response 200 (JObj [("response", JStr "hi")])) |}.

(** The state once the session effect has created the client and the
    user has selected chat ["chat-a"]. *)
Definition with_chat_open (s : ApolloApp.AppState) : ApolloApp.AppState :=
  ApolloApp.set_selectedChatId (Some "chat-a")
    (ApolloApp.set_apolloClient
       (Some (get_prop_opt (ApolloApp.session s) "accessToken")) s).

(* ================================================================== *)
(** ** Derived descriptions of a send of the Apollo client *)
(* ================================================================== *)

(** The user row a send adds, by the answer of the store to the first
    mutation. *)
Definition user_rows (chatId content : string) (a : CreateAnswer)
  : list Message :=
  match a with
  | Created i t u => [ApolloApp.row i t u chatId content user_sender]
  | _ => []
  end.

(** The bot rows a send adds, in a world whose next store answer is the
    one to the user's message: when that mutation fails the [catch] runs
    at once, with the second answer of the store. *)
Definition reply_rows (chatId : string) (w : ApolloApp.World) : list Message :=
  match ApolloApp.store_create w 0%nat with
  | CreateFailed _ =>
      ApolloApp.error_rows chatId (ApolloApp.store_create w 1%nat)
  | _ => ApolloApp.bot_rows chatId w
  end.

(** The first two requests of a send. *)
Definition user_request (chatId content : string) : ApolloApp.Request :=
  ApolloApp.ReqCreateMessage chatId (JStr content) user_sender.

Definition webhook_request (st : ApolloApp.AppState) (chatId content : string)
  : ApolloApp.Request :=
  ApolloApp.ReqWebhook
    {| action_name := "sendMessage"; input_chat_id := JStr chatId;
       input_message := content; hasura_role := "user";
       hasura_user_id := get_prop_opt (ApolloApp.user st) "id" |}.

Definition is_webhook_request (r : ApolloApp.Request) : bool :=
  match r with
  | ApolloApp.ReqWebhook _ => true
  | _ => false
  end.

(* ================================================================== *)
(** ** The send invariant as the specification states it *)
(* ================================================================== *)

(** What a run added at the end of a list. *)
Definition added {A} (before after : list A) : list A :=
  skipn (List.length before) after.

(** "Exactly one persisted user message and exactly one persisted
    bot-role message -- never zero, never two", persisted and appended to
    local state. *)
Definition one_user_and_one_bot (w w' : ApolloApp.World) : Prop :=
  let stored := added (ApolloApp.remote w) (ApolloApp.remote w') in
  let shown := added (ApolloApp.messages (ApolloApp.ui w))
                     (ApolloApp.messages (ApolloApp.ui w')) in
  count_sender user_sender stored = 1%nat
  /\ count_sender bot_sender stored = 1%nat
  /\ count_sender user_sender shown = 1%nat
  /\ count_sender bot_sender shown = 1%nat.

(* ================================================================== *)
(** * Properties *)
(* ================================================================== *)

Section RunFacts.
Variable action : Type.
Variable result : action -> Type.
Variable World : Type.
Variable handle : forall a : action, World -> outcome (result a) * World.

Lemma run_bind {A B} (p : Prog action result A)
      (f : A -> Prog action result B) (w : World) :
  run handle (bind p f) w =
  match run handle p w with
  | (Resolved v, w') => run handle (f v) w'
  | (Rejected e, w') => (Rejected e, w')
  end.
Proof.
  revert w; induction p as [r | e | a k IH]; intros w; simpl; auto.
  destruct (handle a w) as [o w']. apply IH.
Qed.

Lemma run_try_catch {A} (p : Prog action result A)
      (h : string -> Prog action result A) (w : World) :
  run handle (try_catch p h) w =
  match run handle p w with
  | (Resolved v, w') => (Resolved v, w')
  | (Rejected e, w') => run handle (h e) w'
  end.
Proof.
  revert w; induction p as [r | e | a k IH]; intros w; simpl; auto.
  destruct (handle a w) as [o w']. apply IH.
Qed.

Lemma run_try_finally {A} (p : Prog action result A)
      (q : Prog action result unit) (w : World) :
  run handle (try_finally p q) w =
  match run handle p w with
  | (Resolved v, w') =>
      match run handle q w' with
      | (Resolved _, w'') => (Resolved v, w'')
      | (Rejected e, w'') => (Rejected e, w'')
      end
  | (Rejected e, w') =>
      match run handle q w' with
      | (Resolved _, w'') => (Rejected e, w'')
      | (Rejected e', w'') => (Rejected e', w'')
      end
  end.
Proof.
  revert w; induction p as [r | e | a k IH]; intros w; simpl.
  - rewrite run_bind. destruct (run handle q w) as [[u | e] w']; reflexivity.
  - rewrite run_bind. destruct (run handle q w) as [[u | e'] w']; reflexivity.
  - destruct (handle a w) as [o w']. apply IH.
Qed.
End RunFacts.

(** Case analysis on whatever the goal still matches on. *)
Ltac split_match :=
  match goal with
  | |- context [lift ?o] => destruct o eqn:?
  | |- context [match ?x with _ => _ end] =>
      lazymatch x with
      | context [match _ with _ => _ end] => fail
      | _ => destruct x eqn:?
      end
  end.

Module ApolloFacts.
Import ApolloApp.

(** [getStoredSession] never throws. *)
Lemma getStoredSession_total (engine : JSEngine) (w : World) :
  exists v, fst (exec getStoredSession w) = Resolved v.
Proof.
  unfold exec, getStoredSession. cbn.
  destruct (nonempty (storage w)) as [s|]; cbn; eauto.
  destruct (JSON_parse s) as [v|]; cbn; eauto.
  destruct (get_prop v "expiresAt") as [ea|e]; cbn; eauto.
  destruct (js_le ea (JNum (clock w 0%nat))); cbn; eauto.
Qed.

(** What [getStoredSession] returns, case by case of what the storage
    holds. *)
Lemma getStoredSession_absent (engine : JSEngine) (w : World) :
  nonempty (storage w) = None ->
  exec getStoredSession w = (Resolved JNull, w).
Proof.
  intros H. unfold exec, getStoredSession. cbn. rewrite H. reflexivity.
Qed.

Lemma getStoredSession_unparsable (engine : JSEngine) (w : World) (s : string) :
  nonempty (storage w) = Some s -> JSON_parse s = None ->
  exec getStoredSession w = (Resolved JNull, w).
Proof.
  intros H Hp. unfold exec, getStoredSession. cbn. rewrite H. cbn.
  rewrite Hp. reflexivity.
Qed.

Lemma getStoredSession_record (engine : JSEngine) (w : World) (s : string)
      (fields : list (string * jsval)) (n : Z) :
  nonempty (storage w) = Some s -> JSON_parse s = Some (JObj fields) ->
  lookup_field "expiresAt" fields = JNum n ->
  exec getStoredSession w =
  (Resolved (if n <=? clock w 0%nat then JNull else JObj fields),
   next_clock w).
Proof.
  intros H Hp He. unfold exec, getStoredSession. cbn. rewrite H. cbn.
  rewrite Hp. cbn. rewrite He. unfold js_le. cbn.
  destruct (n <=? clock w 0%nat); reflexivity.
Qed.

(** For a record that carries a numeric [expiresAt], the stored
    session is returned exactly when it expires strictly after now. *)
Lemma getStoredSession_valid_iff (engine : JSEngine) (w : World) (s : string)
      (fields : list (string * jsval)) (n : Z) :
  nonempty (storage w) = Some s -> JSON_parse s = Some (JObj fields) ->
  lookup_field "expiresAt" fields = JNum n ->
  (fst (exec getStoredSession w) = Resolved (JObj fields) <-> clock w 0%nat < n)
  /\ (fst (exec getStoredSession w) = Resolved JNull <-> n <= clock w 0%nat).
Proof.
  intros H Hp He. rewrite (getStoredSession_record engine w s fields n H Hp He). cbn.
  destruct (Z.leb_spec n (clock w 0%nat)); split; split; intros; try lia;
    try reflexivity; discriminate.
Qed.

(** [refreshSession] never throws, sends exactly one request to the
    token endpoint whatever the answer is, leaves the React state
    alone, and touches the storage only when it returns a session. *)
Lemma refreshSession_once (engine : JSEngine) (w : World) (rt : jsval) :
  exists v w',
    exec (refreshSession rt) w = (Resolved v, w')
    /\ requests w' = (requests w ++ [token_request engine rt])%list
    /\ ui w' = ui w
    /\ remote w' = remote w
    /\ (truthy v = false -> v = JNull /\ storage w' = storage w).
Proof.
  unfold exec, refreshSession, token_request. cbn.
  destruct (token_endpoint w 0%nat) as [r|e]; cbn.
  2: { eexists _, _; repeat split; reflexivity. }
  destruct (json r) as [data|e]; cbn.
  2: { eexists _, _; repeat split; reflexivity. }
  destruct (ok r); cbn.
  2: { eexists _, _; repeat split; reflexivity. }
  destruct (get_prop data "session") as [ds|e]; cbn.
  2: { eexists _, _; repeat split; reflexivity. }
  destruct (truthy ds) eqn:Hds; cbn.
  2: { eexists _, _; repeat split; reflexivity. }
  destruct (get_prop ds "accessToken") as [a|e]; cbn.
  2: { eexists _, _; repeat split; reflexivity. }
  destruct (get_prop ds "refreshToken") as [b|e]; cbn.
  2: { eexists _, _; repeat split; reflexivity. }
  destruct (get_prop ds "user") as [u|e]; cbn.
  2: { eexists _, _; repeat split; reflexivity. }
  destruct (get_prop u "id") as [i|e]; cbn.
  2: { eexists _, _; repeat split; reflexivity. }
  destruct (get_prop u "email") as [m|e]; cbn.
  2: { eexists _, _; repeat split; reflexivity. }
  destruct (get_prop u "displayName") as [d|e]; cbn.
  2: { eexists _, _; repeat split; reflexivity. }
  destruct (get_prop ds "accessTokenExpiresIn") as [x|e]; cbn.
  2: { eexists _, _; repeat split; reflexivity. }
  eexists _, _; repeat split; try reflexivity; discriminate.
Qed.

Lemma exec_bind {A B} (p : P A) (f : A -> P B) (w : World) :
  exec (bind p f) w =
  match exec p w with
  | (Resolved v, w') => exec (f v) w'
  | (Rejected e, w') => (Rejected e, w')
  end.
Proof. apply run_bind. Qed.

Lemma exec_try_catch {A} (p : P A) (h : string -> P A) (w : World) :
  exec (try_catch p h) w =
  match exec p w with
  | (Resolved v, w') => (Resolved v, w')
  | (Rejected e, w') => exec (h e) w'
  end.
Proof. apply run_try_catch. Qed.

Arguments refreshSession : simpl never.
Arguments getStoredSession : simpl never.

(** C5, at the record [{}]: a stored record that parses but carries no
    [expiresAt] is returned by [getStoredSession], because
    [undefined <= Date.now()] is false, and [initializeAuth] makes it
    the session of the application. *)
Theorem getStoredSession_returns_record_without_expiresAt
        (engine : JSEngine) (w : World) :
  storage w = Some "{}" -> JSON_parse "{}" = Some (JObj []) ->
  fst (exec getStoredSession w) = Resolved (JObj [])
  /\ session (ui (snd (exec initializeAuth w))) = JObj [].
Proof.
  intros H Hp.
  assert (Hg : exec getStoredSession w = (Resolved (JObj []), next_clock w)).
  { unfold exec, getStoredSession. cbn. rewrite H. cbn. rewrite Hp.
    reflexivity. }
  split.
  - rewrite Hg. reflexivity.
  - unfold initializeAuth. rewrite exec_bind, Hg. reflexivity.
Qed.

Lemma getStoredSession_returns_record_without_expiresAt_witness :
  fst (exec (@getStoredSession sample_engine)
         (apollo_world (Some "{}") 1000)) = Resolved (JObj [])
  /\ session (ui (snd (exec (@initializeAuth sample_engine)
                         (apollo_world (Some "{}") 1000)))) = JObj [].
Proof.
  apply (@getStoredSession_returns_record_without_expiresAt sample_engine
           (apollo_world (Some "{}") 1000)); reflexivity.
Defined.

(** The decision [initializeAuth] takes at load: with a valid session in
    the storage, it sends one request to the token endpoint when
    [expiresAt - Date.now()] is below 300000 ms and none otherwise; when
    the refresh comes back empty the stored session is removed, no
    session is set and no second request is sent. *)
Lemma initializeAuth_refreshes_under_five_minutes
        (engine : JSEngine) (w : World) (s : string)
        (fields : list (string * jsval)) (n : Z) :
  nonempty (storage w) = Some s ->
  JSON_parse s = Some (JObj fields) ->
  lookup_field "expiresAt" fields = JNum n ->
  clock w 0%nat < n ->
  let rt := lookup_field "refreshToken" fields in
  let w' := snd (exec initializeAuth w) in
  (n - clock w 1%nat < 300000 ->
     requests w' = (requests w ++ [token_request engine rt])%list
     /\ (fst (exec (refreshSession rt) (next_clock (next_clock w)))
          = Resolved JNull ->
         storage w' = None
         /\ session (ui w') = session (ui w)
         /\ user (ui w') = user (ui w)))
  /\ (300000 <= n - clock w 1%nat ->
        requests w' = requests w
        /\ storage w' = storage w
        /\ session (ui w') = JObj fields).
Proof.
  intros H Hp He Hv rt w'.
  assert (Hg : exec getStoredSession w = (Resolved (JObj fields), next_clock w)).
  { rewrite (getStoredSession_record engine w s fields n H Hp He).
    destruct (Z.leb_spec n (clock w 0%nat)); [lia | reflexivity]. }
  assert (Hw : w' = snd (exec initializeAuth w)) by reflexivity.
  clearbody w'. unfold initializeAuth in Hw.
  rewrite exec_bind, Hg in Hw. cbn in Hw. rewrite He in Hw. cbn in Hw.
  unfold js_lt, js_sub in Hw. cbn in Hw. unfold shift in Hw.
  destruct (Z.ltb_spec (n - clock w 1%nat) 300000) as [Hlt | Hge].
  - split; [intros _ | lia].
    fold rt in Hw.
    change (run handle) with (@exec unit) in Hw.
    rewrite !exec_bind in Hw.
    destruct (refreshSession_once engine (next_clock (next_clock w)) rt)
      as (v & w2 & Hr & Hreq & Hui & _ & Hnull).
    rewrite Hr in Hw.
    destruct (truthy v) eqn:Htv.
    + split.
      * subst w'. cbn. destruct (get_prop v "user"); cbn; exact Hreq.
      * intros Hf. rewrite Hr in Hf. cbn in Hf. inversion Hf; subst v.
        discriminate.
    + destruct (Hnull eq_refl) as [-> Hst]. subst w'. cbn. split.
      * exact Hreq.
      * intros _. rewrite Hui. repeat split; reflexivity.
  - split; [lia | intros _]. subst w'.
    destruct (get_prop (JObj fields) "user") eqn:Hu; cbn in Hu;
      inversion Hu; subst; cbn; repeat split; reflexivity.
Qed.

Lemma initializeAuth_refreshes_under_five_minutes_witness :
  let w := apollo_world (Some sample_session_text) 800000 in
  let rt := JStr "refresh-1" in
  let w' := snd (exec (@initializeAuth sample_engine) w) in
  (1000000 - 800000 < 300000 ->
     requests w' = (requests w ++ [token_request sample_engine rt])%list
     /\ (fst (exec (@refreshSession sample_engine rt)
                (next_clock (next_clock w))) = Resolved JNull ->
         storage w' = None
         /\ session (ui w') = session (ui w)
         /\ user (ui w') = user (ui w)))
  /\ (300000 <= 1000000 - 800000 ->
        requests w' = requests w
        /\ storage w' = storage w
        /\ session (ui w') = sample_session 1000000).
Proof.
  apply (@initializeAuth_refreshes_under_five_minutes sample_engine
           (apollo_world (Some sample_session_text) 800000)
           sample_session_text
           [("accessToken", JStr "access-1");
            ("refreshToken", JStr "refresh-1");
            ("user", JObj [("id", JStr "u1");
                           ("email", JStr "ada@example.org");
                           ("displayName", JStr "Ada")]);
            ("expiresAt", JNum 1000000)]
           1000000); reflexivity.
Defined.

Lemma truthy_get_prop (v : jsval) (k : string) :
  truthy v = true -> exists x, get_prop v k = Resolved x.
Proof.
  destruct v; cbn; intros H; try discriminate; eauto.
Qed.

Lemma exec_try_finally {A} (p : P A) (q : P unit) (w : World) :
  exec (try_finally p q) w =
  match exec p w with
  | (Resolved v, w') =>
      match exec q w' with
      | (Resolved _, w'') => (Resolved v, w'')
      | (Rejected e, w'') => (Rejected e, w'')
      end
  | (Rejected e, w') =>
      match exec q w' with
      | (Resolved _, w'') => (Rejected e, w'')
      | (Rejected e', w'') => (Rejected e', w'')
      end
  end.
Proof. apply run_try_finally. Qed.

Lemma grown_refl (w : World) : grown w w [] 0.
Proof.
  unfold grown. rewrite !app_nil_r. repeat split; reflexivity.
Qed.

Lemma grown_trans {w w1 w2 : World} {l1 l2 : list Message} {k1 k2 : nat} :
  grown w w1 l1 k1 -> grown w1 w2 l2 k2 -> grown w w2 (l1 ++ l2) (k1 + k2).
Proof.
  intros (Hr1 & Hm1 & Hs1) (Hr2 & Hm2 & Hs2).
  unfold grown. rewrite Hr2, Hr1, Hm2, Hm1, !app_assoc.
  repeat split; try reflexivity.
  intros n. rewrite Hs2, Hs1. f_equal. lia.
Qed.

Arguments save_reply : simpl never.
Arguments save_error_message : simpl never.
Arguments send_and_reply : simpl never.

Ltac grown_now :=
  unfold grown; cbn; rewrite ?app_nil_r; repeat split; reflexivity.

(** The [catch] never throws and adds [error_rows]. *)
Lemma save_error_message_run (chatId : string) (w : World) :
  exists w',
    exec (save_error_message chatId) w = (Resolved tt, w')
    /\ grown w w' (error_rows chatId (store_create w 0%nat)) 1.
Proof.
  unfold exec, save_error_message. cbn.
  destruct (store_create w 0%nat) as [i t u | | e]; cbn;
    eexists; (split; [reflexivity | grown_now]).
Qed.

(** [save_reply] ends as [reply_plan] says. *)
Lemma save_reply_run (chatId : string) (r : Response) (w : World) :
  exists o w',
    exec (save_reply chatId r) w = (o, w')
    /\ match reply_plan chatId r (store_create w 0%nat) with
       | Saved rows => o = Resolved tt /\ grown w w' rows 1
       | ThrownBeforeStore => (exists e, o = Rejected e) /\ grown w w' [] 0
       | ThrownByStore => (exists e, o = Rejected e) /\ grown w w' [] 1
       end.
Proof.
  unfold exec, save_reply, reply_plan.
  destruct (ok r); cbn.
  - destruct (json r) as [body | e]; cbn.
    2: { eexists _, _; split; [reflexivity | split; [eauto | grown_now]]. }
    destruct (get_prop body "response") as [v | e]; cbn.
    2: { eexists _, _; split; [reflexivity | split; [eauto | grown_now]]. }
    destruct (store_create w 0%nat) as [i t u | | e]; cbn.
    + destruct (js_or v (JStr could_not_process)); cbn;
        eexists _, _; (split; [reflexivity | split; [eauto | grown_now]]).
    + eexists _, _; split; [reflexivity | split; [eauto | grown_now]].
    + destruct (js_or v (JStr could_not_process)); cbn;
        eexists _, _; (split; [reflexivity | split; [eauto | grown_now]]).
  - destruct (text r) as [body | e]; cbn.
    2: { eexists _, _; split; [reflexivity | split; [eauto | grown_now]]. }
    destruct (store_create w 0%nat) as [i t u | | e]; cbn;
      eexists _, _; (split; [reflexivity | split; [eauto | grown_now]]).
Qed.

Lemma exec_perform_bind {B} (a : action) (f : result a -> P B) (w : World) :
  exec (bind (perform a) f) w =
  let (o, w') := handle a w in
  match o with
  | Resolved v => exec (f v) w'
  | Rejected e => (Rejected e, w')
  end.
Proof.
  unfold exec, perform, call. cbn.
  destruct (handle a w) as [[v | e] w']; reflexivity.
Qed.

Lemma exec_lift_bind {A B} (o : outcome A) (f : A -> P B) (w : World) :
  exec (bind (lift o) f) w =
  match o with
  | Resolved v => exec (f v) w
  | Rejected e => (Rejected e, w)
  end.
Proof. destruct o; reflexivity. Qed.

Arguments exec : simpl never.
Arguments perform : simpl never.
Arguments result : simpl never.

(** One statement of a straight-line block. *)
Ltac step :=
  match goal with
  | |- context [exec (@bind _ _ ?A ?B (perform ?a) ?f) ?w] =>
      change (exec (@bind _ _ A B (perform a) f) w)
        with (exec (@bind _ _ (result a) B (perform a) f) w);
      rewrite (exec_perform_bind a f w)
  | |- context [exec (bind (lift ?o) ?f) ?w] =>
      rewrite (exec_lift_bind o f w)
  end; cbn.

(** The body of the [try], up to the webhook answer. *)
Lemma send_and_reply_run (w : World) (st : AppState) (content chatId : string)
      (i t u : string) :
  truthy (user st) = true ->
  store_create w 0%nat = Created i t u ->
  exists w1,
    grown w w1 [row i t u chatId content user_sender] 1
    /\ exec (send_and_reply st chatId content) w =
       match webhook w 0%nat with
       | Rejected e => (Rejected e, w1)
       | Resolved r => exec (save_reply chatId r) w1
       end.
Proof.
  intros Hu H0.
  destruct (truthy_get_prop (user st) "id" Hu) as [uid Hid].
  unfold send_and_reply.
  step. step. rewrite H0. cbn. step. step. rewrite Hid. step. step. step.
  destruct (webhook w 0%nat) as [r | e]; cbn.
  - step. eexists; split; [| reflexivity]; grown_now.
  - eexists; split; [| reflexivity]; grown_now.
Qed.

Lemma exec_set_loading (b : bool) (w : World) :
  @exec unit (perform (SetLoading b)) w
  = (Resolved tt, with_ui (set_loading b) w).
Proof. reflexivity. Qed.

(** The [try]/[catch] of [handleSendMessage] never throws; with the
    user's row created it adds that row and [bot_rows]. *)
Lemma try_send_run (w : World) (st : AppState) (content chatId : string)
      (i t u : string) :
  truthy (user st) = true ->
  store_create w 0%nat = Created i t u ->
  exists w',
    exec (try_catch (send_and_reply st chatId content)
                    (fun _ => save_error_message chatId)) w
    = (Resolved tt, w')
    /\ remote w' =
       remote w ++ row i t u chatId content user_sender :: bot_rows chatId w
    /\ messages (ui w') =
       messages (ui w)
       ++ row i t u chatId content user_sender :: bot_rows chatId w.
Proof.
  intros Hu H0.
  destruct (send_and_reply_run w st content chatId i t u Hu H0)
    as (w1 & Hg1 & Hrun).
  rewrite exec_try_catch, Hrun. unfold bot_rows.
  assert (Hs1 : forall n, store_create w1 n = store_create w (S n))
    by (intros n; apply Hg1).
  destruct (webhook w 0%nat) as [r | e].
  - destruct (save_reply_run chatId r w1) as (o & w2 & Hr & Hplan).
    rewrite Hr. rewrite (Hs1 0%nat) in Hplan.
    destruct (reply_plan chatId r (store_create w 1%nat)) as [rows | |].
    + destruct Hplan as [-> Hg2]. exists w2. split; [reflexivity |].
      destruct (grown_trans Hg1 Hg2) as (Hrm & Hms & _). auto.
    + destruct Hplan as [[e ->] Hg2].
      destruct (save_error_message_run chatId w2) as (w3 & Hr3 & Hg3).
      exists w3. split; [exact Hr3 |].
      assert (Hs2 : store_create w2 0%nat = store_create w 1%nat).
      { destruct Hg2 as (_ & _ & Hs2). rewrite Hs2, Hs1. reflexivity. }
      rewrite Hs2 in Hg3.
      destruct (grown_trans (grown_trans Hg1 Hg2) Hg3) as (Hrm & Hms & _).
      rewrite app_nil_r in Hrm, Hms. auto.
    + destruct Hplan as [[e ->] Hg2].
      destruct (save_error_message_run chatId w2) as (w3 & Hr3 & Hg3).
      exists w3. split; [exact Hr3 |].
      assert (Hs2 : store_create w2 0%nat = store_create w 2%nat).
      { destruct Hg2 as (_ & _ & Hs2). rewrite Hs2, Hs1. reflexivity. }
      rewrite Hs2 in Hg3.
      destruct (grown_trans (grown_trans Hg1 Hg2) Hg3) as (Hrm & Hms & _).
      rewrite app_nil_r in Hrm, Hms. auto.
  - destruct (save_error_message_run chatId w1) as (w3 & Hr3 & Hg3).
    exists w3. split; [exact Hr3 |].
    rewrite (Hs1 0%nat) in Hg3.
    destruct (grown_trans Hg1 Hg3) as (Hrm & Hms & _). auto.
Qed.

(** [handleSendMessage] as a whole. *)
Lemma handleSendMessage_rows (w : World) (st : AppState)
      (content chatId : string) (c : jsval) (i t u : string) :
  nonempty (selectedChatId st) = Some chatId ->
  apolloClient st = Some c ->
  truthy (session st) = true ->
  truthy (user st) = true ->
  store_create w 0%nat = Created i t u ->
  exists w',
    exec (handleSendMessage st content) w = (Resolved tt, w')
    /\ remote w' =
       remote w ++ row i t u chatId content user_sender :: bot_rows chatId w
    /\ messages (ui w') =
       messages (ui w)
       ++ row i t u chatId content user_sender :: bot_rows chatId w
    /\ loading (ui w') = false.
Proof.
  intros Hc Ha Hs Hu H0.
  unfold handleSendMessage. rewrite Hc, Ha, Hs, Hu.
  rewrite exec_bind, exec_set_loading, exec_try_finally.
  destruct (try_send_run (with_ui (set_loading true) w) st content chatId
              i t u Hu H0) as (w1 & Hrun & Hrm & Hms).
  rewrite Hrun. cbv iota beta. rewrite exec_set_loading.
  eexists; split; [reflexivity |]. cbn.
  rewrite Hrm, Hms. repeat split; reflexivity.
Qed.

Lemma error_rows_shape (chatId : string) (a : CreateAnswer) :
  (List.length (error_rows chatId a) <= 1)%nat
  /\ forall b, In b (error_rows chatId a) ->
               sender_type b = bot_sender /\ chat_id b = chatId.
Proof.
  destruct a; cbn; split; try lia; intros b [].
  - subst b. split; reflexivity.
  - contradiction.
Qed.

Lemma bot_rows_shape (chatId : string) (w : World) :
  (List.length (bot_rows chatId w) <= 1)%nat
  /\ forall b, In b (bot_rows chatId w) ->
               sender_type b = bot_sender /\ chat_id b = chatId.
Proof.
  unfold bot_rows.
  destruct (webhook w 0%nat) as [r | e]; [| apply error_rows_shape].
  destruct (reply_plan chatId r (store_create w 1%nat)) as [rows | |] eqn:Hp;
    try apply error_rows_shape.
  unfold reply_plan in Hp.
  repeat match type of Hp with
         | context [match ?x with _ => _ end] => destruct x
         end;
    inversion Hp; subst; cbn; split; try lia;
    intros b Hb; destruct Hb as [<- | []]; split; reflexivity.
Qed.

(** C1, refuted as stated: the store accepts the user's message, the
    webhook answers 500, and the store is unreachable afterwards; the
    user's row is persisted and appended, and no bot row at all. *)
Lemma send_with_store_down_adds_no_bot_row :
  let w := send_world [Created "m1" "t1" "u1"]
             (Resolved (text_response 500 "Internal Server Error")) in
  let w' := snd (exec (handleSendMessage signed_in "hello") w) in
  store_create w 0%nat = Created "m1" "t1" "u1"
  /\ remote w' = [row "m1" "t1" "u1" "chat-a" "hello" user_sender]
  /\ messages (ui w') = [row "m1" "t1" "u1" "chat-a" "hello" user_sender]
  /\ count_sender bot_sender (remote w') = 0%nat
  /\ count_sender bot_sender (messages (ui w')) = 0%nat
  /\ ~ one_user_and_one_bot w w'.
Proof.
vm_compute. repeat split. intros (_ & H & _). discriminate H.
Qed.

(** Whatever the webhook answers, the bot rows of a send carry
    [bot_text] or the text of the [catch]; there is one, with
    [bot_text], when the store accepts the two mutations that follow the
    user's, and none when it accepts neither. *)
Lemma bot_rows_cases (chatId : string) (w : World) :
  (forall b, In b (bot_rows chatId w) ->
             content b = bot_text w \/ content b = encountered_error)
  /\ (is_created (store_create w 1%nat) = true ->
      is_created (store_create w 2%nat) = true ->
      exists j t u,
        bot_rows chatId w = [row j t u chatId (bot_text w) bot_sender]
        /\ (store_create w 1%nat = Created j t u
            \/ store_create w 2%nat = Created j t u))
  /\ (is_created (store_create w 1%nat) = false ->
      is_created (store_create w 2%nat) = false ->
      bot_rows chatId w = []).
Proof.
  unfold bot_rows, reply_plan, bot_text, usable_reply, substitute_text, js_or,
    error_rows.
  destruct (webhook w 0%nat) as [r | e];
    [destruct (ok r);
     [destruct (json r) as [body | e];
      [destruct (get_prop body "response") as [v | e];
       [destruct v as [| | [] | n | | s | |]; cbn;
        try destruct (n =? 0); try destruct (String.eqb s EmptyString); cbn
       |]
      |]
     | destruct (text r)]
    |];
    destruct (store_create w 1%nat) as [j1 t1 u1 | | e1];
    destruct (store_create w 2%nat) as [j2 t2 u2 | | e2]; cbn;
    (split;
     [intros b Hb;
      first [contradiction | destruct Hb as [<- | []]; cbn; auto] |]);
    (split;
     [intros H1 H2; try discriminate; eexists _, _, _;
      (split; [reflexivity | auto])
     | intros H1 H2; try discriminate; reflexivity]).
Qed.

(** C1, amended: when the user's message is created, the send adds to
    the store and to the message list that one user row followed by at
    most one bot row, never two.  Whatever the webhook answers, there
    is exactly one bot row when the store accepts the two mutations
    that follow, and it carries [bot_text]: the reply, or the fixed text
    for that answer; there is none when the store accepts neither, and
    only then or when it refuses one of them.  After a webhook answer
    with a non-success status the next mutation alone decides: accepted,
    it gives exactly one bot row with a fixed text. *)
Theorem send_adds_one_user_row_and_the_bot_row_the_store_accepts
        (w : World) (st : AppState) (typed chatId : string) (c : jsval)
        (i t u : string) :
  nonempty (selectedChatId st) = Some chatId ->
  apolloClient st = Some c ->
  truthy (session st) = true ->
  truthy (user st) = true ->
  store_create w 0%nat = Created i t u ->
  let w' := snd (exec (handleSendMessage st typed) w) in
  let m := row i t u chatId typed user_sender in
  exists bots,
    remote w' = remote w ++ m :: bots
    /\ messages (ui w') = messages (ui w) ++ m :: bots
    /\ (List.length bots <= 1)%nat
    /\ (forall b, In b bots ->
          sender_type b = bot_sender /\ chat_id b = chatId
          /\ (content b = bot_text w \/ content b = encountered_error))
    /\ (is_created (store_create w 1%nat) = true ->
        is_created (store_create w 2%nat) = true ->
        exists j t' u',
          bots = [row j t' u' chatId (bot_text w) bot_sender]
          /\ (store_create w 1%nat = Created j t' u'
              \/ store_create w 2%nat = Created j t' u'))
    /\ (is_created (store_create w 1%nat) = false ->
        is_created (store_create w 2%nat) = false ->
        bots = [])
    /\ (bots = [] ->
        is_created (store_create w 1%nat) = false
        \/ is_created (store_create w 2%nat) = false)
    /\ (forall r i' t' u',
          webhook w 0%nat = Resolved r -> ok r = false ->
          store_create w 1%nat = Created i' t' u' ->
          bots = [row i' t' u' chatId
                    (match text r with
                     | Resolved _ => service_unavailable
                     | Rejected _ => encountered_error
                     end) bot_sender]).
Proof.
  intros Hc Ha Hs Hu H0 w' m.
  destruct (handleSendMessage_rows w st typed chatId c i t u Hc Ha Hs Hu H0)
    as (w1 & Hrun & Hrm & Hms & _).
  subst w'. rewrite Hrun. cbn [snd].
  exists (bot_rows chatId w).
  destruct (bot_rows_shape chatId w) as [Hlen Hall].
  destruct (bot_rows_cases chatId w) as (Hcontent & Hone & Hnone).
  split; [exact Hrm |]. split; [exact Hms |]. split; [exact Hlen |].
  split.
  { intros b Hb. destruct (Hall b Hb) as [Hb1 Hb2].
    split; [exact Hb1 |]. split; [exact Hb2 | apply Hcontent; exact Hb]. }
  split; [exact Hone |]. split; [exact Hnone |]. split.
  { intros Hnil.
    destruct (is_created (store_create w 1%nat)) eqn:H1; [| left; reflexivity].
    destruct (is_created (store_create w 2%nat)) eqn:H2; [| right; reflexivity].
    destruct (Hone eq_refl eq_refl) as (j & t' & u' & Hb & _).
    rewrite Hb in Hnil. discriminate. }
  intros r i' t' u' Hw Hok H1.
  unfold bot_rows, reply_plan. rewrite Hw, Hok, H1.
  destruct (text r); reflexivity.
Qed.

Lemma send_adds_one_user_row_and_the_bot_row_the_store_accepts_witness :
  let w := send_world [Created "m1" "t1" "u1"; Created "m2" "t2" "u1";
                       Created "m3" "t3" "u1"]
             (Resolved (text_response 503 "Service Unavailable")) in
  let w' := snd (exec (handleSendMessage signed_in "hello") w) in
  let m := row "m1" "t1" "u1" "chat-a" "hello" user_sender in
  exists bots,
    remote w' = remote w ++ m :: bots
    /\ messages (ui w') = messages (ui w) ++ m :: bots
    /\ (List.length bots <= 1)%nat
    /\ (forall b, In b bots ->
          sender_type b = bot_sender /\ chat_id b = "chat-a"
          /\ (content b = bot_text w \/ content b = encountered_error))
    /\ (is_created (store_create w 1%nat) = true ->
        is_created (store_create w 2%nat) = true ->
        exists j t' u',
          bots = [row j t' u' "chat-a" (bot_text w) bot_sender]
          /\ (store_create w 1%nat = Created j t' u'
              \/ store_create w 2%nat = Created j t' u'))
    /\ (is_created (store_create w 1%nat) = false ->
        is_created (store_create w 2%nat) = false ->
        bots = [])
    /\ (bots = [] ->
        is_created (store_create w 1%nat) = false
        \/ is_created (store_create w 2%nat) = false)
    /\ (forall r i' t' u',
          webhook w 0%nat = Resolved r -> ok r = false ->
          store_create w 1%nat = Created i' t' u' ->
          bots = [row i' t' u' "chat-a"
                    (match text r with
                     | Resolved _ => service_unavailable
                     | Rejected _ => encountered_error
                     end) bot_sender]).
Proof.
  apply (send_adds_one_user_row_and_the_bot_row_the_store_accepts
           (send_world [Created "m1" "t1" "u1"; Created "m2" "t2" "u1";
                        Created "m3" "t3" "u1"]
              (Resolved (text_response 503 "Service Unavailable")))
           signed_in "hello" "chat-a" (JStr "access-1") "m1" "t1" "u1");
    reflexivity.
Defined.

Lemma fixed_texts_differ :
  could_not_process <> service_unavailable
  /\ encountered_error <> service_unavailable.
Proof.
  split; intros H;
    match type of H with
    | ?a = ?b =>
        assert (E : String.eqb a b = true) by (rewrite H; apply String.eqb_refl)
    end; vm_compute in E; discriminate.
Qed.

(** C4, refuted as stated: the webhook answers 200 with the body [{}];
    the bot row that is persisted and appended carries the text "Sorry,
    I could not process your message.", not the "currently unavailable"
    one. *)
Lemma empty_reply_body_gets_could_not_process :
  let r := json_response 200 (JObj []) in
  let w := send_world [Created "m1" "t1" "u1"; Created "m2" "t2" "u1"]
             (Resolved r) in
  let w' := snd (exec (handleSendMessage signed_in "hello") w) in
  usable_reply r = None
  /\ remote w' = [row "m1" "t1" "u1" "chat-a" "hello" user_sender;
                  row "m2" "t2" "u1" "chat-a" could_not_process bot_sender]
  /\ messages (ui w') = remote w'
  /\ filter (fun m => String.eqb (content m) service_unavailable) (remote w')
     = [].
Proof. vm_compute. repeat split. Qed.

(** C4, amended: an ok webhook response without a usable reply makes
    the send persist and append one bot row with [substitute_text]:
    "could not process" when the body parses and [response] is missing
    or falsy, "encountered an error" when the body does not parse, is
    [null], or carries a [response] that is not a string; never the
    "currently unavailable" text. *)
Theorem unusable_reply_gets_substitute_text
        (w : World) (st : AppState) (content chatId : string) (c : jsval)
        (r : Response) (i t u i1 t1 u1 i2 t2 u2 : string) :
  nonempty (selectedChatId st) = Some chatId ->
  apolloClient st = Some c ->
  truthy (session st) = true ->
  truthy (user st) = true ->
  store_create w 0%nat = Created i t u ->
  store_create w 1%nat = Created i1 t1 u1 ->
  store_create w 2%nat = Created i2 t2 u2 ->
  webhook w 0%nat = Resolved r ->
  ok r = true ->
  usable_reply r = None ->
  let w' := snd (exec (handleSendMessage st content) w) in
  let m := row i t u chatId content user_sender in
  exists i' t' u',
    remote w' =
      remote w ++ [m; row i' t' u' chatId (substitute_text r) bot_sender]
    /\ messages (ui w') =
      messages (ui w)
      ++ [m; row i' t' u' chatId (substitute_text r) bot_sender]
    /\ substitute_text r <> service_unavailable.
Proof.
  intros Hc Ha Hs Hu H0 H1 H2 Hw Hok Hun w' m.
  destruct (handleSendMessage_rows w st content chatId c i t u Hc Ha Hs Hu H0)
    as (w1 & Hrun & Hrm & Hms & _).
  subst w' m. rewrite Hrun. cbn [snd]. rewrite Hrm, Hms.
  destruct fixed_texts_differ as [Hd1 Hd2].
  unfold bot_rows, reply_plan, substitute_text. rewrite Hw, Hok.
  unfold usable_reply in Hun.
  destruct (json r) as [body | e].
  2: { rewrite H1. cbn. eexists _, _, _. repeat split; assumption. }
  destruct (get_prop body "response") as [v | e].
  2: { rewrite H1. cbn. eexists _, _, _. repeat split; assumption. }
  rewrite H1. unfold js_or.
  destruct v; cbn;
    try (rewrite H2; cbn; eexists _, _, _; repeat split; assumption);
    try (eexists _, _, _; repeat split; assumption).
  - destruct b; cbn;
      [rewrite H2; cbn |]; eexists _, _, _; repeat split; assumption.
  - destruct (n =? 0); cbn;
      [| rewrite H2; cbn]; eexists _, _, _; repeat split; assumption.
  - destruct (String.eqb s EmptyString); cbn; [| discriminate].
    eexists _, _, _; repeat split; assumption.
Qed.

Lemma unusable_reply_gets_substitute_text_witness :
  let r := json_response 200 (JObj [("output", JStr "hi there")]) in
  let w := send_world [Created "m1" "t1" "u1"; Created "m2" "t2" "u1";
                       Created "m3" "t3" "u1"] (Resolved r) in
  let w' := snd (exec (handleSendMessage signed_in "hello") w) in
  let m := row "m1" "t1" "u1" "chat-a" "hello" user_sender in
  exists i' t' u',
    remote w' =
      remote w ++ [m; row i' t' u' "chat-a" (substitute_text r) bot_sender]
    /\ messages (ui w') =
      messages (ui w)
      ++ [m; row i' t' u' "chat-a" (substitute_text r) bot_sender]
    /\ substitute_text r <> service_unavailable.
Proof.
  apply (unusable_reply_gets_substitute_text
           (send_world [Created "m1" "t1" "u1"; Created "m2" "t2" "u1";
                        Created "m3" "t3" "u1"]
              (Resolved (json_response 200 (JObj [("output", JStr "hi there")]))))
           signed_in "hello" "chat-a" (JStr "access-1")
           (json_response 200 (JObj [("output", JStr "hi there")]))
           "m1" "t1" "u1" "m2" "t2" "u1" "m3" "t3" "u1");
    reflexivity.
Defined.

(** C2, refuted as stated: a second [refreshSession] called while the
    first one is still waiting for the token endpoint sends a second
    request of its own. *)
Lemma overlapping_refreshes_send_two_requests :
  let rt := JStr "refresh-1" in
  let w0 := apollo_world (Some sample_session_text) 800000 in
  let first := advance (@refreshSession sample_engine rt) w0 in
  let second := advance (@refreshSession sample_engine rt) (snd first) in
  pending (fst first) = Some (FetchToken "{refreshToken}")
  /\ pending (fst second) = Some (FetchToken "{refreshToken}")
  /\ requests (snd first) = [ReqToken "{refreshToken}"]
  /\ requests (snd second)
     = [ReqToken "{refreshToken}"; ReqToken "{refreshToken}"]
  /\ requests (snd second) <> requests (snd first).
Proof. vm_compute. repeat split. discriminate. Qed.

(** C2, amended: every call of [refreshSession] sends its own request
    to the token endpoint at once and waits for its own answer,
    whatever requests are outstanding; carried through, a call sends
    exactly one request. *)
Theorem refreshSession_sends_its_own_request
        (engine : JSEngine) (w : World) (rt : jsval) :
  pending (fst (advance (refreshSession rt) w))
    = Some (FetchToken (JSON_stringify (JObj [("refreshToken", rt)])))
  /\ requests (snd (advance (refreshSession rt) w))
     = requests w ++ [token_request engine rt]
  /\ requests (snd (exec (refreshSession rt) w))
     = requests w ++ [token_request engine rt].
Proof.
  split; [reflexivity | split; [reflexivity |]].
  destruct (refreshSession_once engine w rt) as (v & w' & Hr & Hreq & _).
  rewrite Hr. exact Hreq.
Qed.

(** C3, refuted as stated: chat A is selected and polled, chat B is
    selected, B's messages arrive, then the answer to the poll of A
    arrives and replaces the message list while B is the selected
    chat. *)
Lemma stale_poll_answer_is_applied :
  let before := steps [SelectChat (Some "chat-a"); Arrive 0; Tick;
                       SelectChat (Some "chat-b"); Arrive 2]
                      polling_start in
  let s := step (Arrive 1) before in
  option_map pending (nth_error (polls before) 1)
    = Some (Some (QueryMessages "chat-a"))
  /\ selectedChatId (ui (world before)) = Some "chat-b"
  /\ messages (ui (world before)) = messages_of "chat-b" two_chats
  /\ selectedChatId (ui (world s)) = Some "chat-b"
  /\ timer s = Some (Some (JStr "access-1"), "chat-b")
  /\ messages (ui (world s)) = messages_of "chat-a" two_chats
  /\ messages (ui (world s)) <> messages (ui (world before)).
Proof. vm_compute. repeat split. discriminate. Qed.

(** C3, amended: the answer to a call of [loadMessages], whenever it
    arrives and whichever chat is selected by then, replaces the
    message list with the rows it carries; the selected chat is not
    consulted. *)
Theorem poll_answer_is_applied_unconditionally
        (client : jsval) (chatId : string) (w0 w : World) :
  store_query w 0%nat = Served ->
  let poll := fst (advance (loadMessages (Some client) chatId) w0) in
  let w' := snd (settle poll w) in
  pending poll = Some (QueryMessages chatId)
  /\ messages (ui w') = messages_of chatId (remote w)
  /\ selectedChatId (ui w') = selectedChatId (ui w).
Proof.
  intros Hq poll w'. subst poll w'.
  unfold loadMessages, perform, call. cbn. rewrite Hq. cbn.
  repeat split; reflexivity.
Qed.

Lemma poll_answer_is_applied_unconditionally_witness :
  let w0 := world (steps [SelectChat (Some "chat-a")] polling_start) in
  let w := world (steps [SelectChat (Some "chat-a");
                         SelectChat (Some "chat-b")] polling_start) in
  let poll := fst (advance (loadMessages (Some (JStr "access-1")) "chat-a") w0) in
  let w' := snd (settle poll w) in
  pending poll = Some (QueryMessages "chat-a")
  /\ messages (ui w') = messages_of "chat-a" (remote w)
  /\ selectedChatId (ui w') = selectedChatId (ui w).
Proof.
  apply (poll_answer_is_applied_unconditionally (JStr "access-1") "chat-a"
           (world (steps [SelectChat (Some "chat-a")] polling_start))
           (world (steps [SelectChat (Some "chat-a");
                          SelectChat (Some "chat-b")] polling_start)));
    reflexivity.
Defined.
End ApolloFacts.

Module NhostFacts.
Import NhostApp.

Lemma api_exec_bind {A B} (p : P A) (f : A -> P B) (w : World) :
  exec (bind p f) w =
  match exec p w with
  | (Resolved v, w') => exec (f v) w'
  | (Rejected e, w') => (Rejected e, w')
  end.
Proof. apply run_bind. Qed.

Lemma api_exec_try_catch {A} (p : P A) (h : string -> P A) (w : World) :
  exec (try_catch p h) w =
  match exec p w with
  | (Resolved v, w') => (Resolved v, w')
  | (Rejected e, w') => exec (h e) w'
  end.
Proof. apply run_try_catch. Qed.

Lemma api_exec_try_finally {A} (p : P A) (q : P unit) (w : World) :
  exec (try_finally p q) w =
  match exec p w with
  | (Resolved v, w') =>
      match exec q w' with
      | (Resolved _, w'') => (Resolved v, w'')
      | (Rejected e, w'') => (Rejected e, w'')
      end
  | (Rejected e, w') =>
      match exec q w' with
      | (Resolved _, w'') => (Rejected e, w'')
      | (Rejected e', w'') => (Rejected e', w'')
      end
  end.
Proof. apply run_try_finally. Qed.

Lemma truthy_get_prop_opt (v : jsval) (k : string) :
  truthy v = true -> get_prop v k = Resolved (get_prop_opt v k).
Proof. destruct v; cbn; intros H; try discriminate; reflexivity. Qed.

(** [graphqlRequest] sends one request and returns or throws by what
    the answer holds. *)
Lemma graphqlRequest_run (op : Operation) (w : World) :
  exec (graphqlRequest op) w
  = (graphql_outcome (graphql w 0%nat), after_graphql op w).
Proof.
  unfold exec, graphqlRequest, graphql_outcome, after_graphql. cbn.
  destruct (graphql w 0%nat) as [r | e]; cbn; [| reflexivity].
  destruct (json r) as [res | e]; cbn; [| reflexivity].
  destruct (get_prop res "errors") as [errors | e]; cbn; [| reflexivity].
  destruct (truthy errors); cbn.
  - destruct (get_prop (index0 errors) "message"); reflexivity.
  - destruct (get_prop res "data"); reflexivity.
Qed.

Arguments graphqlRequest : simpl never.

Lemma api_method_run (op : Operation) (field : string) (w : World) :
  exec (data <- graphqlRequest op;; lift (get_prop data field)) w
  = (api_outcome w field, after_graphql op w).
Proof.
  rewrite api_exec_bind, graphqlRequest_run. unfold api_outcome.
  destruct (graphql_outcome (graphql w 0%nat)) as [data | e]; [| reflexivity].
  unfold exec. destruct (get_prop data field); reflexivity.
Qed.

Lemma getChats_run (w : World) :
  exec getChats w = (api_outcome w "chats", after_graphql GetChats w).
Proof. apply api_method_run. Qed.

Lemma createChat_run (title : string) (w : World) :
  exec (createChat title) w
  = (api_outcome w "insert_chats_one", after_graphql (CreateChat title) w).
Proof. apply api_method_run. Qed.

Lemma getMessages_run (chatId : jsval) (w : World) :
  exec (getMessages chatId) w
  = (api_outcome w "messages", after_graphql (GetMessages chatId) w).
Proof. apply api_method_run. Qed.

Lemma sendMessage_run (chatId : jsval) (content : string) (w : World) :
  exec (sendMessage chatId content) w
  = (api_outcome w "insert_messages_one",
     after_graphql (InsertMessage chatId content user_sender) w).
Proof. apply api_method_run. Qed.

Lemma updateChatTimestamp_run (chatId : jsval) (w : World) :
  exec (updateChatTimestamp chatId) w
  = (match graphql_outcome (graphql w 0%nat) with
     | Resolved _ => Resolved tt
     | Rejected e => Rejected e
     end, after_graphql (UpdateChat chatId) w).
Proof.
  unfold updateChatTimestamp. rewrite api_exec_bind, graphqlRequest_run.
  destruct (graphql_outcome (graphql w 0%nat)); reflexivity.
Qed.

Lemma sendToChatbot_run (chatId : jsval) (message : string) (w : World) :
  exec (sendToChatbot chatId message) w
  = (match webhook w 0%nat with
     | Resolved _ => Resolved tt
     | Rejected e => Rejected e
     end,
     next_webhook (sent (ReqWebhook (chatbot_payload chatId message w)) w)).
Proof.
  unfold exec, sendToChatbot, chatbot_payload. cbn.
  destruct (webhook w 0%nat); reflexivity.
Qed.

Lemma loadChats_run (w : World) :
  exec loadChats w
  = (Resolved tt,
     match api_outcome w "chats" with
     | Resolved v => with_ui (set_chats v) (after_graphql GetChats w)
     | Rejected _ =>
         with_console
           (console (after_graphql GetChats w) ++ ["Failed to load chats:"])
           (after_graphql GetChats w)
     end).
Proof.
  unfold loadChats. rewrite api_exec_try_catch, api_exec_bind, getChats_run.
  destruct (api_outcome w "chats"); reflexivity.
Qed.

Arguments getChats : simpl never.
Arguments sendMessage : simpl never.
Arguments updateChatTimestamp : simpl never.
Arguments sendToChatbot : simpl never.
Arguments loadChats : simpl never.

Arguments exec : simpl never.

Lemma exec_set_sending (b : bool) (w : World) :
  @exec unit (perform (SetIsSendingMessage b)) w
  = (Resolved tt, with_ui (set_isSendingMessage b) w).
Proof. reflexivity. Qed.

Lemma exec_append (m : jsval) (w : World) :
  @exec unit (perform (AppendMessage m)) w
  = (Resolved tt, with_ui (append_message m) w).
Proof. reflexivity. Qed.

Lemma exec_console_error (l : string) (w : World) :
  @exec unit (perform (ConsoleError l)) w
  = (Resolved tt, with_console (console w ++ [l]) w).
Proof. reflexivity. Qed.

(** [handleSendMessage] past its guard never throws and leaves
    [send_result]. *)
Lemma handleSendMessage_run (st : AppState) (content : string) (w : World) :
  truthy (currentChat st) = true ->
  isSendingMessage st = false ->
  exec (handleSendMessage st content) w
  = (Resolved tt, send_result st content w).
Proof.
  intros Hc Hs. unfold handleSendMessage, send_result.
  rewrite Hc, Hs. cbn [negb orb].
  rewrite (truthy_get_prop_opt (currentChat st) "id" Hc).
  rewrite api_exec_bind, exec_set_sending.
  rewrite api_exec_try_finally, api_exec_try_catch.
  cbn [bind lift].
  rewrite api_exec_bind, sendMessage_run.
  destruct (api_outcome (with_ui (set_isSendingMessage true) w)
              "insert_messages_one") as [m | e].
  2: { rewrite exec_console_error, exec_set_sending. reflexivity. }
  rewrite api_exec_bind, exec_append.
  rewrite api_exec_bind, updateChatTimestamp_run.
  match goal with
  | |- context [graphql_outcome ?x] => destruct (graphql_outcome x) as [d | e]
  end.
  2: { rewrite exec_console_error, exec_set_sending. reflexivity. }
  rewrite api_exec_bind, sendToChatbot_run.
  match goal with
  | |- context [match webhook ?x 0%nat with _ => _ end] =>
      destruct (webhook x 0%nat) as [r | e]
  end.
  2: { rewrite exec_console_error, exec_set_sending. reflexivity. }
  rewrite loadChats_run, exec_set_sending. reflexivity.
Qed.

(** C6, refuted as stated: the store answers [getChats] with an
    expired-token error; the call throws that error after its one
    request, with the token as it was, and the answer that a retry
    would have got is never asked for. *)
Lemma expired_token_is_neither_refreshed_nor_retried :
  let w := nhost_world [graphql_error "Could not verify JWT: JWTExpired";
                        graphql_data [("chats", JArr [sample_chat])]]
             no_response in
  fst (exec getChats w) = Rejected "Could not verify JWT: JWTExpired"
  /\ requests (snd (exec getChats w)) = [ReqGraphql GetChats "Bearer token-1"]
  /\ access_token (snd (exec getChats w)) = Some "token-1"
  /\ graphql (snd (exec getChats w)) 0%nat
     = graphql_data [("chats", JArr [sample_chat])].
Proof. vm_compute. repeat split. Qed.

Lemma fails_without_retry_method (op : Operation) (field : string)
      (w : World) (msg : string) :
  graphql_outcome (graphql w 0%nat) = Rejected msg ->
  fails_without_retry (data <- graphqlRequest op;; lift (get_prop data field))
    op w msg.
Proof.
  intros H. unfold fails_without_retry.
  rewrite api_method_run. unfold api_outcome. rewrite H. cbn.
  repeat split; reflexivity.
Qed.

(** C6, amended: when the store answers an operation with errors, of
    whatever kind, the method of [ApiService] throws the message of the
    first one after its single request; nothing is refreshed and
    nothing is sent again. *)
Theorem failed_operation_is_thrown_without_refresh_or_retry
        (w : World) (r : Response) (fields efields : list (string * jsval))
        (rest : list jsval) (msg : string) :
  graphql w 0%nat = Resolved r ->
  json r = Resolved (JObj fields) ->
  lookup_field "errors" fields = JArr (JObj efields :: rest) ->
  lookup_field "message" efields = JStr msg ->
  fails_without_retry getChats GetChats w msg
  /\ (forall title,
        fails_without_retry (createChat title) (CreateChat title) w msg)
  /\ (forall chatId,
        fails_without_retry (getMessages chatId) (GetMessages chatId) w msg)
  /\ (forall chatId content,
        fails_without_retry (sendMessage chatId content)
          (InsertMessage chatId content user_sender) w msg)
  /\ (forall chatId,
        fails_without_retry (updateChatTimestamp chatId)
          (UpdateChat chatId) w msg).
Proof.
  intros Hg Hj He Hm.
  assert (H : graphql_outcome (graphql w 0%nat) = Rejected msg).
  { unfold graphql_outcome. rewrite Hg, Hj. cbn. rewrite He. cbn.
    rewrite Hm. reflexivity. }
  split; [| split; [| split; [| split]]]; intros;
    try (apply fails_without_retry_method; exact H).
  unfold fails_without_retry.
  rewrite updateChatTimestamp_run, H. cbn. repeat split; reflexivity.
Qed.

Lemma failed_operation_is_thrown_without_refresh_or_retry_witness :
  let w := nhost_world [graphql_error "Could not verify JWT: JWTExpired";
                        graphql_data [("chats", JArr [sample_chat])]]
             no_response in
  let msg := "Could not verify JWT: JWTExpired" in
  fails_without_retry getChats GetChats w msg
  /\ (forall title,
        fails_without_retry (createChat title) (CreateChat title) w msg)
  /\ (forall chatId,
        fails_without_retry (getMessages chatId) (GetMessages chatId) w msg)
  /\ (forall chatId content,
        fails_without_retry (sendMessage chatId content)
          (InsertMessage chatId content user_sender) w msg)
  /\ (forall chatId,
        fails_without_retry (updateChatTimestamp chatId)
          (UpdateChat chatId) w msg).
Proof.
  apply (failed_operation_is_thrown_without_refresh_or_retry
           (nhost_world [graphql_error "Could not verify JWT: JWTExpired";
                         graphql_data [("chats", JArr [sample_chat])]]
              no_response)
           (json_response 200
              (JObj [("errors",
                      JArr [JObj [("message",
                                   JStr "Could not verify JWT: JWTExpired")]])]))
           [("errors",
             JArr [JObj [("message", JStr "Could not verify JWT: JWTExpired")]])]
           [("message", JStr "Could not verify JWT: JWTExpired")]
           []
           "Could not verify JWT: JWTExpired");
    reflexivity.
Defined.

(** C8, refuted as stated: the user's message is created, the chat
    timestamp update fails; the failure is logged, and the webhook is
    never called although it would have answered. *)
Lemma touch_failure_skips_the_webhook :
  let w := nhost_world [graphql_data [("insert_messages_one", sample_row)];
                        graphql_error "connection error"]
             (Resolved (json_response 200 (JObj [("response", JStr "hi")]))) in
  let w' := snd (exec (handleSendMessage chatting "hello") w) in
  requests w'
  = [ReqGraphql (InsertMessage (JStr "chat-a") "hello" user_sender)
       "Bearer token-1";
     ReqGraphql (UpdateChat (JStr "chat-a")) "Bearer token-1"]
  /\ filter is_webhook (requests w') = []
  /\ console w' = ["Failed to send message:"]
  /\ messages (ui w') = JArr [sample_row].
Proof. vm_compute. repeat split. Qed.

(** C8, amended: when the user's message was created and the chat
    timestamp update fails, the failure is logged and the send ends
    there: the row stays appended, the sending flag is cleared, and
    neither the webhook nor the chat list is requested. *)
Theorem touch_failure_ends_the_send
        (st : AppState) (content : string) (w : World) (m : jsval)
        (e : string) :
  truthy (currentChat st) = true ->
  isSendingMessage st = false ->
  api_outcome w "insert_messages_one" = Resolved m ->
  graphql_outcome (graphql w 1%nat) = Rejected e ->
  let w' := snd (exec (handleSendMessage st content) w) in
  let chatId := get_prop_opt (currentChat st) "id" in
  fst (exec (handleSendMessage st content) w) = Resolved tt
  /\ requests w'
     = requests w
       ++ [ReqGraphql (InsertMessage chatId content user_sender)
             (bearer (access_token w));
           ReqGraphql (UpdateChat chatId) (bearer (access_token w))]
  /\ console w' = console w ++ ["Failed to send message:"]
  /\ messages (ui w') = messages (append_message m (ui w))
  /\ isSendingMessage (ui w') = false.
Proof.
  intros Hc Hs Hm He w' chatId. subst w' chatId.
  rewrite (handleSendMessage_run st content w Hc Hs). cbn [fst snd].
  unfold send_result.
  change (api_outcome (with_ui (set_isSendingMessage true) w)
            "insert_messages_one")
    with (api_outcome w "insert_messages_one").
  rewrite Hm. cbn. unfold shift. rewrite He. cbn.
  rewrite <- app_assoc. repeat split; try reflexivity.
  unfold append_message. cbn. destruct (spread (messages (ui w))); reflexivity.
Qed.

Lemma touch_failure_ends_the_send_witness :
  let w := nhost_world [graphql_data [("insert_messages_one", sample_row)];
                        graphql_error "connection error"]
             (Resolved (json_response 200 (JObj [("response", JStr "hi")]))) in
  let w' := snd (exec (handleSendMessage chatting "hello") w) in
  let chatId := JStr "chat-a" in
  fst (exec (handleSendMessage chatting "hello") w) = Resolved tt
  /\ requests w'
     = requests w
       ++ [ReqGraphql (InsertMessage chatId "hello" user_sender)
             (bearer (access_token w));
           ReqGraphql (UpdateChat chatId) (bearer (access_token w))]
  /\ console w' = console w ++ ["Failed to send message:"]
  /\ messages (ui w') = messages (append_message sample_row (ui w))
  /\ isSendingMessage (ui w') = false.
Proof.
  apply (touch_failure_ends_the_send chatting "hello"
           (nhost_world [graphql_data [("insert_messages_one", sample_row)];
                         graphql_error "connection error"]
              (Resolved (json_response 200 (JObj [("response", JStr "hi")]))))
           sample_row "connection error"); reflexivity.
Defined.

Lemma handleSendMessage_guarded (st : AppState) (content : string) (w : World) :
  negb (truthy (currentChat st)) || isSendingMessage st = true ->
  exec (handleSendMessage st content) w = (Resolved tt, w).
Proof. intros H. unfold handleSendMessage. rewrite H. reflexivity. Qed.

(** C9: [sendToChatbot] resolves to nothing whatever the webhook
    answers, and the answer leaves no trace; the send pipeline built on
    it ends in the same state whatever the webhook answers, creates no
    message with the bot role, and changes the message list at most by
    appending the row the store returned for the user's message. *)
Theorem chatbot_answer_is_never_read :
  (forall chatId message w h r,
      exec (sendToChatbot chatId message)
           (with_webhook (first_then (Resolved r) h) w)
      = (Resolved tt,
         with_webhook h
           (sent (ReqWebhook (chatbot_payload chatId message w)) w)))
  /\ (forall st content w h r1 r2,
        let end1 := snd (exec (handleSendMessage st content)
                           (with_webhook (first_then (Resolved r1) h) w)) in
        let end2 := snd (exec (handleSendMessage st content)
                           (with_webhook (first_then (Resolved r2) h) w)) in
        ui end1 = ui end2
        /\ requests end1 = requests end2
        /\ console end1 = console end2)
  /\ (forall st content w,
        let w' := snd (exec (handleSendMessage st content) w) in
        exists new,
          requests w' = requests w ++ new
          /\ Forall (fun q => creates_message_as bot_sender q = false) new
          /\ (messages (ui w') = messages (ui w)
              \/ exists m,
                   api_outcome w "insert_messages_one" = Resolved m
                   /\ messages (ui w') = messages (append_message m (ui w)))).
Proof.
  split; [| split].
  - intros. rewrite sendToChatbot_run. reflexivity.
  - intros st content w h r1 r2.
    destruct (negb (truthy (currentChat st)) || isSendingMessage st) eqn:Hg.
    + rewrite !handleSendMessage_guarded by exact Hg.
      cbn. repeat split; reflexivity.
    + apply orb_false_elim in Hg. destruct Hg as [Hc Hs].
      apply negb_false_iff in Hc.
      rewrite !handleSendMessage_run by assumption.
      unfold send_result, api_outcome. cbn.
      repeat (split_match; cbn); repeat split; reflexivity.
  - intros st content w.
    destruct (negb (truthy (currentChat st)) || isSendingMessage st) eqn:Hg.
    + rewrite handleSendMessage_guarded by exact Hg.
      exists []. cbn. rewrite app_nil_r. repeat split; auto.
    + apply orb_false_elim in Hg. destruct Hg as [Hc Hs].
      apply negb_false_iff in Hc.
      rewrite handleSendMessage_run by assumption.
      unfold send_result. cbn [snd].
      change (api_outcome (with_ui (set_isSendingMessage true) w)
                "insert_messages_one")
        with (api_outcome w "insert_messages_one").
      destruct (api_outcome w "insert_messages_one") as [m | e] eqn:Hm.
      2: { eexists [_]. cbn. repeat split; auto. }
      assert (Hmsg : forall s : AppState,
                 messages (append_message m (set_isSendingMessage true s))
                 = messages (append_message m s)).
      { intros s0. unfold append_message. cbn.
        destruct (spread (messages s0)); reflexivity. }
      repeat (split_match; cbn);
        rewrite <- ?app_assoc; cbn;
        (eexists; split; [reflexivity |];
         split; [repeat constructor |];
         right; exists m; split; [reflexivity | apply Hmsg]).
Qed.
End NhostFacts.

(** C10: [handleSignOut] of the Apollo client always completes, and
    that of the Nhost client completes exactly when the sign-out call
    of the auth client resolves; once it has completed the user is null
    (with the session, or with the authenticated flag cleared), the chat
    list and the message list are empty and no chat is selected.  When
    the sign-out call rejects, the Nhost handler throws that rejection
    and touches nothing. *)
Theorem handleSignOut_resets_the_conversation_state :
  (forall w : ApolloApp.World,
      let w' := snd (ApolloApp.exec ApolloApp.handleSignOut w) in
      fst (ApolloApp.exec ApolloApp.handleSignOut w) = Resolved tt
      /\ ApolloApp.storage w' = None
      /\ ApolloApp.user (ApolloApp.ui w') = JNull
      /\ ApolloApp.session (ApolloApp.ui w') = JNull
      /\ ApolloApp.chats (ApolloApp.ui w') = []
      /\ ApolloApp.messages (ApolloApp.ui w') = []
      /\ ApolloApp.selectedChatId (ApolloApp.ui w') = None)
  /\ (forall w : NhostApp.World,
        let w' := snd (NhostApp.exec NhostApp.handleSignOut w) in
        match NhostApp.auth_signout w 0%nat with
        | Resolved _ =>
            fst (NhostApp.exec NhostApp.handleSignOut w) = Resolved tt
            /\ NhostApp.user (NhostApp.ui w') = JNull
            /\ NhostApp.isAuthenticated (NhostApp.ui w') = false
            /\ NhostApp.chats (NhostApp.ui w') = JArr []
            /\ NhostApp.messages (NhostApp.ui w') = JArr []
            /\ NhostApp.currentChat (NhostApp.ui w') = JNull
            /\ NhostApp.isSidebarOpen (NhostApp.ui w') = false
            /\ NhostApp.requests w'
               = NhostApp.requests w ++ [NhostApp.ReqSignOut]
        | Rejected e =>
            fst (NhostApp.exec NhostApp.handleSignOut w) = Rejected e
            /\ NhostApp.ui w' = NhostApp.ui w
            /\ NhostApp.requests w'
               = NhostApp.requests w ++ [NhostApp.ReqSignOut]
        end).
Proof.
  split.
  - intros w. cbn. repeat split; reflexivity.
  - intros w. unfold NhostApp.exec, NhostApp.handleSignOut. cbn.
    destruct (NhostApp.auth_signout w 0%nat) as [[] | e]; cbn;
      repeat split; reflexivity.
Qed.

(* ================================================================== *)
(** * Further properties of the Apollo client *)
(* ================================================================== *)

Module ApolloExtra.
Import ApolloApp.

(** A call of [refreshSession] that returns a session has built it from
    the answer, with [expiresAt] counted from the clock, and has stored
    its text. *)
Lemma refreshSession_success (engine : JSEngine) (w w1 : World) (rt v : jsval) :
  exec (refreshSession rt) w = (Resolved v, w1) ->
  truthy v = true ->
  exists a b i m d x,
    v = session_object a b i m d
          (js_add_num (clock w 0%nat) (js_mul x (JNum 1000)))
    /\ storage w1 = Some (JSON_stringify v)
    /\ ui w1 = ui w
    /\ (forall n, clock w1 n = clock w (S n)).
Proof.
  unfold exec, refreshSession, perform, call. cbn.
  destruct (token_endpoint w 0%nat) as [r|e]; cbn.
  2: { intros H; inversion H; subst; discriminate. }
  destruct (json r) as [data|e]; cbn.
  2: { intros H; inversion H; subst; discriminate. }
  destruct (ok r); cbn.
  2: { intros H; inversion H; subst; discriminate. }
  destruct (get_prop data "session") as [ds|e]; cbn.
  2: { intros H; inversion H; subst; discriminate. }
  destruct (truthy ds) eqn:Hds; cbn.
  2: { intros H; inversion H; subst; discriminate. }
  destruct (get_prop ds "accessToken") as [a|e]; cbn.
  2: { intros H; inversion H; subst; discriminate. }
  destruct (get_prop ds "refreshToken") as [b|e]; cbn.
  2: { intros H; inversion H; subst; discriminate. }
  destruct (get_prop ds "user") as [u|e]; cbn.
  2: { intros H; inversion H; subst; discriminate. }
  destruct (get_prop u "id") as [i|e]; cbn.
  2: { intros H; inversion H; subst; discriminate. }
  destruct (get_prop u "email") as [m|e]; cbn.
  2: { intros H; inversion H; subst; discriminate. }
  destruct (get_prop u "displayName") as [d|e]; cbn.
  2: { intros H; inversion H; subst; discriminate. }
  destruct (get_prop ds "accessTokenExpiresIn") as [x|e]; cbn.
  2: { intros H; inversion H; subst; discriminate. }
  intros H _. inversion H; subst. exists a, b, i, m, d, x.
  repeat split; reflexivity.
Qed.

(** X1: a session that [refreshSession] returned is what
    [getStoredSession] reads back afterwards, until it expires, when the
    engine parses what it printed. *)
Theorem refreshed_session_is_read_back
        (engine : JSEngine) (w w1 : World) (rt v : jsval) :
  exec (refreshSession rt) w = (Resolved v, w1) ->
  truthy v = true ->
  nonempty (Some (JSON_stringify v)) = Some (JSON_stringify v) ->
  JSON_parse (JSON_stringify v) = Some v ->
  storage w1 = Some (JSON_stringify v)
  /\ fst (exec getStoredSession w1)
     = Resolved (if js_le (get_prop_opt v "expiresAt") (JNum (clock w1 0%nat))
                 then JNull else v).
Proof.
  intros Hr Hv Hne Hp.
  destruct (refreshSession_success engine w w1 rt v Hr Hv)
    as (a & b & i & m & d & x & Hs & Hst & _ & _).
  split; [exact Hst |].
  pose proof (NhostFacts.truthy_get_prop_opt v "expiresAt" Hv) as Hea.
  unfold exec, getStoredSession, perform, call. cbn.
  rewrite Hst, Hne. cbn. rewrite Hp. cbn. rewrite Hea. cbn.
  destruct (js_le (get_prop_opt v "expiresAt") (JNum (clock w1 0%nat)));
    reflexivity.
Qed.

Lemma refreshed_session_is_read_back_witness :
  let w := refreshing_world None 100000 in
  let w1 := snd (exec (@refreshSession sample_engine (JStr "refresh-0")) w) in
  let v := sample_session 1000000 in
  storage w1 = Some (@JSON_stringify sample_engine v)
  /\ fst (exec (@getStoredSession sample_engine) w1)
     = Resolved (if @js_le sample_engine (get_prop_opt v "expiresAt")
                      (JNum (clock w1 0%nat))
                 then JNull else v).
Proof.
  apply (@refreshed_session_is_read_back sample_engine
           (refreshing_world None 100000)
           (snd (exec (@refreshSession sample_engine (JStr "refresh-0"))
                   (refreshing_world None 100000)))
           (JStr "refresh-0") (sample_session 1000000)); reflexivity.
Defined.

(** [getStoredSession] never throws, sends nothing and changes neither
    the storage nor the state. *)
Lemma getStoredSession_frame (engine : JSEngine) (w : World) :
  exists v w0,
    exec getStoredSession w = (Resolved v, w0)
    /\ requests w0 = requests w
    /\ ui w0 = ui w
    /\ storage w0 = storage w
    /\ remote w0 = remote w
    /\ token_endpoint w0 = token_endpoint w
    /\ (nonempty (storage w) = None -> v = JNull).
Proof.
  unfold exec, getStoredSession, perform, call. cbn.
  destruct (nonempty (storage w)) as [s|]; cbn.
  2: { eexists _, _; repeat split; reflexivity. }
  destruct (JSON_parse s) as [v|]; cbn.
  2: { eexists _, _; repeat split; try reflexivity; discriminate. }
  destruct (get_prop v "expiresAt") as [ea|e]; cbn.
  2: { eexists _, _; repeat split; try reflexivity; discriminate. }
  destruct (js_le ea (JNum (clock w 0%nat))); cbn;
    eexists _, _; repeat split; try reflexivity; discriminate.
Qed.

(** [initializeAuth], whatever the storage holds and whatever the token
    endpoint answers. *)
Lemma initializeAuth_run (engine : JSEngine) (w : World) :
  exists w',
    exec initializeAuth w = (Resolved tt, w')
    /\ initializing (ui w') = false
    /\ remote w' = remote w
    /\ (requests w' = requests w
        \/ exists rt, requests w' = requests w ++ [token_request engine rt])
    /\ (nonempty (storage w) = None ->
        requests w' = requests w
        /\ session (ui w') = session (ui w)
        /\ user (ui w') = user (ui w)
        /\ storage w' = storage w).
Proof.
  destruct (getStoredSession_frame engine w)
    as (v & w0 & Hg & Hq0 & Hu0 & Hs0 & Hr0 & Ht0 & Hnone).
  unfold initializeAuth. rewrite ApolloFacts.exec_bind, Hg. cbv iota beta.
  destruct (truthy v) eqn:Hv.
  2: { eexists; split; [reflexivity |]. cbn.
       rewrite Hq0, Hu0, Hs0, Hr0. repeat split; auto. }
  assert (Hsome : nonempty (storage w) = None -> False).
  { intros Hn. rewrite (Hnone Hn) in Hv. discriminate. }
  rewrite (NhostFacts.truthy_get_prop_opt v "expiresAt" Hv).
  rewrite (NhostFacts.truthy_get_prop_opt v "refreshToken" Hv).
  rewrite (NhostFacts.truthy_get_prop_opt v "user" Hv).
  unfold exec, perform, call. cbn.
  destruct (js_lt (js_sub (get_prop_opt v "expiresAt") (JNum (clock w0 0%nat)))
              (JNum 300000)).
  - change (run handle) with (@exec unit).
    rewrite !ApolloFacts.exec_bind.
    destruct (ApolloFacts.refreshSession_once engine (next_clock w0)
                (get_prop_opt v "refreshToken"))
      as (v2 & w2 & Hr & Hreq & Hui & Hrem & Hnull).
    rewrite Hr. cbv iota beta.
    destruct (truthy v2) eqn:Hv2.
    + rewrite (NhostFacts.truthy_get_prop_opt v2 "user" Hv2).
      unfold exec. cbn.
      eexists; split; [reflexivity |]. cbn.
      rewrite Hreq, Hrem. cbn. rewrite Hq0, Hr0.
      split; [reflexivity |]. split; [reflexivity |].
      split; [right; eexists; reflexivity | intros Hn; destruct (Hsome Hn)].
    + unfold exec, signOut, perform, call. cbn.
      eexists; split; [reflexivity |]. cbn.
      rewrite Hreq, Hrem. cbn. rewrite Hq0, Hr0.
      split; [reflexivity |]. split; [reflexivity |].
      split; [right; eexists; reflexivity | intros Hn; destruct (Hsome Hn)].
  - eexists; split; [reflexivity |]. cbn. rewrite Hq0, Hr0.
    split; [reflexivity |]. split; [reflexivity |].
    split; [left; reflexivity | intros Hn; destruct (Hsome Hn)].
Qed.

(** X2: [initializeAuth] always completes and ends the initializing
    phase, with at most one request to the token endpoint, whatever the
    storage holds and whatever the endpoint answers. *)
Theorem initializeAuth_always_completes (engine : JSEngine) (w : World) :
  let w' := snd (exec initializeAuth w) in
  fst (exec initializeAuth w) = Resolved tt
  /\ initializing (ui w') = false
  /\ (requests w' = requests w
      \/ exists rt, requests w' = requests w ++ [token_request engine rt]).
Proof.
  destruct (initializeAuth_run engine w) as (w1 & Hr & Hi & _ & Hq & _).
  cbn zeta. rewrite Hr. cbn [fst snd]. auto.
Qed.

(** X3: after [handleSignOut] the next [initializeAuth] finds no session:
    it sends nothing, and user and session stay null. *)
Theorem sign_out_survives_the_next_load (engine : JSEngine) (w : World) :
  let w1 := snd (exec handleSignOut w) in
  let w2 := snd (exec initializeAuth w1) in
  requests w2 = requests w
  /\ storage w2 = None
  /\ session (ui w2) = JNull
  /\ user (ui w2) = JNull
  /\ initializing (ui w2) = false.
Proof.
  cbn zeta.
  assert (H1 : exec handleSignOut w
               = (Resolved tt, snd (exec handleSignOut w))) by reflexivity.
  set (w1 := snd (exec handleSignOut w)) in *.
  assert (Hst : storage w1 = None) by reflexivity.
  assert (Hrq : requests w1 = requests w) by reflexivity.
  assert (Hse : session (ui w1) = JNull) by reflexivity.
  assert (Hus : user (ui w1) = JNull) by reflexivity.
  destruct (initializeAuth_run engine w1) as (w2 & Hr & Hi & _ & _ & Hnone).
  rewrite Hr. cbn [snd].
  assert (Hn : nonempty (storage w1) = None) by (rewrite Hst; reflexivity).
  destruct (Hnone Hn) as (Hq & Hs & Hu & Hsto).
  rewrite Hq, Hs, Hu, Hsto, Hst, Hrq, Hse, Hus. repeat split; auto.
Qed.

(** X4: when the stored session is valid but within five minutes of its
    expiry and the refresh returns a session, [initializeAuth] adopts the
    refreshed session whole: it becomes the session of the application,
    its user the user, and its text replaces the stored one. *)
Theorem initializeAuth_adopts_the_refreshed_session
        (engine : JSEngine) (w w2 : World) (s : string)
        (fields : list (string * jsval)) (n : Z) (v : jsval) :
  nonempty (storage w) = Some s ->
  JSON_parse s = Some (JObj fields) ->
  lookup_field "expiresAt" fields = JNum n ->
  clock w 0%nat < n ->
  n - clock w 1%nat < 300000 ->
  exec (refreshSession (lookup_field "refreshToken" fields))
       (next_clock (next_clock w)) = (Resolved v, w2) ->
  truthy v = true ->
  let w' := snd (exec initializeAuth w) in
  session (ui w') = v
  /\ user (ui w') = get_prop_opt v "user"
  /\ storage w' = Some (JSON_stringify v)
  /\ initializing (ui w') = false.
Proof.
  intros H Hp He Hv Hlt Hr Htv w'.
  assert (Hg : exec getStoredSession w = (Resolved (JObj fields), next_clock w)).
  { rewrite (ApolloFacts.getStoredSession_record engine w s fields n H Hp He).
    destruct (Z.leb_spec n (clock w 0%nat)); [lia | reflexivity]. }
  destruct (refreshSession_success engine _ w2 _ v Hr Htv)
    as (a & b & i & m & d & x & Hs & Hst & Hui & _).
  subst w'. unfold initializeAuth.
  rewrite ApolloFacts.exec_bind, Hg. cbv iota beta.
  unfold exec, perform, call. cbn. rewrite He. cbn.
  unfold js_lt, js_sub. cbn. unfold shift.
  destruct (Z.ltb_spec (n - clock w 1%nat) 300000) as [_ | Hge]; [| lia].
  change (run handle) with (@exec unit).
  rewrite !ApolloFacts.exec_bind.
  change (@exec jsval) with (@run action result World handle jsval).
  unfold exec in Hr. rewrite Hr. cbv iota beta. rewrite Htv.
  rewrite (NhostFacts.truthy_get_prop_opt v "user" Htv).
  unfold exec. cbn. rewrite Hst. repeat split; reflexivity.
Qed.

Lemma initializeAuth_adopts_the_refreshed_session_witness :
  let w := refreshing_world (Some sample_session_text) 800000 in
  let v := sample_session 1700000 in
  let w' := snd (exec (@initializeAuth sample_engine) w) in
  session (ui w') = v
  /\ user (ui w') = get_prop_opt v "user"
  /\ storage w' = Some (@JSON_stringify sample_engine v)
  /\ initializing (ui w') = false.
Proof.
  apply (@initializeAuth_adopts_the_refreshed_session sample_engine
           (refreshing_world (Some sample_session_text) 800000)
           (snd (exec (@refreshSession sample_engine (JStr "refresh-1"))
                   (next_clock (next_clock
                      (refreshing_world (Some sample_session_text) 800000)))))
           sample_session_text
           [("accessToken", JStr "access-1");
            ("refreshToken", JStr "refresh-1");
            ("user", JObj [("id", JStr "u1");
                           ("email", JStr "ada@example.org");
                           ("displayName", JStr "Ada")]);
            ("expiresAt", JNum 1000000)]
           1000000 (sample_session 1700000)); reflexivity.
Defined.

(** A call adds its request, if it has one, at the end of the log. *)
Lemma handle_requests (a : action) (w : World) :
  requests (snd (handle a w))
  = requests w ++ match request_of a with Some r => [r] | None => [] end.
Proof.
  destruct a; unfold handle, issue; cbn;
    try (symmetry; apply app_nil_r); try reflexivity.
  - repeat split_match; reflexivity.
  - repeat split_match; reflexivity.
Qed.

(** Running a program only ever adds requests at the end of the log. *)
Lemma exec_requests_grow {R} (p : P R) (w : World) :
  exists l, requests (snd (exec p w)) = requests w ++ l.
Proof.
  unfold exec. revert w.
  induction p as [r | e | a k IH]; intros w; cbn.
  - exists []. rewrite app_nil_r. reflexivity.
  - exists []. rewrite app_nil_r. reflexivity.
  - pose proof (handle_requests a w) as Ha.
    destruct (handle a w) as [o w1]. cbn [snd] in Ha.
    destruct (IH o w1) as [l Hl]. rewrite Hl, Ha, <- app_assoc. eauto.
Qed.

Arguments exec : simpl never.
Arguments perform : simpl never.
Arguments result : simpl never.
Arguments save_reply : simpl never.
Arguments save_error_message : simpl never.
Arguments send_and_reply : simpl never.

(** One statement of a straight-line block. *)
Ltac run_step :=
  match goal with
  | |- context [exec (@bind _ _ ?A ?B (perform ?a) ?f) ?w] =>
      change (exec (@bind _ _ A B (perform a) f) w)
        with (exec (@bind _ _ (result a) B (perform a) f) w);
      rewrite ApolloFacts.exec_perform_bind
  | |- context [exec (bind (lift ?o) ?f) ?w] =>
      rewrite (ApolloFacts.exec_lift_bind o f w)
  end; cbn.

(** The body of the [try] up to the webhook answer, whatever the store
    answers to the user's mutation. *)
Lemma send_and_reply_gen (w : World) (st : AppState) (content chatId : string) :
  truthy (user st) = true ->
  exists w1,
    grown w w1 (user_rows chatId content (store_create w 0%nat)) 1
    /\ match store_create w 0%nat with
       | CreateFailed e =>
           requests w1 = requests w ++ [user_request chatId content]
           /\ exec (send_and_reply st chatId content) w = (Rejected e, w1)
       | _ =>
           requests w1
           = requests w ++ [user_request chatId content;
                            webhook_request st chatId content]
           /\ exec (send_and_reply st chatId content) w
              = match webhook w 0%nat with
                | Rejected e => (Rejected e, w1)
                | Resolved r => exec (save_reply chatId r) w1
                end
       end.
Proof.
  intros Hu.
  unfold send_and_reply, user_request, webhook_request.
  rewrite (NhostFacts.truthy_get_prop_opt (user st) "id" Hu).
  destruct (store_create w 0%nat) as [i t u | | e] eqn:H0.
  - run_step. run_step. rewrite H0. cbn.
    run_step. run_step. run_step. run_step.
    destruct (webhook w 0%nat) as [r | e]; cbn;
      [run_step |];
      (eexists; split; [| split; [| reflexivity]];
       [ApolloFacts.grown_now
       | cbn; rewrite <- app_assoc; reflexivity]).
  - run_step. run_step. rewrite H0. cbn.
    run_step. run_step. run_step.
    destruct (webhook w 0%nat) as [r | e]; cbn;
      [run_step |];
      (eexists; split; [| split; [| reflexivity]];
       [ApolloFacts.grown_now
       | cbn; rewrite <- app_assoc; reflexivity]).
  - run_step. run_step. rewrite H0. cbn.
    eexists; split; [| split; [| reflexivity]];
      [ApolloFacts.grown_now | reflexivity].
Qed.

(** The [catch] sends one mutation. *)
Lemma save_error_message_requests (chatId : string) (w : World) :
  requests (snd (exec (save_error_message chatId) w))
  = requests w ++ [ReqCreateMessage chatId (JStr encountered_error) bot_sender].
Proof.
  unfold exec, save_error_message, perform, call. cbn.
  destruct (store_create w 0%nat) as [i t u | | e]; reflexivity.
Qed.

(** What follows the body of the [try]: the [catch] when it threw, then
    the [finally]. *)
Lemma after_try (chatId : string) (o : outcome unit) (w2 : World) :
  exists w',
    match
      match (o, w2) with
      | (Resolved v, w0) => (Resolved v, w0)
      | (Rejected _, w0) => exec (save_error_message chatId) w0
      end
    with
    | (Resolved v, w0) =>
        match @exec unit (perform (SetLoading false)) w0 with
        | (Resolved _, w'') => (Resolved v, w'')
        | (Rejected e, w'') => (Rejected e, w'')
        end
    | (Rejected e, w0) =>
        match @exec unit (perform (SetLoading false)) w0 with
        | (Resolved _, w'') => (Rejected e, w'')
        | (Rejected e', w'') => (Rejected e', w'')
        end
    end = (Resolved tt, w')
    /\ loading (ui w') = false
    /\ match o with
       | Resolved _ =>
           remote w' = remote w2
           /\ messages (ui w') = messages (ui w2)
           /\ requests w' = requests w2
       | Rejected _ =>
           remote w' = remote w2 ++ error_rows chatId (store_create w2 0%nat)
           /\ messages (ui w') =
              messages (ui w2) ++ error_rows chatId (store_create w2 0%nat)
           /\ requests w' =
              requests w2
              ++ [ReqCreateMessage chatId (JStr encountered_error) bot_sender]
       end.
Proof.
  destruct o as [[] | e]; cbv iota beta.
  - rewrite ApolloFacts.exec_set_loading. eexists; split; [reflexivity |].
    cbn. repeat split; reflexivity.
  - pose proof (save_error_message_requests chatId w2) as Hq.
    destruct (ApolloFacts.save_error_message_run chatId w2)
      as (w3 & Hr3 & Hrm & Hms & _).
    rewrite Hr3 in *. cbn [snd] in Hq.
    rewrite ApolloFacts.exec_set_loading. eexists; split; [reflexivity |].
    cbn. rewrite Hrm, Hms, Hq. repeat split; reflexivity.
Qed.

Ltac close_send :=
  rewrite <- ?app_assoc;
  split; [reflexivity |]; split; [reflexivity |];
  first [reflexivity | eexists; cbn; reflexivity].

(** [handleSendMessage] past its guard, whatever the store and the
    webhook answer: it never throws, it clears the loading flag, it adds
    [user_rows] then [reply_rows], and its requests start with the
    user's mutation, followed by the webhook call unless that mutation
    failed. *)
Lemma handleSendMessage_full (w : World) (st : AppState)
      (content chatId : string) (c : jsval) :
  nonempty (selectedChatId st) = Some chatId ->
  apolloClient st = Some c ->
  truthy (session st) = true ->
  truthy (user st) = true ->
  exists w',
    exec (handleSendMessage st content) w = (Resolved tt, w')
    /\ loading (ui w') = false
    /\ remote w' =
       remote w ++ user_rows chatId content (store_create w 0%nat)
                ++ reply_rows chatId w
    /\ messages (ui w') =
       messages (ui w) ++ user_rows chatId content (store_create w 0%nat)
                       ++ reply_rows chatId w
    /\ match store_create w 0%nat with
       | CreateFailed _ =>
           requests w' =
           requests w
           ++ [user_request chatId content;
               ReqCreateMessage chatId (JStr encountered_error) bot_sender]
       | _ =>
           exists rest,
             requests w' =
             requests w ++ user_request chatId content
                        :: webhook_request st chatId content :: rest
       end.
Proof.
  intros Hc Ha Hs Hu.
  unfold handleSendMessage. rewrite Hc, Ha, Hs, Hu.
  rewrite ApolloFacts.exec_bind, ApolloFacts.exec_set_loading.
  rewrite ApolloFacts.exec_try_finally, ApolloFacts.exec_try_catch.
  destruct (send_and_reply_gen (with_ui (set_loading true) w) st content chatId Hu)
    as (w1 & Hg1 & Hm).
  assert (Hg : grown w w1 (user_rows chatId content (store_create w 0%nat)) 1)
    by exact Hg1.
  clear Hg1. destruct Hg as (Hrm1 & Hms1 & Hs1).
  change (store_create (with_ui (set_loading true) w)) with (store_create w) in Hm.
  change (webhook (with_ui (set_loading true) w)) with (webhook w) in Hm.
  change (requests (with_ui (set_loading true) w)) with (requests w) in Hm.
  unfold reply_rows, bot_rows.
  destruct (store_create w 0%nat) as [i t u | | e0] eqn:H0.
  - destruct Hm as [Hq1 Hrun]. rewrite Hrun.
    destruct (webhook w 0%nat) as [r | e].
    + destruct (ApolloFacts.save_reply_run chatId r w1) as (o & w2 & Hr & Hplan).
      destruct (exec_requests_grow (save_reply chatId r) w1) as [l Hl].
      rewrite Hr in *. cbn [snd] in Hl. rewrite (Hs1 0%nat) in Hplan.
      destruct (after_try chatId o w2) as (w' & Hrun' & Hload & Hrest).
      exists w'. split; [exact Hrun' |]. split; [exact Hload |].
      cbn [Nat.add] in *.
      destruct (reply_plan chatId r (store_create w 1%nat)) as [rows | |].
      * destruct Hplan as [-> (Hrm2 & Hms2 & _)].
        destruct Hrest as (Hrm & Hms & Hq).
        rewrite Hrm, Hms, Hq, Hrm2, Hms2, Hrm1, Hms1, Hl, Hq1.
        close_send.
      * destruct Hplan as [[e ->] (Hrm2 & Hms2 & Hs2)].
        destruct Hrest as (Hrm & Hms & Hq).
        rewrite Hrm, Hms, Hq, Hrm2, Hms2, Hrm1, Hms1, Hl, Hq1.
        rewrite (Hs2 0%nat); cbn [Nat.add]; rewrite (Hs1 0%nat); cbn [Nat.add];
          rewrite !app_nil_r.
        close_send.
      * destruct Hplan as [[e ->] (Hrm2 & Hms2 & Hs2)].
        destruct Hrest as (Hrm & Hms & Hq).
        rewrite Hrm, Hms, Hq, Hrm2, Hms2, Hrm1, Hms1, Hl, Hq1.
        rewrite (Hs2 0%nat); cbn [Nat.add]; rewrite (Hs1 1%nat); cbn [Nat.add];
          rewrite !app_nil_r.
        close_send.
    + destruct (after_try chatId (Rejected e) w1) as (w' & Hrun' & Hload & Hrest).
      exists w'. split; [exact Hrun' |]. split; [exact Hload |].
      destruct Hrest as (Hrm & Hms & Hq).
      rewrite Hrm, Hms, Hq, Hrm1, Hms1, Hq1, (Hs1 0%nat); cbn [Nat.add].
      close_send.
  - destruct Hm as [Hq1 Hrun]. rewrite Hrun.
    destruct (webhook w 0%nat) as [r | e].
    + destruct (ApolloFacts.save_reply_run chatId r w1) as (o & w2 & Hr & Hplan).
      destruct (exec_requests_grow (save_reply chatId r) w1) as [l Hl].
      rewrite Hr in *. cbn [snd] in Hl. rewrite (Hs1 0%nat) in Hplan.
      destruct (after_try chatId o w2) as (w' & Hrun' & Hload & Hrest).
      exists w'. split; [exact Hrun' |]. split; [exact Hload |].
      cbn [Nat.add] in *.
      destruct (reply_plan chatId r (store_create w 1%nat)) as [rows | |].
      * destruct Hplan as [-> (Hrm2 & Hms2 & _)].
        destruct Hrest as (Hrm & Hms & Hq).
        rewrite Hrm, Hms, Hq, Hrm2, Hms2, Hrm1, Hms1, Hl, Hq1.
        close_send.
      * destruct Hplan as [[e ->] (Hrm2 & Hms2 & Hs2)].
        destruct Hrest as (Hrm & Hms & Hq).
        rewrite Hrm, Hms, Hq, Hrm2, Hms2, Hrm1, Hms1, Hl, Hq1.
        rewrite (Hs2 0%nat); cbn [Nat.add]; rewrite (Hs1 0%nat); cbn [Nat.add];
          rewrite !app_nil_r.
        close_send.
      * destruct Hplan as [[e ->] (Hrm2 & Hms2 & Hs2)].
        destruct Hrest as (Hrm & Hms & Hq).
        rewrite Hrm, Hms, Hq, Hrm2, Hms2, Hrm1, Hms1, Hl, Hq1.
        rewrite (Hs2 0%nat); cbn [Nat.add]; rewrite (Hs1 1%nat); cbn [Nat.add];
          rewrite !app_nil_r.
        close_send.
    + destruct (after_try chatId (Rejected e) w1) as (w' & Hrun' & Hload & Hrest).
      exists w'. split; [exact Hrun' |]. split; [exact Hload |].
      destruct Hrest as (Hrm & Hms & Hq).
      rewrite Hrm, Hms, Hq, Hrm1, Hms1, Hq1, (Hs1 0%nat); cbn [Nat.add].
      close_send.
  - destruct Hm as [Hq1 Hrun]. rewrite Hrun.
    destruct (after_try chatId (Rejected e0) w1) as (w' & Hrun' & Hload & Hrest).
    exists w'. split; [exact Hrun' |]. split; [exact Hload |].
    destruct Hrest as (Hrm & Hms & Hq).
    rewrite Hrm, Hms, Hq, Hrm1, Hms1, Hq1, (Hs1 0%nat); cbn [Nat.add].
    close_send.
Qed.

Lemma usable_reply_plan (chatId : string) (r : Response) (s i t u : string) :
  ok r = true ->
  usable_reply r = Some s ->
  reply_plan chatId r (Created i t u) = Saved [row i t u chatId s bot_sender].
Proof.
  unfold usable_reply, reply_plan. intros -> H.
  destruct (json r) as [body | e]; [| discriminate].
  destruct (get_prop body "response") as [v | e]; [| discriminate].
  destruct v; try discriminate.
  unfold js_or. cbn.
  destruct (String.eqb s0 EmptyString); [discriminate |].
  inversion H; subst. reflexivity.
Qed.

(** X5: when the store creates both rows and the webhook answers with a
    success status and a non-empty [response] string, a send persists and
    appends the user's message followed by a bot message carrying that
    reply, and nothing else. *)
Theorem send_persists_message_then_reply
        (w : World) (st : AppState) (content chatId : string) (c : jsval)
        (r : Response) (s i t u i1 t1 u1 : string) :
  nonempty (selectedChatId st) = Some chatId ->
  apolloClient st = Some c ->
  truthy (session st) = true ->
  truthy (user st) = true ->
  store_create w 0%nat = Created i t u ->
  store_create w 1%nat = Created i1 t1 u1 ->
  webhook w 0%nat = Resolved r ->
  ok r = true ->
  usable_reply r = Some s ->
  let w' := snd (exec (handleSendMessage st content) w) in
  remote w' = remote w ++ [row i t u chatId content user_sender;
                           row i1 t1 u1 chatId s bot_sender]
  /\ messages (ui w') =
     messages (ui w) ++ [row i t u chatId content user_sender;
                         row i1 t1 u1 chatId s bot_sender].
Proof.
  intros Hc Ha Hs Hu H0 H1 Hw Hok Hrep w'.
  destruct (handleSendMessage_full w st content chatId c Hc Ha Hs Hu)
    as (w1 & Hrun & _ & Hrm & Hms & _).
  subst w'. rewrite Hrun. cbn [snd]. rewrite Hrm, Hms.
  unfold reply_rows, bot_rows. rewrite H0, Hw, H1.
  rewrite (usable_reply_plan chatId r s i1 t1 u1 Hok Hrep).
  split; reflexivity.
Qed.

Lemma send_persists_message_then_reply_witness :
  let r := json_response 200 (JObj [("response", JStr "hi there")]) in
  let w := send_world [Created "m1" "t1" "u1"; Created "m2" "t2" "u1"]
             (Resolved r) in
  let w' := snd (exec (handleSendMessage signed_in "hello") w) in
  remote w' = remote w ++ [row "m1" "t1" "u1" "chat-a" "hello" user_sender;
                           row "m2" "t2" "u1" "chat-a" "hi there" bot_sender]
  /\ messages (ui w') =
     messages (ui w) ++ [row "m1" "t1" "u1" "chat-a" "hello" user_sender;
                         row "m2" "t2" "u1" "chat-a" "hi there" bot_sender].
Proof.
  apply (send_persists_message_then_reply
           (send_world [Created "m1" "t1" "u1"; Created "m2" "t2" "u1"]
              (Resolved (json_response 200
                           (JObj [("response", JStr "hi there")]))))
           signed_in "hello" "chat-a" (JStr "access-1")
           (json_response 200 (JObj [("response", JStr "hi there")]))
           "hi there" "m1" "t1" "u1" "m2" "t2" "u1"); reflexivity.
Defined.

(** X6: when the mutation for the user's message fails, the webhook is
    never called and no user message is added; the [catch] sends one more
    mutation, and the only row a send can add is the bot message "Sorry,
    I encountered an error. Please try again.". *)
Theorem failed_user_message_skips_the_webhook
        (w : World) (st : AppState) (content chatId : string) (c : jsval)
        (e : string) :
  nonempty (selectedChatId st) = Some chatId ->
  apolloClient st = Some c ->
  truthy (session st) = true ->
  truthy (user st) = true ->
  store_create w 0%nat = CreateFailed e ->
  let w' := snd (exec (handleSendMessage st content) w) in
  requests w' =
    requests w
    ++ [user_request chatId content;
        ReqCreateMessage chatId (JStr encountered_error) bot_sender]
  /\ filter is_webhook_request (requests w')
     = filter is_webhook_request (requests w)
  /\ remote w' = remote w ++ error_rows chatId (store_create w 1%nat)
  /\ messages (ui w') =
     messages (ui w) ++ error_rows chatId (store_create w 1%nat)
  /\ count_sender user_sender (remote w')
     = count_sender user_sender (remote w).
Proof.
  intros Hc Ha Hs Hu H0 w'.
  destruct (handleSendMessage_full w st content chatId c Hc Ha Hs Hu)
    as (w1 & Hrun & _ & Hrm & Hms & Hq).
  subst w'. rewrite Hrun. cbn [snd]. rewrite H0 in Hq.
  unfold reply_rows in Hrm, Hms. rewrite H0 in Hrm, Hms. cbn [user_rows app] in *.
  rewrite Hrm, Hms, Hq. repeat split.
  - rewrite filter_app. cbn. apply app_nil_r.
  - unfold count_sender. rewrite filter_app, length_app.
    destruct (store_create w 1%nat); cbn; lia.
Qed.

Lemma failed_user_message_skips_the_webhook_witness :
  let w := send_world [CreateFailed "Network error"; Created "m2" "t2" "u1"]
             (Resolved (json_response 200 (JObj [("response", JStr "hi")]))) in
  let w' := snd (exec (handleSendMessage signed_in "hello") w) in
  requests w' =
    requests w
    ++ [user_request "chat-a" "hello";
        ReqCreateMessage "chat-a" (JStr encountered_error) bot_sender]
  /\ filter is_webhook_request (requests w')
     = filter is_webhook_request (requests w)
  /\ remote w' = remote w ++ error_rows "chat-a" (store_create w 1%nat)
  /\ messages (ui w') =
     messages (ui w) ++ error_rows "chat-a" (store_create w 1%nat)
  /\ count_sender user_sender (remote w')
     = count_sender user_sender (remote w).
Proof.
  apply (failed_user_message_skips_the_webhook
           (send_world [CreateFailed "Network error"; Created "m2" "t2" "u1"]
              (Resolved (json_response 200 (JObj [("response", JStr "hi")]))))
           signed_in "hello" "chat-a" (JStr "access-1") "Network error");
    reflexivity.
Defined.

(** X7: [handleSendMessage] never throws; when it goes past its guard it
    leaves the loading flag cleared, and when the guard stops it (no chat
    selected, no client, no session or no user) it changes nothing and
    sends nothing. *)
Theorem handleSendMessage_settles (w : World) (st : AppState) (content : string) :
  let w' := snd (exec (handleSendMessage st content) w) in
  fst (exec (handleSendMessage st content) w) = Resolved tt
  /\ match nonempty (selectedChatId st), apolloClient st,
           truthy (session st), truthy (user st) with
     | Some _, Some _, true, true => loading (ui w') = false
     | _, _, _, _ => w' = w
     end.
Proof.
  cbn zeta.
  destruct (nonempty (selectedChatId st)) as [chatId |] eqn:Hc;
    [destruct (apolloClient st) as [c |] eqn:Ha;
     [destruct (truthy (session st)) eqn:Hs;
      [destruct (truthy (user st)) eqn:Hu |] |] |];
    try (unfold handleSendMessage; rewrite ?Hc, ?Ha, ?Hs, ?Hu;
         split; reflexivity).
  destruct (handleSendMessage_full w st content chatId c Hc Ha Hs Hu)
    as (w1 & Hrun & Hload & _).
  rewrite Hrun. split; [reflexivity | exact Hload].
Qed.

(** X8: unless the mutation for the user's message fails, the first two
    requests of a send are that mutation, with the content as typed and
    the user role, then the webhook call, whose payload carries the
    action name, the selected chat, the content, the role "user" and the
    id of the signed-in user. *)
Theorem send_requests_start_with_message_then_webhook
        (w : World) (st : AppState) (content chatId : string) (c : jsval) :
  nonempty (selectedChatId st) = Some chatId ->
  apolloClient st = Some c ->
  truthy (session st) = true ->
  truthy (user st) = true ->
  (forall e, store_create w 0%nat <> CreateFailed e) ->
  exists rest,
    requests (snd (exec (handleSendMessage st content) w))
    = requests w
      ++ ReqCreateMessage chatId (JStr content) user_sender
      :: ReqWebhook
           {| action_name := "sendMessage"; input_chat_id := JStr chatId;
              input_message := content; hasura_role := "user";
              hasura_user_id := get_prop_opt (user st) "id" |}
      :: rest.
Proof.
  intros Hc Ha Hs Hu H0.
  destruct (handleSendMessage_full w st content chatId c Hc Ha Hs Hu)
    as (w1 & Hrun & _ & _ & _ & Hq).
  rewrite Hrun. cbn [snd].
  destruct (store_create w 0%nat) as [i t u | | e]; try exact Hq.
  destruct (H0 e eq_refl).
Qed.

Lemma send_requests_start_with_message_then_webhook_witness :
  let w := send_world [NoRow] no_response in
  exists rest,
    requests (snd (exec (handleSendMessage signed_in "hello") w))
    = requests w
      ++ ReqCreateMessage "chat-a" (JStr "hello") user_sender
      :: ReqWebhook
           {| action_name := "sendMessage"; input_chat_id := JStr "chat-a";
              input_message := "hello"; hasura_role := "user";
              hasura_user_id := JStr "u1" |}
      :: rest.
Proof.
  apply (send_requests_start_with_message_then_webhook
           (send_world [NoRow] no_response)
           signed_in "hello" "chat-a" (JStr "access-1"));
    try reflexivity.
  intros e. cbn. discriminate.
Defined.

(** X9: when the store resolves the user's mutation without a row, no
    user message is added, yet the pipeline goes on: the webhook is
    called and its reply is persisted and appended as a bot message. *)
Theorem missing_user_row_does_not_stop_the_reply
        (w : World) (st : AppState) (content chatId : string) (c : jsval)
        (r : Response) (s i1 t1 u1 : string) :
  nonempty (selectedChatId st) = Some chatId ->
  apolloClient st = Some c ->
  truthy (session st) = true ->
  truthy (user st) = true ->
  store_create w 0%nat = NoRow ->
  store_create w 1%nat = Created i1 t1 u1 ->
  webhook w 0%nat = Resolved r ->
  ok r = true ->
  usable_reply r = Some s ->
  let w' := snd (exec (handleSendMessage st content) w) in
  remote w' = remote w ++ [row i1 t1 u1 chatId s bot_sender]
  /\ messages (ui w') = messages (ui w) ++ [row i1 t1 u1 chatId s bot_sender].
Proof.
  intros Hc Ha Hs Hu H0 H1 Hw Hok Hrep w'.
  destruct (handleSendMessage_full w st content chatId c Hc Ha Hs Hu)
    as (w1 & Hrun & _ & Hrm & Hms & _).
  subst w'. rewrite Hrun. cbn [snd]. rewrite Hrm, Hms.
  unfold reply_rows, bot_rows. rewrite H0, Hw, H1.
  rewrite (usable_reply_plan chatId r s i1 t1 u1 Hok Hrep).
  split; reflexivity.
Qed.

Lemma missing_user_row_does_not_stop_the_reply_witness :
  let r := json_response 200 (JObj [("response", JStr "hi there")]) in
  let w := send_world [NoRow; Created "m2" "t2" "u1"] (Resolved r) in
  let w' := snd (exec (handleSendMessage signed_in "hello") w) in
  remote w' = remote w ++ [row "m2" "t2" "u1" "chat-a" "hi there" bot_sender]
  /\ messages (ui w') =
     messages (ui w) ++ [row "m2" "t2" "u1" "chat-a" "hi there" bot_sender].
Proof.
  apply (missing_user_row_does_not_stop_the_reply
           (send_world [NoRow; Created "m2" "t2" "u1"]
              (Resolved (json_response 200
                           (JObj [("response", JStr "hi there")]))))
           signed_in "hello" "chat-a" (JStr "access-1")
           (json_response 200 (JObj [("response", JStr "hi there")]))
           "hi there" "m2" "t2" "u1"); reflexivity.
Defined.

(** X10: [loadMessages] never throws and sends one query when it has a
    client, none otherwise; only a served answer changes the message
    list, which becomes the rows of that chat in the store; a failed
    query is logged and an answer without data is ignored. *)
Theorem loadMessages_replaces_only_on_a_served_answer
        (client : option jsval) (chatId : string) (w : World) :
  let w' := snd (exec (loadMessages client chatId) w) in
  fst (exec (loadMessages client chatId) w) = Resolved tt
  /\ match client with
     | None => w' = w
     | Some _ =>
         requests w' = requests w ++ [ReqMessages chatId]
         /\ messages (ui w') =
            match store_query w 0%nat with
            | Served => messages_of chatId (remote w)
            | _ => messages (ui w)
            end
         /\ console w' =
            match store_query w 0%nat with
            | QueryFailed _ => console w ++ ["Error loading messages:"]
            | _ => console w
            end
         /\ selectedChatId (ui w') = selectedChatId (ui w)
         /\ remote w' = remote w
     end.
Proof.
  destruct client as [c |]; [| split; reflexivity].
  unfold exec, loadMessages, perform, call. cbn.
  destruct (store_query w 0%nat); cbn; repeat split; reflexivity.
Qed.

(** X11: deselecting the chat clears the interval and the message list:
    no later tick sends a query. *)
Theorem deselecting_stops_the_polling (s : Sched) (c : string) :
  selectedChatId (ui (world s)) = Some c ->
  let s' := steps [SelectChat None; Tick; Tick] s in
  timer s' = None
  /\ selectedChatId (ui (world s')) = None
  /\ messages (ui (world s')) = []
  /\ requests (world s') = requests (world s).
Proof.
  intros H. unfold steps, step. cbn [fold_left option_string_eqb].
  rewrite H.
  unfold start, load_effect, polling_effect, perform, call. cbn.
  repeat split; reflexivity.
Qed.

Lemma deselecting_stops_the_polling_witness :
  let s := steps [SelectChat (Some "chat-a")] polling_start in
  let s' := steps [SelectChat None; Tick; Tick] s in
  timer s' = None
  /\ selectedChatId (ui (world s')) = None
  /\ messages (ui (world s')) = []
  /\ requests (world s') = requests (world s).
Proof.
  apply (deselecting_stops_the_polling
           (steps [SelectChat (Some "chat-a")] polling_start) "chat-a");
    reflexivity.
Defined.

(** X12: selecting another chat replaces the interval: the messages of
    the new chat are requested at once, and each later tick requests the
    messages of the new chat and of no other. *)
Theorem switching_retargets_the_polling
        (s : Sched) (client : jsval) (chatId : string) :
  apolloClient (ui (world s)) = Some client ->
  nonempty (Some chatId) = Some chatId ->
  option_string_eqb (Some chatId) (selectedChatId (ui (world s))) = false ->
  let s1 := step (SelectChat (Some chatId)) s in
  let s2 := step Tick s1 in
  timer s1 = Some (Some client, chatId)
  /\ requests (world s1) = requests (world s) ++ [ReqMessages chatId]
  /\ timer s2 = Some (Some client, chatId)
  /\ requests (world s2)
     = requests (world s) ++ [ReqMessages chatId; ReqMessages chatId].
Proof.
  intros Ha Hn Hd. unfold step. rewrite Hd.
  unfold start, load_effect, polling_effect. cbn [ui with_ui selectedChatId
    set_selectedChatId apolloClient world]. rewrite Ha, Hn.
  unfold loadMessages, perform, call. cbn.
  rewrite <- app_assoc. repeat split; reflexivity.
Qed.

Lemma switching_retargets_the_polling_witness :
  let s := steps [SelectChat (Some "chat-a")] polling_start in
  let s1 := step (SelectChat (Some "chat-b")) s in
  let s2 := step Tick s1 in
  timer s1 = Some (Some (JStr "access-1"), "chat-b")
  /\ requests (world s1) = requests (world s) ++ [ReqMessages "chat-b"]
  /\ timer s2 = Some (Some (JStr "access-1"), "chat-b")
  /\ requests (world s2)
     = requests (world s) ++ [ReqMessages "chat-b"; ReqMessages "chat-b"].
Proof.
  apply (switching_retargets_the_polling
           (steps [SelectChat (Some "chat-a")] polling_start)
           (JStr "access-1") "chat-b"); reflexivity.
Defined.
End ApolloExtra.

(* ================================================================== *)
(** * When the Apollo client refreshes its session *)
(* ================================================================== *)

Module RefreshPolicy.
Import ApolloApp.

Lemma no_refresh_bind {A B} (p : P A) (f : A -> P B) :
  no_refresh p -> (forall x, no_refresh (f x)) -> no_refresh (bind p f).
Proof.
  intros Hp Hf. induction p as [r | e | a k IH]; cbn.
  - apply Hf.
  - exact I.
  - destruct Hp as [Ha Hk]. split; [exact Ha |].
    intros o. apply IH, Hk.
Qed.

Lemma no_refresh_try_catch {A} (p : P A) (h : string -> P A) :
  no_refresh p -> (forall e, no_refresh (h e)) -> no_refresh (try_catch p h).
Proof.
  intros Hp Hh. induction p as [r | e | a k IH]; cbn.
  - exact I.
  - apply Hh.
  - destruct Hp as [Ha Hk]. split; [exact Ha |].
    intros o. apply IH, Hk.
Qed.

Lemma no_refresh_try_finally {A} (p : P A) (q : P unit) :
  no_refresh p -> no_refresh q -> no_refresh (try_finally p q).
Proof.
  intros Hp Hq. induction p as [r | e | a k IH]; cbn.
  - apply no_refresh_bind; [exact Hq | intros; exact I].
  - apply no_refresh_bind; [exact Hq | intros; exact I].
  - destruct Hp as [Ha Hk]. split; [exact Ha |].
    intros o. apply IH, Hk.
Qed.

Lemma no_refresh_perform (a : action) :
  match a with
  | FetchToken _ => False
  | _ => True
  end ->
  no_refresh (perform a).
Proof.
  intros Ha. unfold perform, call. cbn. split; [exact Ha |].
  intros [v | e]; exact I.
Qed.

Lemma no_refresh_lift {A} (o : outcome A) : no_refresh (lift (action := action) (result := result) o).
Proof. destruct o; exact I. Qed.

(** A program that never calls the token endpoint adds no request to
    it. *)
Lemma no_refresh_requests {R} (p : P R) (w : World) :
  no_refresh p -> token_requests (snd (exec p w)) = token_requests w.
Proof.
  unfold exec. revert w.
  induction p as [r | e | a k IH]; intros w Hp; cbn; try reflexivity.
  destruct Hp as [Ha Hk].
  pose proof (ApolloExtra.handle_requests a w) as Hq.
  destruct (handle a w) as [o w1]. cbn [snd] in Hq.
  rewrite (IH o w1 (Hk o)). unfold token_requests.
  rewrite Hq, filter_app.
  destruct a; cbn in *; try contradiction; apply app_nil_r.
Qed.

Ltac no_refresh_step :=
  cbv beta zeta;
  first [ exact I
        | apply no_refresh_lift
        | apply no_refresh_perform; exact I
        | apply no_refresh_bind; [| intros ?]
        | apply no_refresh_try_catch; [| intros ?]
        | apply no_refresh_try_finally
        | match goal with
          | |- no_refresh (match ?x with _ => _ end) => destruct x
          end ].

Lemma handleSendMessage_no_refresh (st : AppState) (typed : string) :
  no_refresh (handleSendMessage st typed).
Proof.
  unfold handleSendMessage, send_and_reply, save_reply, save_error_message,
    append_if_row.
  repeat no_refresh_step.
Qed.

Lemma loadMessages_no_refresh (client : option jsval) (chatId : string) :
  no_refresh (loadMessages client chatId).
Proof. unfold loadMessages. repeat no_refresh_step. Qed.

Lemma handleSignOut_no_refresh : no_refresh handleSignOut.
Proof. unfold handleSignOut, signOut. repeat no_refresh_step. Qed.
(** C7, refuted as stated: a valid session is loaded with 400000 ms
    left, so [initializeAuth] sends nothing; later, with 100000 ms left,
    a poll and a send go out and the token endpoint is still not
    called, although it would have answered: the session is used
    unrefreshed. *)
Lemma session_nears_expiry_without_a_refresh :
  let w1 := snd (exec (@initializeAuth sample_engine) aging_world) in
  let w1' := with_ui with_chat_open w1 in
  let w2 := snd (exec (loadMessages (apolloClient (ui w1')) "chat-a") w1') in
  let w3 := snd (exec (handleSendMessage (ui w2) "hello") w2) in
  session (ui w1) = sample_session 1000000
  /\ requests w1 = []
  /\ 0 < 1000000 - clock w1 0%nat < 300000
  /\ requests w3 =
     [ReqMessages "chat-a";
      user_request "chat-a" "hello";
      webhook_request (ui w2) "chat-a" "hello";
      ReqCreateMessage "chat-a" (JStr "hi") bot_sender]
  /\ token_requests w3 = []
  /\ session (ui w3) = sample_session 1000000
  /\ token_endpoint w3 0%nat = Resolved (json_response 200 session_answer).
Proof. vm_compute. repeat split. Qed.

(** C7, amended: the refresh is decided once, when [initializeAuth] runs
    at load.  With a valid session in the storage it sends one request
    to the token endpoint when [expiresAt - Date.now()] is below
    300000 ms and none otherwise; when the refresh comes back empty the
    stored session is removed, no session is set and no second request
    is sent.  Nothing refreshes afterwards: [handleSendMessage],
    [loadMessages] and [handleSignOut] add no request to the token
    endpoint, in any world. *)
Theorem refresh_is_decided_once_at_load
        (engine : JSEngine) (w : World) (s : string)
        (fields : list (string * jsval)) (n : Z) :
  nonempty (storage w) = Some s ->
  JSON_parse s = Some (JObj fields) ->
  lookup_field "expiresAt" fields = JNum n ->
  clock w 0%nat < n ->
  let rt := lookup_field "refreshToken" fields in
  let w' := snd (exec initializeAuth w) in
  (n - clock w 1%nat < 300000 ->
     requests w' = (requests w ++ [token_request engine rt])%list
     /\ (fst (exec (refreshSession rt) (next_clock (next_clock w)))
          = Resolved JNull ->
         storage w' = None
         /\ session (ui w') = session (ui w)
         /\ user (ui w') = user (ui w)))
  /\ (300000 <= n - clock w 1%nat ->
        requests w' = requests w
        /\ storage w' = storage w
        /\ session (ui w') = JObj fields)
  /\ (forall (w0 : World) (st : AppState) (typed : string)
             (client : option jsval) (chatId : string),
        token_requests (snd (exec (handleSendMessage st typed) w0))
        = token_requests w0
        /\ token_requests (snd (exec (loadMessages client chatId) w0))
           = token_requests w0
        /\ token_requests (snd (exec handleSignOut w0)) = token_requests w0).
Proof.
  intros H Hp He Hv rt w'.
  destruct (ApolloFacts.initializeAuth_refreshes_under_five_minutes
              engine w s fields n H Hp He Hv) as [Hnear Hfar].
  split; [exact Hnear |]. split; [exact Hfar |].
  intros w0 st typed client chatId.
  split; [| split]; apply no_refresh_requests.
  - apply handleSendMessage_no_refresh.
  - apply loadMessages_no_refresh.
  - apply handleSignOut_no_refresh.
Qed.

Lemma refresh_is_decided_once_at_load_witness :
  let w := apollo_world (Some sample_session_text) 800000 in
  let rt := JStr "refresh-1" in
  let w' := snd (exec (@initializeAuth sample_engine) w) in
  (1000000 - 800000 < 300000 ->
     requests w' = (requests w ++ [token_request sample_engine rt])%list
     /\ (fst (exec (@refreshSession sample_engine rt)
                (next_clock (next_clock w))) = Resolved JNull ->
         storage w' = None
         /\ session (ui w') = session (ui w)
         /\ user (ui w') = user (ui w)))
  /\ (300000 <= 1000000 - 800000 ->
        requests w' = requests w
        /\ storage w' = storage w
        /\ session (ui w') = sample_session 1000000)
  /\ (forall (w0 : World) (st : AppState) (typed : string)
             (client : option jsval) (chatId : string),
        token_requests (snd (exec (handleSendMessage st typed) w0))
        = token_requests w0
        /\ token_requests (snd (exec (loadMessages client chatId) w0))
           = token_requests w0
        /\ token_requests (snd (exec handleSignOut w0)) = token_requests w0).
Proof.
  apply (@refresh_is_decided_once_at_load sample_engine
           (apollo_world (Some sample_session_text) 800000)
           sample_session_text
           [("accessToken", JStr "access-1");
            ("refreshToken", JStr "refresh-1");
            ("user", JObj [("id", JStr "u1");
                           ("email", JStr "ada@example.org");
                           ("displayName", JStr "Ada")]);
            ("expiresAt", JNum 1000000)]
           1000000); reflexivity.
Defined.
End RefreshPolicy.

(* ================================================================== *)
(** * Further properties of the Nhost client *)
(* ================================================================== *)

Module NhostExtra.
Import NhostApp NhostScreens.

Arguments exec : simpl never.
Arguments graphqlRequest : simpl never.
Arguments getChats : simpl never.
Arguments createChat : simpl never.
Arguments getMessages : simpl never.
Arguments sendMessage : simpl never.
Arguments updateChatTimestamp : simpl never.
Arguments sendToChatbot : simpl never.
Arguments loadChats : simpl never.

(** X13: when the answer to a GraphQL request carries no errors,
    [graphqlRequest] returns its [data], after one request that carries
    the access token as a bearer token, or an empty [Authorization]
    header when there is no token. *)
Theorem graphqlRequest_returns_the_data
        (op : Operation) (w : World) (r : Response)
        (fields : list (string * jsval)) :
  graphql w 0%nat = Resolved r ->
  json r = Resolved (JObj fields) ->
  truthy (lookup_field "errors" fields) = false ->
  let w' := snd (exec (graphqlRequest op) w) in
  fst (exec (graphqlRequest op) w) = Resolved (lookup_field "data" fields)
  /\ requests w' =
     requests w
     ++ [ReqGraphql op
           match nonempty (access_token w) with
           | Some t => ("Bearer " ++ t)%string
           | None => EmptyString
           end]
  /\ ui w' = ui w.
Proof.
  intros Hg Hj He. cbn zeta. rewrite NhostFacts.graphqlRequest_run.
  unfold graphql_outcome. rewrite Hg, Hj. cbn. rewrite He.
  repeat split; reflexivity.
Qed.

Lemma graphqlRequest_returns_the_data_witness :
  let w := nhost_world [graphql_data [("chats", JArr [sample_chat])]]
             no_response in
  let w' := snd (exec (graphqlRequest GetChats) w) in
  fst (exec (graphqlRequest GetChats) w)
    = Resolved (JObj [("chats", JArr [sample_chat])])
  /\ requests w' = requests w ++ [ReqGraphql GetChats "Bearer token-1"]
  /\ ui w' = ui w.
Proof.
  apply (graphqlRequest_returns_the_data GetChats
           (nhost_world [graphql_data [("chats", JArr [sample_chat])]]
              no_response)
           (json_response 200
              (JObj [("data", JObj [("chats", JArr [sample_chat])])]))
           [("data", JObj [("chats", JArr [sample_chat])])]);
    reflexivity.
Defined.

(** X14: an answer whose [errors] is an empty array makes
    [graphqlRequest] throw a [TypeError], although the answer carries
    data: the empty array is truthy and has no first element to read a
    message from. *)
Theorem empty_errors_array_is_a_type_error
        (op : Operation) (w : World) (r : Response)
        (fields : list (string * jsval)) :
  graphql w 0%nat = Resolved r ->
  json r = Resolved (JObj fields) ->
  lookup_field "errors" fields = JArr [] ->
  fst (exec (graphqlRequest op) w) = Rejected "TypeError"
  /\ fst (exec loadChats w) = Resolved tt
  /\ chats (ui (snd (exec loadChats w))) = chats (ui w)
  /\ console (snd (exec loadChats w)) = console w ++ ["Failed to load chats:"].
Proof.
  intros Hg Hj He.
  assert (H : graphql_outcome (graphql w 0%nat) = Rejected "TypeError").
  { unfold graphql_outcome. rewrite Hg, Hj. cbn. rewrite He. reflexivity. }
  rewrite NhostFacts.graphqlRequest_run, NhostFacts.loadChats_run.
  unfold api_outcome. rewrite H. cbn. repeat split; reflexivity.
Qed.

Lemma empty_errors_array_is_a_type_error_witness :
  let w := nhost_world
             [Resolved (json_response 200
                          (JObj [("errors", JArr []);
                                 ("data", JObj [("chats", JArr [sample_chat])])]))]
             no_response in
  fst (exec (graphqlRequest GetChats) w) = Rejected "TypeError"
  /\ fst (exec loadChats w) = Resolved tt
  /\ chats (ui (snd (exec loadChats w))) = chats (ui w)
  /\ console (snd (exec loadChats w)) = console w ++ ["Failed to load chats:"].
Proof.
  apply (empty_errors_array_is_a_type_error GetChats
           (nhost_world
              [Resolved (json_response 200
                           (JObj [("errors", JArr []);
                                  ("data", JObj [("chats", JArr [sample_chat])])]))]
              no_response)
           (json_response 200
              (JObj [("errors", JArr []);
                     ("data", JObj [("chats", JArr [sample_chat])])]))
           [("errors", JArr []);
            ("data", JObj [("chats", JArr [sample_chat])])]);
    reflexivity.
Defined.

(** X15: an answer without errors and without data ([data] null or
    missing) makes every method that reads the data throw a [TypeError];
    [updateChatTimestamp], which reads nothing, resolves. *)
Theorem missing_data_is_a_type_error
        (w : World) (r : Response) (fields : list (string * jsval)) :
  graphql w 0%nat = Resolved r ->
  json r = Resolved (JObj fields) ->
  truthy (lookup_field "errors" fields) = false ->
  lookup_field "data" fields = JNull \/ lookup_field "data" fields = JUndefined ->
  fst (exec getChats w) = Rejected "TypeError"
  /\ (forall title, fst (exec (createChat title) w) = Rejected "TypeError")
  /\ (forall chatId, fst (exec (getMessages chatId) w) = Rejected "TypeError")
  /\ (forall chatId content,
        fst (exec (sendMessage chatId content) w) = Rejected "TypeError")
  /\ (forall chatId, fst (exec (updateChatTimestamp chatId) w) = Resolved tt).
Proof.
  intros Hg Hj He Hd.
  assert (H : graphql_outcome (graphql w 0%nat)
              = Resolved (lookup_field "data" fields)).
  { unfold graphql_outcome. rewrite Hg, Hj. cbn. rewrite He. reflexivity. }
  assert (Hk : forall k, api_outcome w k = Rejected "TypeError").
  { intros k. unfold api_outcome. rewrite H. destruct Hd as [-> | ->]; reflexivity. }
  rewrite NhostFacts.getChats_run.
  split; [apply Hk |]. split; [| split; [| split]]; intros.
  - rewrite NhostFacts.createChat_run. apply Hk.
  - rewrite NhostFacts.getMessages_run. apply Hk.
  - rewrite NhostFacts.sendMessage_run. apply Hk.
  - rewrite NhostFacts.updateChatTimestamp_run, H. reflexivity.
Qed.

Lemma missing_data_is_a_type_error_witness :
  let w := nhost_world
             [Resolved (json_response 200 (JObj [("data", JNull)]))]
             no_response in
  fst (exec getChats w) = Rejected "TypeError"
  /\ (forall title, fst (exec (createChat title) w) = Rejected "TypeError")
  /\ (forall chatId, fst (exec (getMessages chatId) w) = Rejected "TypeError")
  /\ (forall chatId content,
        fst (exec (sendMessage chatId content) w) = Rejected "TypeError")
  /\ (forall chatId, fst (exec (updateChatTimestamp chatId) w) = Resolved tt).
Proof.
  apply (missing_data_is_a_type_error
           (nhost_world
              [Resolved (json_response 200 (JObj [("data", JNull)]))]
              no_response)
           (json_response 200 (JObj [("data", JNull)]))
           [("data", JNull)]); try reflexivity.
  left. reflexivity.
Defined.

Lemma append_message_flag (m : jsval) (b : bool) (s : AppState) :
  messages (append_message m (set_isSendingMessage b s))
  = messages (append_message m s).
Proof.
  unfold append_message. cbn. destruct (spread (messages s)); reflexivity.
Qed.

(** X16: when every step succeeds, a send of the Nhost client makes four
    requests in this order: the insertion of the user's message, the
    chat timestamp update, the webhook call, the chat list query; the
    row the store returned is appended to the message list, the chat
    list is replaced by the fresh one, and the sending flag is
    cleared. *)
Theorem send_runs_its_four_steps_in_order
        (st : AppState) (content : string) (w : World)
        (m d d2 fresh : jsval) (r : Response) :
  truthy (currentChat st) = true ->
  isSendingMessage st = false ->
  api_outcome w "insert_messages_one" = Resolved m ->
  graphql_outcome (graphql w 1%nat) = Resolved d ->
  webhook w 0%nat = Resolved r ->
  graphql_outcome (graphql w 2%nat) = Resolved d2 ->
  get_prop d2 "chats" = Resolved fresh ->
  let w' := snd (exec (handleSendMessage st content) w) in
  let chatId := get_prop_opt (currentChat st) "id" in
  requests w' =
    requests w
    ++ [ReqGraphql (InsertMessage chatId content user_sender)
          (bearer (access_token w));
        ReqGraphql (UpdateChat chatId) (bearer (access_token w));
        ReqWebhook (chatbot_payload chatId content w);
        ReqGraphql GetChats (bearer (access_token w))]
  /\ messages (ui w') = messages (append_message m (ui w))
  /\ chats (ui w') = fresh
  /\ isSendingMessage (ui w') = false
  /\ console w' = console w.
Proof.
  intros Hc Hs Hm Hd Hw Hd2 Hf w' chatId. subst w' chatId.
  rewrite (NhostFacts.handleSendMessage_run st content w Hc Hs). cbn [snd].
  unfold send_result.
  change (api_outcome (with_ui (set_isSendingMessage true) w)
            "insert_messages_one")
    with (api_outcome w "insert_messages_one").
  rewrite Hm. cbn. unfold shift. rewrite Hd. cbn. rewrite Hw. cbn.
  unfold api_outcome. cbn. unfold shift. rewrite Hd2, Hf. cbn.
  rewrite <- !app_assoc. repeat split; try reflexivity.
  apply append_message_flag.
Qed.

Lemma send_runs_its_four_steps_in_order_witness :
  let w := nhost_world [graphql_data [("insert_messages_one", sample_row)];
                        graphql_data [("update_chats_by_pk", sample_chat)];
                        graphql_data [("chats", JArr [sample_chat])]]
             (Resolved (json_response 200 (JObj [("response", JStr "hi")]))) in
  let w' := snd (exec (handleSendMessage chatting "hello") w) in
  let chatId := JStr "chat-a" in
  requests w' =
    requests w
    ++ [ReqGraphql (InsertMessage chatId "hello" user_sender)
          (bearer (access_token w));
        ReqGraphql (UpdateChat chatId) (bearer (access_token w));
        ReqWebhook (chatbot_payload chatId "hello" w);
        ReqGraphql GetChats (bearer (access_token w))]
  /\ messages (ui w') = messages (append_message sample_row (ui w))
  /\ chats (ui w') = JArr [sample_chat]
  /\ isSendingMessage (ui w') = false
  /\ console w' = console w.
Proof.
  apply (send_runs_its_four_steps_in_order chatting "hello"
           (nhost_world [graphql_data [("insert_messages_one", sample_row)];
                         graphql_data [("update_chats_by_pk", sample_chat)];
                         graphql_data [("chats", JArr [sample_chat])]]
              (Resolved (json_response 200 (JObj [("response", JStr "hi")]))))
           sample_row
           (JObj [("update_chats_by_pk", sample_chat)])
           (JObj [("chats", JArr [sample_chat])])
           (JArr [sample_chat])
           (json_response 200 (JObj [("response", JStr "hi")])));
    reflexivity.
Defined.

(** X17: [handleSendMessage] of the Nhost client never throws; with no
    chat open or a send already in flight it changes nothing and sends
    nothing, and otherwise it leaves the sending flag cleared whatever
    the store and the webhook answer. *)
Theorem nhost_send_settles (st : AppState) (content : string) (w : World) :
  let w' := snd (exec (handleSendMessage st content) w) in
  fst (exec (handleSendMessage st content) w) = Resolved tt
  /\ if negb (truthy (currentChat st)) || isSendingMessage st
     then w' = w
     else isSendingMessage (ui w') = false.
Proof.
  cbn zeta.
  destruct (negb (truthy (currentChat st)) || isSendingMessage st) eqn:Hg.
  - rewrite (NhostFacts.handleSendMessage_guarded st content w Hg).
    split; reflexivity.
  - apply orb_false_elim in Hg. destruct Hg as [Hc Hs].
    apply negb_false_iff in Hc.
    rewrite (NhostFacts.handleSendMessage_run st content w Hc Hs).
    split; [reflexivity |]. unfold send_result, failed_to_send. cbn [snd].
    repeat (split_match; cbn [ui with_ui isSendingMessage set_isSendingMessage]);
      reflexivity.
Qed.

(** X18: when the insertion of the user's message fails, nothing is
    appended to the message list and nothing more is requested: the
    failure is logged and the sending flag cleared. *)
Theorem failed_insert_appends_nothing
        (st : AppState) (content : string) (w : World) (e : string) :
  truthy (currentChat st) = true ->
  isSendingMessage st = false ->
  api_outcome w "insert_messages_one" = Rejected e ->
  let w' := snd (exec (handleSendMessage st content) w) in
  messages (ui w') = messages (ui w)
  /\ requests w' =
     requests w
     ++ [ReqGraphql (InsertMessage (get_prop_opt (currentChat st) "id")
                       content user_sender)
           (bearer (access_token w))]
  /\ console w' = console w ++ ["Failed to send message:"]
  /\ isSendingMessage (ui w') = false.
Proof.
  intros Hc Hs Hm w'. subst w'.
  rewrite (NhostFacts.handleSendMessage_run st content w Hc Hs). cbn [snd].
  unfold send_result.
  change (api_outcome (with_ui (set_isSendingMessage true) w)
            "insert_messages_one")
    with (api_outcome w "insert_messages_one").
  rewrite Hm. cbn. repeat split; reflexivity.
Qed.

Lemma failed_insert_appends_nothing_witness :
  let w := nhost_world [graphql_error "permission denied"]
             (Resolved (json_response 200 (JObj [("response", JStr "hi")]))) in
  let w' := snd (exec (handleSendMessage chatting "hello") w) in
  messages (ui w') = messages (ui w)
  /\ requests w' =
     requests w
     ++ [ReqGraphql (InsertMessage (get_prop_opt (currentChat chatting) "id")
                       "hello" user_sender)
           (bearer (access_token w))]
  /\ console w' = console w ++ ["Failed to send message:"]
  /\ isSendingMessage (ui w') = false.
Proof.
  apply (failed_insert_appends_nothing chatting "hello"
           (nhost_world [graphql_error "permission denied"]
              (Resolved (json_response 200 (JObj [("response", JStr "hi")]))))
           "permission denied"); reflexivity.
Defined.

(** X19: when the store creates the chat, [handleNewChat] puts it in
    front of the chat list its closure captured (not of the list on
    screen), makes it the current chat, empties the message list and
    closes the sidebar, after the one request that creates a chat
    titled with the date. *)
Theorem new_chat_is_put_first_and_opened
        (st : AppState) (today : string) (w : World) (c : jsval)
        (items : list jsval) :
  api_outcome w "insert_chats_one" = Resolved c ->
  spread (chats st) = Some items ->
  let w' := snd (exec (handleNewChat st today) w) in
  fst (exec (handleNewChat st today) w) = Resolved tt
  /\ chats (ui w') = JArr (c :: items)
  /\ currentChat (ui w') = c
  /\ messages (ui w') = JArr []
  /\ isSidebarOpen (ui w') = false
  /\ requests w' =
     requests w
     ++ [ReqGraphql (CreateChat ("Chat " ++ today)%string)
           (bearer (access_token w))]
  /\ console w' = console w.
Proof.
  intros Hc Hi. cbn zeta. unfold handleNewChat.
  rewrite NhostFacts.api_exec_try_catch, NhostFacts.api_exec_bind,
    NhostFacts.createChat_run, Hc.
  unfold prepend. rewrite Hi. unfold exec. cbn.
  repeat split; reflexivity.
Qed.

Lemma new_chat_is_put_first_and_opened_witness :
  let w := nhost_world [graphql_data [("insert_chats_one", sample_row)]]
             no_response in
  let w' := snd (exec (handleNewChat chatting "11/2/2026") w) in
  fst (exec (handleNewChat chatting "11/2/2026") w) = Resolved tt
  /\ chats (ui w') = JArr [sample_row; sample_chat]
  /\ currentChat (ui w') = sample_row
  /\ messages (ui w') = JArr []
  /\ isSidebarOpen (ui w') = false
  /\ requests w' =
     requests w
     ++ [ReqGraphql (CreateChat "Chat 11/2/2026") (bearer (access_token w))]
  /\ console w' = console w.
Proof.
  apply (new_chat_is_put_first_and_opened chatting "11/2/2026"
           (nhost_world [graphql_data [("insert_chats_one", sample_row)]]
              no_response)
           sample_row [sample_chat]); reflexivity.
Defined.



(** X21: [handleChatSelect] never throws and always makes the chosen
    chat the current one; the message list becomes what the store
    returned for that chat, or the empty list, with the failure logged,
    when the fetch fails. *)
Theorem chat_selection_shows_fetched_messages_or_none
        (chat : jsval) (w : World) :
  truthy chat = true ->
  let w' := snd (exec (handleChatSelect chat) w) in
  fst (exec (handleChatSelect chat) w) = Resolved tt
  /\ currentChat (ui w') = chat
  /\ requests w' =
     requests w
     ++ [ReqGraphql (GetMessages (get_prop_opt chat "id"))
           (bearer (access_token w))]
  /\ match api_outcome w "messages" with
     | Resolved v => messages (ui w') = v /\ console w' = console w
     | Rejected _ =>
         messages (ui w') = JArr []
         /\ console w' = console w ++ ["Failed to load messages:"]
     end.
Proof.
  intros Hc. cbn zeta. unfold handleChatSelect.
  rewrite NhostFacts.api_exec_bind.
  change (exec (perform (SetCurrentChat chat)) w)
    with (@Resolved unit tt, with_ui (set_currentChat chat) w).
  cbv beta iota.
  rewrite NhostFacts.api_exec_try_catch.
  rewrite (NhostFacts.truthy_get_prop_opt chat "id" Hc).
  cbn [bind lift].
  rewrite NhostFacts.api_exec_bind, NhostFacts.getMessages_run.
  change (api_outcome (with_ui (set_currentChat chat) w) "messages")
    with (api_outcome w "messages").
  destruct (api_outcome w "messages") as [v | e]; unfold exec; cbn;
    repeat split; reflexivity.
Qed.

Lemma chat_selection_shows_fetched_messages_or_none_witness :
  let w := nhost_world [graphql_data [("messages", JArr [sample_row])]]
             no_response in
  let w' := snd (exec (handleChatSelect sample_chat) w) in
  fst (exec (handleChatSelect sample_chat) w) = Resolved tt
  /\ currentChat (ui w') = sample_chat
  /\ requests w' =
     requests w
     ++ [ReqGraphql (GetMessages (JStr "chat-a")) (bearer (access_token w))]
  /\ messages (ui w') = JArr [sample_row] /\ console w' = console w.
Proof.
  apply (chat_selection_shows_fetched_messages_or_none sample_chat
           (nhost_world [graphql_data [("messages", JArr [sample_row])]]
              no_response)).
  reflexivity.
Defined.

(** X22: [handleAuthSuccess] never throws.  Without an Nhost user it
    does nothing at all; with one it stores the user with an empty
    e-mail address when there is none, marks the client authenticated
    and requests the chat list once. *)
Theorem auth_success_needs_a_user (w : World) :
  let w' := snd (exec handleAuthSuccess w) in
  let u := auth_user w in
  fst (exec handleAuthSuccess w) = Resolved tt
  /\ if truthy u
     then user (ui w') =
            JObj [("id", get_prop_opt u "id");
                  ("email", if truthy (get_prop_opt u "email")
                            then get_prop_opt u "email"
                            else JStr EmptyString);
                  ("displayName", if truthy (get_prop_opt u "displayName")
                                  then get_prop_opt u "displayName"
                                  else JUndefined);
                  ("avatarUrl", if truthy (get_prop_opt u "avatarUrl")
                                then get_prop_opt u "avatarUrl"
                                else JUndefined)]
          /\ isAuthenticated (ui w') = true
          /\ requests w' =
             requests w ++ [ReqGraphql GetChats (bearer (access_token w))]
     else w' = w.
Proof.
  cbn zeta. unfold handleAuthSuccess.
  rewrite NhostFacts.api_exec_bind.
  change (exec (perform GetUser) w) with (@Resolved jsval (auth_user w), w).
  cbv beta iota.
  destruct (truthy (auth_user w)) eqn:Hu.
  - rewrite !(NhostFacts.truthy_get_prop_opt (auth_user w) _ Hu).
    cbn [bind lift].
    rewrite NhostFacts.api_exec_bind.
    match goal with
    | |- context [exec (perform (SetUser ?v)) ?x] =>
        change (exec (perform (SetUser v)) x)
          with (@Resolved unit tt, with_ui (set_user v) x)
    end.
    cbv beta iota. rewrite NhostFacts.api_exec_bind.
    match goal with
    | |- context [exec (perform (SetIsAuthenticated true)) ?x] =>
        change (exec (perform (SetIsAuthenticated true)) x)
          with (@Resolved unit tt, with_ui (set_isAuthenticated true) x)
    end.
    cbv beta iota. rewrite NhostFacts.loadChats_run. cbn [fst snd].
    split; [reflexivity |].
    match goal with
    | |- context [api_outcome ?x "chats"] => destruct (api_outcome x "chats")
    end; cbn; repeat split; reflexivity.
  - split; reflexivity.
Qed.

(** X23: the polling effect sets an interval only when a chat is open
    and the client is authenticated.  Its callback never throws and asks
    for the messages of the chat its closure captured; a failed fetch is
    logged and leaves the message list on screen as it was. *)
Theorem failed_poll_keeps_the_messages (st : AppState) (w : World) :
  match poll_messages st with
  | None => truthy (currentChat st) = false \/ isAuthenticated st = false
  | Some tick =>
      let w' := snd (exec tick w) in
      truthy (currentChat st) = true
      /\ isAuthenticated st = true
      /\ fst (exec tick w) = Resolved tt
      /\ requests w' =
         requests w
         ++ [ReqGraphql (GetMessages (get_prop_opt (currentChat st) "id"))
               (bearer (access_token w))]
      /\ match api_outcome w "messages" with
         | Resolved v => messages (ui w') = v /\ console w' = console w
         | Rejected _ =>
             messages (ui w') = messages (ui w)
             /\ console w' = console w ++ ["Failed to fetch messages:"]
         end
  end.
Proof.
  unfold poll_messages.
  destruct (truthy (currentChat st)) eqn:Hc; cbn [negb orb];
    [| left; reflexivity].
  destruct (isAuthenticated st) eqn:Ha; cbn [negb];
    [| right; reflexivity].
  cbn zeta.
  rewrite NhostFacts.api_exec_try_catch.
  rewrite (NhostFacts.truthy_get_prop_opt (currentChat st) "id" Hc).
  cbn [bind lift].
  rewrite NhostFacts.api_exec_bind, NhostFacts.getMessages_run.
  destruct (api_outcome w "messages") as [v | e]; unfold exec; cbn;
    repeat split; reflexivity.
Qed.

(** X24: [sendToChatbot] sends exactly one request, to the webhook, and
    none to the store; when there is no Nhost user, or the user has no
    id, the request carries the empty string as the user id. *)
Theorem chatbot_request_of_an_anonymous_user
        (chatId : jsval) (message : string) (w : World) :
  truthy (get_prop_opt (auth_user w) "id") = false ->
  let w' := snd (exec (sendToChatbot chatId message) w) in
  requests w' =
    requests w
    ++ [ReqWebhook {| action_name := "sendMessage";
                      input_chat_id := chatId;
                      input_message := message;
                      hasura_role := "user";
                      hasura_user_id := JStr EmptyString |}]
  /\ ui w' = ui w
  /\ graphql w' = graphql w.
Proof.
  intros Hu. cbn zeta. rewrite NhostFacts.sendToChatbot_run.
  unfold chatbot_payload, js_or. rewrite Hu. repeat split; reflexivity.
Qed.

Lemma chatbot_request_of_an_anonymous_user_witness :
  let w := with_auth None JNull (nhost_world [] no_response) in
  let w' := snd (exec (sendToChatbot (JStr "chat-a") "hello") w) in
  requests w' =
    requests w
    ++ [ReqWebhook {| action_name := "sendMessage";
                      input_chat_id := JStr "chat-a";
                      input_message := "hello";
                      hasura_role := "user";
                      hasura_user_id := JStr EmptyString |}]
  /\ ui w' = ui w
  /\ graphql w' = graphql w.
Proof.
  apply (chatbot_request_of_an_anonymous_user (JStr "chat-a") "hello"
           (with_auth None JNull (nhost_world [] no_response))).
  reflexivity.
Defined.
End NhostExtra.

(* ================================================================== *)
(** * Further properties of the Apollo client: signing in, creating a chat *)
(* ================================================================== *)

Module ApolloScreensExtra.
Import ApolloScreens.

Lemma screen_exec_bind {A B} (p : P A) (f : A -> P B) (w : World) :
  exec (bind p f) w =
  match exec p w with
  | (Resolved v, w') => exec (f v) w'
  | (Rejected e, w') => (Rejected e, w')
  end.
Proof. apply run_bind. Qed.

Lemma screen_exec_try_catch {A} (p : P A) (h : string -> P A) (w : World) :
  exec (try_catch p h) w =
  match exec p w with
  | (Resolved v, w') => (Resolved v, w')
  | (Rejected e, w') => exec (h e) w'
  end.
Proof. apply run_try_catch. Qed.

Lemma screen_exec_try_finally {A} (p : P A) (q : P unit) (w : World) :
  exec (try_finally p q) w =
  match exec p w with
  | (Resolved v, w') =>
      match exec q w' with
      | (Resolved _, w'') => (Resolved v, w'')
      | (Rejected e, w'') => (Rejected e, w'')
      end
  | (Rejected e, w') =>
      match exec q w' with
      | (Resolved _, w'') => (Rejected e, w'')
      | (Rejected e', w'') => (Rejected e', w'')
      end
  end.
Proof. apply run_try_finally. Qed.

(** What a call of [signUp] or [signIn] amounts to, whatever the auth
    service answers. *)
Lemma email_password_cases (engine : JSEngine) (endpoint : AuthEndpoint)
      (failed network_error em pw : string) (w : World) :
  exists v w',
    exec (email_password endpoint failed network_error em pw) w
    = (Resolved v, w')
    /\ sent w' = sent w ++ [auth_request engine endpoint em pw]
    /\ form_error w' = form_error w
    /\ form_loading w' = form_loading w
    /\ alerts w' = alerts w
    /\ ApolloApp.ui (app w') = ApolloApp.ui (app w)
    /\ ((error_in v = Resolved true /\ app w' = app w)
        \/ (exists s,
              v = JObj [("user", get_prop_opt s "user"); ("session", s)]
              /\ truthy s = true
              /\ ApolloApp.storage (app w') = Some (JSON_stringify s)
              /\ ApolloApp.requests (app w') = ApolloApp.requests (app w)
              /\ ApolloApp.clock (app w') = shift (ApolloApp.clock (app w))
              /\ exists x,
                   get_prop_opt s "expiresAt"
                   = js_add_num (ApolloApp.clock (app w) 0%nat)
                       (js_mul x (JNum 1000)))).
Proof.
  unfold exec, email_password, auth_request, perform, call. cbn.
  destruct (auth_endpoint w 0%nat) as [r|e]; cbn.
  2: { eexists _, _; repeat split; left; split; reflexivity. }
  destruct (json r) as [data|e]; cbn.
  2: { eexists _, _; repeat split; left; split; reflexivity. }
  destruct (ok r); cbn.
  2: { destruct (get_prop data "message") as [m|e]; cbn;
       eexists _, _; repeat split; left; split; reflexivity. }
  destruct (get_prop data "session") as [ds|e]; cbn.
  2: { eexists _, _; repeat split; left; split; reflexivity. }
  destruct (truthy ds) eqn:Hds; cbn.
  2: { eexists _, _; repeat split; left; split; reflexivity. }
  destruct (get_prop ds "accessToken") as [a|e]; cbn.
  2: { eexists _, _; repeat split; left; split; reflexivity. }
  destruct (get_prop ds "refreshToken") as [b|e]; cbn.
  2: { eexists _, _; repeat split; left; split; reflexivity. }
  destruct (get_prop ds "user") as [u|e]; cbn.
  2: { eexists _, _; repeat split; left; split; reflexivity. }
  destruct (get_prop u "id") as [i|e]; cbn.
  2: { eexists _, _; repeat split; left; split; reflexivity. }
  destruct (get_prop u "email") as [m|e]; cbn.
  2: { eexists _, _; repeat split; left; split; reflexivity. }
  destruct (get_prop u "displayName") as [d|e]; cbn.
  2: { eexists _, _; repeat split; left; split; reflexivity. }
  rewrite (NhostFacts.truthy_get_prop_opt ds "accessTokenExpiresIn" Hds). cbn.
  eexists _, _. split; [reflexivity |]. cbn.
  repeat (split; [reflexivity |]).
  right.
  exists (ApolloApp.session_object a b i m d
            (js_add_num (ApolloApp.clock (app w) 0%nat)
               (js_mul (get_prop_opt ds "accessTokenExpiresIn") (JNum 1000)))).
  repeat (split; [reflexivity |]).
  eexists. reflexivity.
Qed.

Arguments email_password : simpl never.

(** X25: when the auth service refuses a sign-in or a sign-up (a status
    outside 200-299 with a JSON object as body), the call returns an
    error that is the [message] of the body, or ["Sign in failed"] /
    ["Sign up failed"] when the body has no usable message; nothing is
    stored and one request was sent. *)
Theorem refused_credentials_report_the_service_message
        (engine : JSEngine) (em pw : string) (w : World) (r : Response)
        (fields : list (string * jsval)) :
  auth_endpoint w 0%nat = Resolved r ->
  ok r = false ->
  json r = Resolved (JObj fields) ->
  let m := lookup_field "message" fields in
  fst (exec (signIn em pw) w)
  = Resolved (JObj [("error", if truthy m then m else JStr "Sign in failed")])
  /\ fst (exec (signUp em pw) w)
     = Resolved (JObj [("error", if truthy m then m else JStr "Sign up failed")])
  /\ app (snd (exec (signIn em pw) w)) = app w
  /\ app (snd (exec (signUp em pw) w)) = app w
  /\ sent (snd (exec (signIn em pw) w))
     = sent w ++ [auth_request engine signin_email_password em pw]
  /\ sent (snd (exec (signUp em pw) w))
     = sent w ++ [auth_request engine signup_email_password em pw].
Proof.
  intros Ha Hok Hj m. subst m.
  unfold exec, signIn, signUp, email_password, auth_request, perform, call.
  cbn. rewrite Ha. cbn. rewrite Hj. cbn. rewrite Hok. cbn.
  repeat split; reflexivity.
Qed.

Lemma refused_credentials_report_the_service_message_witness :
  let w := auth_world
             (Resolved (json_response 401
                          (JObj [("message",
                                  JStr "Incorrect email or password")])))
             100000 in
  let m := JStr "Incorrect email or password" in
  fst (exec (@signIn sample_engine "ada@example.org" "secret1") w)
  = Resolved (JObj [("error", if truthy m then m else JStr "Sign in failed")])
  /\ fst (exec (@signUp sample_engine "ada@example.org" "secret1") w)
     = Resolved (JObj [("error", if truthy m then m else JStr "Sign up failed")])
  /\ app (snd (exec (@signIn sample_engine "ada@example.org" "secret1") w))
     = app w
  /\ app (snd (exec (@signUp sample_engine "ada@example.org" "secret1") w))
     = app w
  /\ sent (snd (exec (@signIn sample_engine "ada@example.org" "secret1") w))
     = sent w ++ [auth_request sample_engine signin_email_password
                    "ada@example.org" "secret1"]
  /\ sent (snd (exec (@signUp sample_engine "ada@example.org" "secret1") w))
     = sent w ++ [auth_request sample_engine signup_email_password
                    "ada@example.org" "secret1"].
Proof.
  apply (refused_credentials_report_the_service_message sample_engine
           "ada@example.org" "secret1"
           (auth_world
              (Resolved (json_response 401
                           (JObj [("message",
                                   JStr "Incorrect email or password")])))
              100000)
           (json_response 401
              (JObj [("message", JStr "Incorrect email or password")]))
           [("message", JStr "Incorrect email or password")]);
    reflexivity.
Defined.

Lemma email_password_settles (engine : JSEngine) (endpoint : AuthEndpoint)
      (failed network_error em pw : string) (w : World) :
  returns_error_or_stored_session
    (email_password endpoint failed network_error em pw) w.
Proof.
  destruct (email_password_cases engine endpoint failed network_error em pw w)
    as (v & w' & Hr & _ & _ & _ & _ & _ & Hc).
  unfold returns_error_or_stored_session. rewrite Hr. cbn [fst snd].
  exists v. split; [reflexivity |].
  destruct Hc as [[He Ha] | (s & Hv & _ & Hst & _)].
  - left. rewrite Ha. split; [exact He | reflexivity].
  - right. exists s. split; assumption.
Qed.

(** X26: [signUp] and [signIn] never throw, whatever the auth service
    answers or fails to answer: they return an object with an [error],
    and then the storage is as it was, or a session with its user, and
    then the text of that very session is what the storage holds. *)
Theorem sign_in_stores_exactly_the_session_it_returns
        (engine : JSEngine) (em pw : string) (w : World) :
  returns_error_or_stored_session (signUp em pw) w
  /\ returns_error_or_stored_session (signIn em pw) w.
Proof. split; apply email_password_settles. Qed.

(** X27: a session that [signIn] returned survives a reload of the page:
    while it is at least five minutes from its expiry, the next
    [initializeAuth] adopts it and its user without any request, when
    the engine parses what it printed. *)
Theorem signed_in_session_survives_a_reload
        (engine : JSEngine) (em pw : string) (w w1 : World)
        (u s : jsval) (n : Z) :
  exec (signIn em pw) w
  = (Resolved (JObj [("user", u); ("session", s)]), w1) ->
  nonempty (Some (JSON_stringify s)) = Some (JSON_stringify s) ->
  JSON_parse (JSON_stringify s) = Some s ->
  get_prop_opt s "expiresAt" = JNum n ->
  ApolloApp.clock (app w1) 0%nat < n ->
  300000 <= n - ApolloApp.clock (app w1) 1%nat ->
  let b := snd (ApolloApp.exec ApolloApp.initializeAuth (app w1)) in
  ApolloApp.session (ApolloApp.ui b) = s
  /\ ApolloApp.user (ApolloApp.ui b) = u
  /\ ApolloApp.requests b = ApolloApp.requests (app w1)
  /\ ApolloApp.storage b = Some (JSON_stringify s)
  /\ ApolloApp.initializing (ApolloApp.ui b) = false.
Proof.
  intros Hrun Hne Hp He Hv Hfresh b. subst b.
  unfold signIn in Hrun.
  destruct (email_password_cases engine signin_email_password
              "Sign in failed" "Network error during sign in" em pw w)
    as (v & w' & Hr & _ & _ & _ & _ & _ & Hc).
  rewrite Hr in Hrun. inversion Hrun; subst v w'. clear Hrun Hr.
  destruct Hc as [[Herr _] | (s' & Hv' & _ & Hst & _)];
    [cbn in Herr; discriminate |].
  inversion Hv'; subst s' u. clear Hv'.
  destruct s as [| | | | | | |fields]; cbn in He; try discriminate.
  assert (Hsto : nonempty (ApolloApp.storage (app w1))
                 = Some (JSON_stringify (JObj fields))).
  { rewrite Hst. exact Hne. }
  assert (Hg : ApolloApp.exec ApolloApp.getStoredSession (app w1)
               = (Resolved (JObj fields), ApolloApp.next_clock (app w1))).
  { rewrite (ApolloFacts.getStoredSession_record engine (app w1) _ fields n
               Hsto Hp He).
    destruct (Z.leb_spec n (ApolloApp.clock (app w1) 0%nat));
      [lia | reflexivity]. }
  unfold ApolloApp.initializeAuth.
  rewrite ApolloFacts.exec_bind, Hg. cbv iota beta.
  unfold ApolloApp.exec, ApolloApp.perform, call. cbn. rewrite He. cbn.
  unfold js_lt, js_sub. cbn. unfold shift.
  destruct (Z.ltb_spec (n - ApolloApp.clock (app w1) 1%nat) 300000)
    as [Hlt | _]; [lia |].
  cbn. rewrite Hst. repeat split; reflexivity.
Qed.

Lemma signed_in_session_survives_a_reload_witness :
  let w := auth_world (Resolved (json_response 200 session_answer)) 100000 in
  let w1 := snd (exec (@signIn sample_engine "ada@example.org" "secret1") w) in
  let s := sample_session 1000000 in
  let b := snd (ApolloApp.exec (@ApolloApp.initializeAuth sample_engine)
                  (app w1)) in
  ApolloApp.session (ApolloApp.ui b) = s
  /\ ApolloApp.user (ApolloApp.ui b) = get_prop_opt s "user"
  /\ ApolloApp.requests b = ApolloApp.requests (app w1)
  /\ ApolloApp.storage b = Some (@JSON_stringify sample_engine s)
  /\ ApolloApp.initializing (ApolloApp.ui b) = false.
Proof.
  apply (signed_in_session_survives_a_reload sample_engine
           "ada@example.org" "secret1"
           (auth_world (Resolved (json_response 200 session_answer)) 100000)
           (snd (exec (@signIn sample_engine "ada@example.org" "secret1")
                   (auth_world (Resolved (json_response 200 session_answer))
                      100000)))
           (get_prop_opt (sample_session 1000000) "user")
           (sample_session 1000000) 1000000);
    first [reflexivity | vm_compute; reflexivity | vm_compute; discriminate].
Defined.

(** X28: a form that fails the checks of [handleSubmit] sends no request
    and touches nothing of the application: a sign-up whose two
    passwords differ is told so, before the length is looked at; a
    password of fewer than six characters is refused, in both modes; the
    form is left not loading. *)
Theorem invalid_form_sends_no_request
        (engine : JSEngine) (f : FormState) (w : World) :
  (isSignUp f = true /\ password f <> confirmPassword f)
  \/ (String.length (password f) < 6)%nat ->
  let w' := snd (exec (handleSubmit f) w) in
  fst (exec (handleSubmit f) w) = Resolved tt
  /\ sent w' = sent w
  /\ app w' = app w
  /\ form_loading w' = false
  /\ form_error w' =
     JStr (if isSignUp f
           then if String.eqb (password f) (confirmPassword f)
                then "Password must be at least 6 characters"
                else "Passwords do not match"
           else "Password must be at least 6 characters").
Proof.
  intros H. cbn zeta. unfold handleSubmit.
  destruct (isSignUp f) eqn:Hs;
    destruct (String.eqb (password f) (confirmPassword f)) eqn:Heq;
    cbn [andb negb].
  - destruct H as [[_ Hne] | Hlen].
    + apply String.eqb_eq in Heq. contradiction.
    + apply Nat.ltb_lt in Hlen. rewrite Hlen.
      unfold exec. cbn. repeat split; reflexivity.
  - unfold exec. cbn. repeat split; reflexivity.
  - destruct H as [[Hf _] | Hlen]; [discriminate |].
    apply Nat.ltb_lt in Hlen. rewrite Hlen.
    unfold exec. cbn. repeat split; reflexivity.
  - destruct H as [[Hf _] | Hlen]; [discriminate |].
    apply Nat.ltb_lt in Hlen. rewrite Hlen.
    unfold exec. cbn. repeat split; reflexivity.
Qed.

Lemma invalid_form_sends_no_request_witness :
  let f := sample_form true "abc" "abd" in
  let w := auth_world (Resolved (json_response 200 session_answer)) 100000 in
  let w' := snd (exec (@handleSubmit sample_engine f) w) in
  fst (exec (@handleSubmit sample_engine f) w) = Resolved tt
  /\ sent w' = sent w
  /\ app w' = app w
  /\ form_loading w' = false
  /\ form_error w' = JStr "Passwords do not match".
Proof.
  apply (invalid_form_sends_no_request sample_engine
           (sample_form true "abc" "abd")
           (auth_world (Resolved (json_response 200 session_answer)) 100000)).
  left. split; [reflexivity | discriminate].
Defined.

(** X29: [handleSubmit] never throws and always leaves the form not
    loading.  Either it leaves the application's state and the storage
    as they were, or it has handed to the application a session whose
    text is what the storage holds, with the user of that session, and
    the form shows no error. *)
Theorem submit_hands_over_only_a_stored_session
        (engine : JSEngine) (f : FormState) (w : World) :
  let w' := snd (exec (handleSubmit f) w) in
  fst (exec (handleSubmit f) w) = Resolved tt
  /\ form_loading w' = false
  /\ (app w' = app w
      \/ exists s,
           ApolloApp.session (ApolloApp.ui (app w')) = s
           /\ ApolloApp.user (ApolloApp.ui (app w')) = get_prop_opt s "user"
           /\ ApolloApp.storage (app w') = Some (JSON_stringify s)
           /\ form_error w' = JStr EmptyString).
Proof.
  cbn zeta. unfold handleSubmit.
  destruct (isSignUp f && negb (String.eqb (password f) (confirmPassword f))).
  { unfold exec. cbn. repeat split. left. reflexivity. }
  destruct (String.length (password f) <? 6)%nat.
  { unfold exec. cbn. repeat split. left. reflexivity. }
  match goal with
  | |- context [bind ?p _] =>
      match p with
      | (if isSignUp f then _ else _) =>
          assert (Hsign : exists endpoint failed network_error,
                     p = email_password endpoint failed network_error
                           (email f) (password f))
            by (destruct (isSignUp f); do 3 eexists; reflexivity);
          destruct Hsign as (endpoint & failed & network_error & Hsign);
          rewrite Hsign; clear Hsign
      end
  end.
  unfold exec. cbn. change (run handle) with (@exec unit).
  rewrite screen_exec_try_finally, screen_exec_try_catch, screen_exec_bind.
  match goal with
  | |- context [exec (email_password ?a ?b ?c ?d ?e) ?x] =>
      destruct (email_password_cases engine a b c d e x)
        as (v & w' & Hr & _ & Hfe & _ & _ & _ & Hc); rewrite Hr
  end.
  cbn in Hfe.
  destruct Hc as [[He Ha] | (s & Hv & Hts & Hst & _)].
  - destruct v as [| | | | | | |fields]; cbn in He; try discriminate.
    injection He as He. unfold exec. cbn. rewrite He. cbn.
    split; [reflexivity |]. split; [reflexivity |]. left. exact Ha.
  - subst v. unfold exec. cbn.
    split; [reflexivity |]. split; [reflexivity |]. right.
    exists s. repeat split; [exact Hst | exact Hfe].
Qed.

(** X30: with an Apollo client, [handleCreateChat] never throws and
    sends one mutation, titled with the local date and time.  The chat
    the store returns is put in front of the chat list as it is then
    and becomes the selected chat; when the store returns no chat the
    lists stay as they were; when the mutation fails the state stays as
    it was and the user is alerted. *)
Theorem created_chat_is_put_first_and_selected (c : jsval) (w : World) :
  let w' := snd (exec (handleCreateChat (Some c)) w) in
  let ui' := ApolloApp.ui (app w') in
  fst (exec (handleCreateChat (Some c)) w) = Resolved tt
  /\ sent w' =
     sent w ++ [ReqCreateChat ("New Chat - " ++ locale_clock w 0%nat)%string]
  /\ match chat_create w 0%nat with
     | Resolved (Some newChat) =>
         ApolloApp.chats ui' = newChat :: ApolloApp.chats (ApolloApp.ui (app w))
         /\ ApolloApp.selectedChatId ui' = Some (id newChat)
         /\ ApolloApp.messages ui' = ApolloApp.messages (ApolloApp.ui (app w))
         /\ alerts w' = alerts w
     | Resolved None =>
         ui' = ApolloApp.ui (app w)
         /\ alerts w' = alerts w
         /\ ApolloApp.console (app w') =
            ApolloApp.console (app w)
            ++ ["Creating new chat with title:"; "Chat creation response:";
                "No chat data returned from mutation"]
     | Rejected _ =>
         ui' = ApolloApp.ui (app w)
         /\ alerts w' =
            alerts w ++ ["Failed to create new chat. Please try again."]
         /\ ApolloApp.console (app w') =
            ApolloApp.console (app w)
            ++ ["Creating new chat with title:"; "Error creating chat:"]
     end.
Proof.
  cbn zeta. unfold exec, handleCreateChat, perform, call. cbn.
  destruct (chat_create w 0%nat) as [[newChat |] | e]; cbn;
    rewrite <- ?app_assoc; repeat split; reflexivity.
Qed.
End ApolloScreensExtra.
